(** * Portfolio analysis tool: valuation, parsing and persistence

    A shallow embedding of [final_portfolio_project.py] and the properties
    of its metric functions, holding classes, record parsers, SQLite upsert
    step and top-level run.

    Conventions of the embedding:
    - a Python [str] is a [string] of ASCII characters;
    - a Python [int] is a [Z];
    - a Python [float] is an IEEE 754 binary64 value, a [spec_float] used
      at precision 53 and maximal exponent 1024;
    - a Python call that can raise returns a [result]: [Ok v] or
      [Raise e];
    - what the program prints is a list of structured [output] events;
    - the outside world (files, clock, keyboard, database file) is an
      explicit argument. *)

From Stdlib Require Import ZArith String Ascii List Lia Bool DecimalString.
From Stdlib Require Import SpecFloat.
From Stdlib Require DecimalNat.
From stdpp Require Import base option list strings gmap.

Local Open Scope string_scope.
Local Open Scope list_scope.
Local Open Scope Z_scope.

(** ** Exceptions and results *)

(** The exception classes the modelled operations can raise. All of them
    derive from Python's [Exception]. *)
Inductive exn : Type :=
  | ValueError
  | ZeroDivisionError
  | OverflowError
  | IndexError
  | EOFError
  | FileNotFoundError
  | OperationalError
  | OtherError.

Inductive result (A : Type) : Type :=
  | Ok (a : A)
  | Raise (e : exn).
Arguments Ok {A} a.
Arguments Raise {A} e.

Definition bind {A B : Type} (r : result A) (k : A -> result B) : result B :=
  match r with
  | Ok a => k a
  | Raise e => Raise e
  end.

Notation "x <- r ;; k" := (bind r (fun x => k))
  (at level 100, r at next level, right associativity).

Definition is_ok {A : Type} (r : result A) : bool :=
  match r with Ok _ => true | Raise _ => false end.

(** ** Floats *)

Module PyFloat.

Definition prec : Z := 53.
Definition emax : Z := 1024.

Abbreviation float := spec_float.

(** Correctly rounded (to nearest, ties to even) value of [m * 2^e]. *)
Definition of_scaled (m e : Z) : float := binary_normalize prec emax m e false.

(** The value of an integer as a float, before any range check. *)
Definition round_Z (z : Z) : float := of_scaled z 0.

Definition is_infinite (x : float) : bool :=
  match x with S754_infinity _ => true | _ => false end.

(** [float(z)] for an int, and the implicit conversion of an int operand
    in mixed arithmetic: [OverflowError] when the int is too large. *)
Definition of_int (z : Z) : result float :=
  let x := round_Z z in
  if is_infinite x then Raise OverflowError else Ok x.

Definition zero : float := S754_zero false.
Definition hundred : float := round_Z 100.
(** 365.25 = 1461 / 4, exactly representable. *)
Definition days_per_year : float := of_scaled 1461 (-2).

Definition add (x y : float) : float := SFadd prec emax x y.
Definition sub (x y : float) : float := SFsub prec emax x y.
Definition mul (x y : float) : float := SFmul prec emax x y.
Definition eqb (x y : float) : bool := SFeqb x y.
Definition leb (x y : float) : bool := SFleb x y.
Definition ltb (x y : float) : bool := SFltb x y.

(** The IEEE 754 quotient. *)
Definition quotient (x y : float) : float := SFdiv prec emax x y.

(** [x / y]: Python raises [ZeroDivisionError] when the divisor compares
    equal to zero (either sign); every other case follows IEEE 754. *)
Definition div (x y : float) : result float :=
  if eqb y zero then Raise ZeroDivisionError else Ok (quotient x y).

(** Mixed int/float arithmetic converts the int operand first. *)
Definition mul_int_l (z : Z) (y : float) : result float :=
  x <- of_int z ;; Ok (mul x y).
Definition mul_int_r (x : float) (z : Z) : result float :=
  y <- of_int z ;; Ok (mul x y).
Definition div_int_l (z : Z) (y : float) : result float :=
  x <- of_int z ;; div x y.
Definition div_int_r (x : float) (z : Z) : result float :=
  y <- of_int z ;; div x y.

(** Correctly rounded value of [(-1)^s * m / d] for [m >= 0] and [d > 0]. *)
Definition of_ratio (s : bool) (m d : Z) : float :=
  if (m =? 0)%Z then S754_zero s
  else
    let '(q, e, l) := SFdiv_core_binary prec emax m 0 d 0 in
    binary_round_aux prec emax s q e l.

(** Correctly rounded value of [(-1)^s * m * 10^e10]. *)
Definition of_decimal (s : bool) (m e10 : Z) : float :=
  if (0 <=? e10)%Z
  then binary_normalize prec emax ((if s then Z.opp m else m) * 10 ^ e10) 0 s
  else of_ratio s m (10 ^ (- e10)).

(** [int(x)] on a float: truncation toward zero. *)
Definition trunc (x : float) : result Z :=
  match x with
  | S754_zero _ => Ok 0
  | S754_nan => Raise ValueError
  | S754_infinity _ => Raise OverflowError
  | S754_finite s m e =>
      let a := match e with
               | Zneg k => Z.shiftr (Zpos m) (Zpos k)
               | _ => Z.shiftl (Zpos m) e
               end in
      Ok (if s then Z.opp a else a)
  end.

End PyFloat.

Abbreviation float := PyFloat.float.

(** ** Strings *)

Module PyStr.

Definition code (c : ascii) : Z := Z.of_N (N_of_ascii c).

(** [str.isspace] on the characters of the model: tab, line feed,
    vertical tab, form feed, carriage return, the four separators
    0x1c..0x1f and the space. *)
Definition is_space (c : ascii) : bool :=
  let n := code c in
  ((9 <=? n) && (n <=? 13)) || ((28 <=? n) && (n <=? 32)).

Definition is_digit (c : ascii) : bool :=
  let n := code c in (48 <=? n) && (n <=? 57).

Definition digit_value (c : ascii) : Z := code c - 48.

Definition is_empty (s : string) : bool :=
  match s with EmptyString => true | String _ _ => false end.

Definition char_eqb (a b : ascii) : bool := Ascii.eqb a b.

(** [s.lstrip(chars)] and [s.rstrip(chars)], for a predicate on
    characters. *)
Fixpoint lstrip_by (p : ascii -> bool) (s : string) : string :=
  match s with
  | EmptyString => EmptyString
  | String c r => if p c then lstrip_by p r else s
  end.

Fixpoint rstrip_by (p : ascii -> bool) (s : string) : string :=
  match s with
  | EmptyString => EmptyString
  | String c r =>
      let r' := rstrip_by p r in
      if p c && is_empty r' then EmptyString else String c r'
  end.

Definition strip_by (p : ascii -> bool) (s : string) : string :=
  rstrip_by p (lstrip_by p s).

(** [s.strip()] *)
Definition strip (s : string) : string := strip_by is_space s.

(** [s.strip(c)] for a one-character argument. *)
Definition strip_char (c : ascii) (s : string) : string :=
  strip_by (char_eqb c) s.

(** [s.split(sep)] for a one-character separator: never empty, and
    [''.split(',')] is [['']]. *)
Fixpoint split_on (sep : ascii) (s : string) : list string :=
  match s with
  | EmptyString => [EmptyString]
  | String c r =>
      if char_eqb c sep then EmptyString :: split_on sep r
      else match split_on sep r with
           | w :: ws => String c w :: ws
           | [] => [String c EmptyString]
           end
  end.

(** [s.split()]: the maximal runs of non-space characters. *)
Fixpoint split_ws (s : string) : list string :=
  match s with
  | EmptyString => []
  | String c r =>
      if is_space c then split_ws r
      else match r with
           | EmptyString => [String c EmptyString]
           | String c' _ =>
               if is_space c' then String c EmptyString :: split_ws r
               else match split_ws r with
                    | w :: ws => String c w :: ws
                    | [] => [String c EmptyString]
                    end
           end
  end.

Definition map_chars (f : ascii -> ascii) : string -> string :=
  fix go (s : string) : string :=
    match s with
    | EmptyString => EmptyString
    | String c r => String (f c) (go r)
    end.

Definition lower_char (c : ascii) : ascii :=
  let n := code c in
  if (65 <=? n) && (n <=? 90) then ascii_of_N (Z.to_N (n + 32)) else c.

Definition upper_char (c : ascii) : ascii :=
  let n := code c in
  if (97 <=? n) && (n <=? 122) then ascii_of_N (Z.to_N (n - 32)) else c.

(** [s.lower()] and [s.upper()] *)
Definition lower : string -> string := map_chars lower_char.
Definition upper : string -> string := map_chars upper_char.

Fixpoint contains (c : ascii) (s : string) : bool :=
  match s with
  | EmptyString => false
  | String a r => char_eqb c a || contains c r
  end.

(** The decimal rendering of a line number, as an f-string prints it. *)
Definition of_nat (n : nat) : string := NilEmpty.string_of_uint (Nat.to_uint n).

(** A run of digits in which single underscores may separate digits:
    its value and its number of digits. *)
Fixpoint digitpart_go (acc count : Z) (after_digit : bool) (s : string)
  : option (Z * Z) :=
  match s with
  | EmptyString => if after_digit then Some (acc, count) else None
  | String c r =>
      if is_digit c then digitpart_go (10 * acc + digit_value c) (count + 1) true r
      else if char_eqb c "_" && after_digit then digitpart_go acc count false r
      else None
  end.

Definition digitpart (s : string) : option (Z * Z) := digitpart_go 0 0 false s.

(** An optional sign: [true] for a minus. *)
Definition take_sign (s : string) : bool * string :=
  match s with
  | String c r =>
      if char_eqb c "-" then (true, r)
      else if char_eqb c "+" then (false, r)
      else (false, s)
  | EmptyString => (false, s)
  end.

(** [int(s)] on a str, base 10. *)
Definition parse_int (s : string) : result Z :=
  let '(neg, body) := take_sign (strip s) in
  match digitpart body with
  | Some (v, _) => Ok (if neg then - v else v)
  | None => Raise ValueError
  end.

(** Cut a string at the first character satisfying [p]: the part before
    it, and the part after it when there is one. *)
Fixpoint cut_at (p : ascii -> bool) (s : string) : string * option string :=
  match s with
  | EmptyString => (EmptyString, None)
  | String c r =>
      if p c then (EmptyString, Some r)
      else let '(a, b) := cut_at p r in (String c a, b)
  end.

(** The digits of a mantissa [int.frac], [int.], [.frac] or [int]: the
    integer they spell and the number of fraction digits. *)
Definition parse_mantissa (s : string) : option (Z * Z) :=
  let '(ip, fo) := cut_at (char_eqb ".") s in
  match fo with
  | None => match digitpart ip with Some (v, _) => Some (v, 0) | None => None end
  | Some fp =>
      match is_empty ip, is_empty fp with
      | true, true => None
      | false, true =>
          match digitpart ip with Some (v, _) => Some (v, 0) | None => None end
      | true, false => digitpart fp
      | false, false =>
          match digitpart ip, digitpart fp with
          | Some (v, _), Some (w, k) => Some (v * 10 ^ k + w, k)
          | _, _ => None
          end
      end
  end.

Definition parse_exponent (s : string) : option Z :=
  let '(neg, body) := take_sign s in
  match digitpart body with
  | Some (v, _) => Some (if neg then - v else v)
  | None => None
  end.

Definition is_e (c : ascii) : bool := char_eqb c "e" || char_eqb c "E".

(** [float(s)] on a str: surrounding white space, an optional sign, then
    [inf], [infinity] or [nan] in any case, or a decimal number with an
    optional exponent; the value is correctly rounded. *)
Definition parse_float (s : string) : result float :=
  let '(neg, body) := take_sign (strip s) in
  let low := lower body in
  if String.eqb low "inf" || String.eqb low "infinity" then Ok (S754_infinity neg)
  else if String.eqb low "nan" then Ok S754_nan
  else
    let '(ms, eo) := cut_at is_e body in
    match parse_mantissa ms, eo with
    | Some (m, k), None => Ok (PyFloat.of_decimal neg m (- k))
    | Some (m, k), Some es =>
        match parse_exponent es with
        | Some e => Ok (PyFloat.of_decimal neg m (e - k))
        | None => Raise ValueError
        end
    | None, _ => Raise ValueError
    end.

End PyStr.

(** ** Dates and times *)

Module Datetime.

Record date : Type := { year : Z; month : Z; day : Z }.

Record datetime : Type :=
  { on : date; hour : Z; minute : Z; second : Z; microsecond : Z }.

Record timedelta : Type := { days : Z; seconds : Z; microseconds : Z }.

Definition is_leap (y : Z) : bool :=
  (y mod 4 =? 0) && (negb (y mod 100 =? 0) || (y mod 400 =? 0)).

Definition days_in_month (y m : Z) : Z :=
  match m with
  | 1 => 31 | 2 => if is_leap y then 29 else 28 | 3 => 31 | 4 => 30
  | 5 => 31 | 6 => 30 | 7 => 31 | 8 => 31 | 9 => 30 | 10 => 31
  | 11 => 30 | 12 => 31
  | _ => 0
  end.

Definition days_before_year (y : Z) : Z :=
  let p := y - 1 in p * 365 + p / 4 - p / 100 + p / 400.

Definition days_before_month (y m : Z) : Z :=
  (match m with
   | 1 => 0 | 2 => 31 | 3 => 59 | 4 => 90 | 5 => 120 | 6 => 151
   | 7 => 181 | 8 => 212 | 9 => 243 | 10 => 273 | 11 => 304 | 12 => 334
   | _ => 0
   end) + (if (2 <? m) && is_leap y then 1 else 0).

(** The proleptic Gregorian ordinal: 1 for 0001-01-01. *)
Definition toordinal (d : date) : Z :=
  days_before_year (year d) + days_before_month (year d) (month d) + day d.

Definition valid_date (d : date) : bool :=
  (1 <=? year d) && (year d <=? 9999) &&
  (1 <=? month d) && (month d <=? 12) &&
  (1 <=? day d) && (day d <=? days_in_month (year d) (month d)).

Definition valid_datetime (t : datetime) : bool :=
  valid_date (on t) &&
  (0 <=? hour t) && (hour t <? 24) &&
  (0 <=? minute t) && (minute t <? 60) &&
  (0 <=? second t) && (second t <? 60) &&
  (0 <=? microsecond t) && (microsecond t <? 1000000).

(** [datetime(y, m, d)]: midnight of a date, refused with [ValueError]
    when the date does not exist. *)
Definition midnight (y m d : Z) : result datetime :=
  let dt := {| year := y; month := m; day := d |} in
  if valid_date dt
  then Ok {| on := dt; hour := 0; minute := 0; second := 0; microsecond := 0 |}
  else Raise ValueError.

(** [timedelta(days, seconds, microseconds)] carries microseconds into
    seconds and seconds into days, rounding toward minus infinity. *)
Definition mk_timedelta (d s us : Z) : timedelta :=
  let s1 := s + us / 1000000 in
  {| days := d + s1 / 86400;
     seconds := s1 mod 86400;
     microseconds := us mod 1000000 |}.

Definition seconds_of_day (t : datetime) : Z :=
  second t + minute t * 60 + hour t * 3600.

(** [a - b] on two datetimes. *)
Definition sub (a b : datetime) : timedelta :=
  mk_timedelta (toordinal (on a) - toordinal (on b))
               (seconds_of_day a - seconds_of_day b)
               (microsecond a - microsecond b).

(** [a < b] on two datetimes: field by field, most significant first. *)
Definition fields (t : datetime) : list Z :=
  [year (on t); month (on t); day (on t); hour t; minute t; second t; microsecond t].

Fixpoint lex_ltb (a b : list Z) : bool :=
  match a, b with
  | x :: a', y :: b' => (x <? y) || ((x =? y) && lex_ltb a' b')
  | [], _ :: _ => true
  | _, [] => false
  end.

Definition ltb (a b : datetime) : bool := lex_ltb (fields a) (fields b).

Definition digit_in (lo hi : Z) (c : ascii) : bool :=
  (lo <=? PyStr.digit_value c) && (PyStr.digit_value c <=? hi) && PyStr.is_digit c.

(** The directive [%m]: [1[0-2]], [0[1-9]] or [[1-9]]. *)
Definition month_field (s : string) : option Z :=
  match s with
  | String a (String b EmptyString) =>
      if PyStr.char_eqb a "1" && digit_in 0 2 b then Some (10 + PyStr.digit_value b)
      else if PyStr.char_eqb a "0" && digit_in 1 9 b then Some (PyStr.digit_value b)
      else None
  | String a EmptyString =>
      if digit_in 1 9 a then Some (PyStr.digit_value a) else None
  | _ => None
  end.

(** The directive [%d]: [3[0-1]], [[1-2]\d], [0[1-9]], [[1-9]] or a
    space and [[1-9]]. *)
Definition day_field (s : string) : option Z :=
  match s with
  | String a (String b EmptyString) =>
      if PyStr.char_eqb a "3" && digit_in 0 1 b then Some (30 + PyStr.digit_value b)
      else if digit_in 1 2 a && PyStr.is_digit b
           then Some (10 * PyStr.digit_value a + PyStr.digit_value b)
      else if (PyStr.char_eqb a "0" || PyStr.char_eqb a " ") && digit_in 1 9 b
           then Some (PyStr.digit_value b)
      else None
  | String a EmptyString =>
      if digit_in 1 9 a then Some (PyStr.digit_value a) else None
  | _ => None
  end.

(** The directive [%Y]: exactly four digits. *)
Definition year_field (s : string) : option Z :=
  match s with
  | String a (String b (String c (String d EmptyString))) =>
      if PyStr.is_digit a && PyStr.is_digit b && PyStr.is_digit c && PyStr.is_digit d
      then Some (1000 * PyStr.digit_value a + 100 * PyStr.digit_value b
                 + 10 * PyStr.digit_value c + PyStr.digit_value d)
      else None
  | _ => None
  end.

(** [datetime.strptime(s, "%m/%d/%Y")]: the whole string must be a month
    field, a slash, a day field, a slash and a year field, and the date
    must exist. No field can hold a slash, so the string is cut at its
    slashes. *)
Definition strptime_mdy (s : string) : result datetime :=
  match PyStr.split_on "/" s with
  | [ms; ds; ys] =>
      match month_field ms, day_field ds, year_field ys with
      | Some m, Some d, Some y => midnight y m d
      | _, _, _ => Raise ValueError
      end
  | _ => Raise ValueError
  end.

End Datetime.


(** ** Values handed to the constructors *)

(** The constructors receive strings from the parsers and int and float
    literals from [main]. *)
Inductive pyval : Type :=
  | VStr (s : string)
  | VInt (z : Z)
  | VFloat (x : float).

(** [int(v)] *)
Definition py_int (v : pyval) : result Z :=
  match v with
  | VStr s => PyStr.parse_int s
  | VInt z => Ok z
  | VFloat x => PyFloat.trunc x
  end.

(** [float(v)] *)
Definition py_float (v : pyval) : result float :=
  match v with
  | VStr s => PyStr.parse_float s
  | VInt z => PyFloat.of_int z
  | VFloat x => Ok x
  end.

(** ** The outside world and the state of a run *)

Inductive sqlval : Type :=
  | SqlNull
  | SqlInt (z : Z)
  | SqlReal (x : float)
  | SqlText (s : string).

(** A row is its primary key [purchase_id] and its other columns; a table
    is its rows in insertion order. *)
Abbreviation row := (string * list sqlval)%type.
Abbreviation table := (list row).

(** The database file: each table, once created. *)
Record store : Type :=
  { stocks_table : option table;
    bonds_table : option table }.

Inductive cell : Type :=
  | CText (s : string)
  | CInt (z : Z)
  | CFloat (x : float).

(** What the program prints; numbers are kept as values, not as their
    formatted text. *)
Inductive output : Type :=
  | ErrReadStock (filename : string) (e : exn)
  | ErrReadBond (filename : string) (e : exn)
  | ErrReport (filename : string) (e : exn)
  | ErrCsv (filename : string) (e : exn)
  | VizFailed (e : exn)
  | VizSaved
  | Menu
  | Prompt (text : string)
  | OutEarnings (symbol : string) (earn : float)
  | OutYearly (symbol : string) (yearly : float)
  | OutLookup (symbol : string) (earn yearly : float)
  | OutNotFound
  | OutInvalid.

Record state : Type :=
  { (** the text files that can be opened for reading, as their lines *)
    files : gmap string (list string);
    (** whether a file can be opened for writing *)
    writable : string -> bool;
    (** what has been written to each output file, line by line *)
    written : gmap string (list (list cell));
    (** the successive readings of [datetime.today()] *)
    clock : nat -> Datetime.datetime;
    ticks : nat;
    (** the lines still to come on standard input *)
    stdin : list string;
    stdout : list output;
    (** the committed content of the database file; [None] when the file
        cannot be opened *)
    db_disk : option store;
    (** the content seen through the connection while a transaction is
        open *)
    db_pending : option store;
    opened : nat;
    closes : nat;
    (** what loading the price history and drawing the chart does, given
        the portfolio map *)
    chart : gmap string Z -> result unit }.

Definition set_written (v : gmap string (list (list cell))) (st : state) : state :=
  {| files := files st; writable := writable st; written := v; clock := clock st;
     ticks := ticks st; stdin := stdin st; stdout := stdout st; db_disk := db_disk st;
     db_pending := db_pending st; opened := opened st; closes := closes st;
     chart := chart st |}.
Definition set_ticks (v : nat) (st : state) : state :=
  {| files := files st; writable := writable st; written := written st; clock := clock st;
     ticks := v; stdin := stdin st; stdout := stdout st; db_disk := db_disk st;
     db_pending := db_pending st; opened := opened st; closes := closes st;
     chart := chart st |}.
Definition set_stdin (v : list string) (st : state) : state :=
  {| files := files st; writable := writable st; written := written st; clock := clock st;
     ticks := ticks st; stdin := v; stdout := stdout st; db_disk := db_disk st;
     db_pending := db_pending st; opened := opened st; closes := closes st;
     chart := chart st |}.
Definition set_stdout (v : list output) (st : state) : state :=
  {| files := files st; writable := writable st; written := written st; clock := clock st;
     ticks := ticks st; stdin := stdin st; stdout := v; db_disk := db_disk st;
     db_pending := db_pending st; opened := opened st; closes := closes st;
     chart := chart st |}.
Definition set_db_disk (v : option store) (st : state) : state :=
  {| files := files st; writable := writable st; written := written st; clock := clock st;
     ticks := ticks st; stdin := stdin st; stdout := stdout st; db_disk := v;
     db_pending := db_pending st; opened := opened st; closes := closes st;
     chart := chart st |}.
Definition set_db_pending (v : option store) (st : state) : state :=
  {| files := files st; writable := writable st; written := written st; clock := clock st;
     ticks := ticks st; stdin := stdin st; stdout := stdout st; db_disk := db_disk st;
     db_pending := v; opened := opened st; closes := closes st;
     chart := chart st |}.
Definition set_opened (v : nat) (st : state) : state :=
  {| files := files st; writable := writable st; written := written st; clock := clock st;
     ticks := ticks st; stdin := stdin st; stdout := stdout st; db_disk := db_disk st;
     db_pending := db_pending st; opened := v; closes := closes st;
     chart := chart st |}.
Definition set_closes (v : nat) (st : state) : state :=
  {| files := files st; writable := writable st; written := written st; clock := clock st;
     ticks := ticks st; stdin := stdin st; stdout := stdout st; db_disk := db_disk st;
     db_pending := db_pending st; opened := opened st; closes := v;
     chart := chart st |}.

(** A computation that reads and changes the state and may raise; the
    state reached when it raises is kept. *)
Definition M (A : Type) : Type := state -> result A * state.

Definition ret {A : Type} (a : A) : M A := fun st => (Ok a, st).
Definition raise {A : Type} (e : exn) : M A := fun st => (Raise e, st).
Definition lift {A : Type} (r : result A) : M A := fun st => (r, st).

Definition bindM {A B : Type} (m : M A) (k : A -> M B) : M B :=
  fun st =>
    match m st with
    | (Ok a, st') => k a st'
    | (Raise e, st') => (Raise e, st')
    end.

Notation "x <~ m ;; k" := (bindM m (fun x => k))
  (at level 100, m at next level, right associativity).
Notation "m ;;; k" := (bindM m (fun _ => k))
  (at level 100, right associativity).

(** [try: body / except Exception as e: handler(e)] *)
Definition try_except {A : Type} (body : M A) (handler : exn -> M A) : M A :=
  fun st =>
    match body st with
    | (Ok a, st') => (Ok a, st')
    | (Raise e, st') => handler e st'
    end.

(** [for x in l: body(x)] *)
Fixpoint for_each {A : Type} (l : list A) (body : A -> M unit) : M unit :=
  match l with
  | [] => ret tt
  | x :: l' => body x ;;; for_each l' body
  end.

Definition print (o : output) : M unit :=
  fun st => (Ok tt, set_stdout (stdout st ++ [o]) st).

(** [datetime.today()] *)
Definition datetime_today : M Datetime.datetime :=
  fun st => (Ok (clock st (ticks st)), set_ticks (S (ticks st)) st).

(** [input(prompt)] *)
Definition input (prompt : string) : M string :=
  print (Prompt prompt) ;;;
  fun st =>
    match stdin st with
    | [] => (Raise EOFError, st)
    | line :: rest => (Ok line, set_stdin rest st)
    end.

(** [open(filename, 'w')]: the file is created or emptied. *)
Definition open_w (filename : string) : M unit :=
  fun st =>
    if writable st filename
    then (Ok tt, set_written (<[filename := []]> (written st)) st)
    else (Raise FileNotFoundError, st).

(** [f.write(...)] and [writer.writerow(...)]: one more line. *)
Definition write_line (filename : string) (line : list cell) : M unit :=
  fun st =>
    (Ok tt,
     set_written (<[filename := default [] (written st !! filename) ++ [line]]> (written st)) st).

(** ** Utility functions *)

Definition calculate_earnings (current_price purchase_price : float) (shares : Z)
  : result float :=
  PyFloat.mul_int_r (PyFloat.sub current_price purchase_price) shares.

Definition calculate_percentage_yield (current_price purchase_price : float)
  : result float :=
  q <- PyFloat.div (PyFloat.sub current_price purchase_price) purchase_price ;;
  PyFloat.mul_int_r q 100.

(** [(today - purchase_date).days / 365.25] *)
Definition years_held_of (today purchase_date : Datetime.datetime) : result float :=
  PyFloat.div_int_l (Datetime.days (Datetime.sub today purchase_date))
                    PyFloat.days_per_year.

Definition calculate_yearly_return (current_price purchase_price : float)
    (purchase_date_str : string) : M float :=
  purchase_date <~ lift (Datetime.strptime_mdy purchase_date_str) ;;
  today <~ datetime_today ;;
  years_held <~ lift (years_held_of today purchase_date) ;;
  if PyFloat.leb years_held PyFloat.zero then ret PyFloat.zero
  else
    total_return <~ lift (PyFloat.div (PyFloat.sub current_price purchase_price)
                                      purchase_price) ;;
    per_year <~ lift (PyFloat.div total_return years_held) ;;
    lift (PyFloat.mul_int_r per_year 100).

(** ** Classes *)

Record Investor : Type :=
  { investor_id : string; name : string; address : string; phone : string }.

Module Investment.

Record t : Type :=
  { purchase_id : string;
    symbol : string;
    quantity : Z;
    purchase_price : float;
    current_price : float;
    purchase_date : string }.

(** [Investment.__init__] *)
Definition init (purchase_id symbol : string)
    (quantity purchase_price current_price : pyval) (purchase_date : string)
  : result t :=
  q <- py_int quantity ;;
  pp <- py_float purchase_price ;;
  cp <- py_float current_price ;;
  Ok {| purchase_id := purchase_id; symbol := symbol; quantity := q;
        purchase_price := pp; current_price := cp;
        purchase_date := purchase_date |}.

Definition earnings (self : t) : result float :=
  calculate_earnings (current_price self) (purchase_price self) (quantity self).

Definition percent_yield (self : t) : result float :=
  calculate_percentage_yield (current_price self) (purchase_price self).

Definition yearly_return (self : t) : M float :=
  calculate_yearly_return (current_price self) (purchase_price self)
                          (purchase_date self).

End Investment.

Module Bond.

(** A [Bond] is an [Investment] with two more fields. *)
Record t : Type :=
  { base : Investment.t;
    coupon : float;
    yield_rate : float }.

(** [Bond.__init__] *)
Definition init (purchase_id symbol : string)
    (quantity purchase_price current_price coupon : pyval)
    (yield_rate purchase_date : string) : result t :=
  b <- Investment.init purchase_id symbol quantity purchase_price current_price
                       purchase_date ;;
  c <- py_float coupon ;;
  y <- py_float (VStr (PyStr.strip_char "%" yield_rate)) ;;
  r <- PyFloat.div_int_r y 100 ;;
  Ok {| base := b; coupon := c; yield_rate := r |}.

(** [Bond.earnings], the one method the class overrides. *)
Definition earnings (self : t) : result float :=
  e <- Investment.earnings (base self) ;;
  income <- PyFloat.mul_int_l (Investment.quantity (base self))
                              (Investment.purchase_price (base self)) ;;
  Ok (PyFloat.add e (PyFloat.mul income (yield_rate self))).

(** [percent_yield] and [yearly_return] are not defined by the class:
    the calls resolve to the methods of [Investment]. *)
Definition percent_yield (self : t) : result float :=
  Investment.percent_yield (base self).

Definition yearly_return (self : t) : M float :=
  Investment.yearly_return (base self).

End Bond.

(** ** File input *)

(** The unpacking of a line of the stock file and the construction of the
    holding. *)
Definition stock_of_line (idx : nat) (line : string) : result Investment.t :=
  match PyStr.split_on "," (PyStr.strip line) with
  | [symbol; qty; p_price; c_price; p_date] =>
      Investment.init (String.append "S" (PyStr.of_nat idx)) symbol
                      (VStr qty) (VStr p_price) (VStr c_price) p_date
  | _ => Raise ValueError
  end.

(** The loop of [read_stocks] from line number [idx] on: the list built
    so far, and how the loop ended. *)
Fixpoint read_stocks_loop (idx : nat) (lines : list string)
    (investments : list Investment.t) : list Investment.t * result unit :=
  match lines with
  | [] => (investments, Ok tt)
  | line :: rest =>
      match stock_of_line idx line with
      | Ok inv => read_stocks_loop (S idx) rest (investments ++ [inv])
      | Raise e => (investments, Raise e)
      end
  end.

(** [open(filename, 'r')] and the iteration over the lines. *)
Definition open_r (filename : string) (st : state) : result (list string) :=
  match files st !! filename with
  | Some lines => Ok lines
  | None => Raise FileNotFoundError
  end.

Definition read_stocks (filename : string) : M (list Investment.t) :=
  fun st =>
    let '(investments, r) :=
      match open_r filename st with
      | Ok lines => read_stocks_loop 1 lines []
      | Raise e => ([], Raise e)
      end in
    match r with
    | Ok _ => ret investments st
    | Raise e => (print (ErrReadStock filename e) ;;; ret investments) st
    end.

(** The unpacking of seven parts and the construction of the bond. *)
Definition bond_of_parts (idx : nat) (parts : list string) : result Bond.t :=
  match parts with
  | [symbol; qty; p_price; c_price; coupon; yld; p_date] =>
      Bond.init (String.append "B" (PyStr.of_nat idx)) symbol
                (VStr qty) (VStr p_price) (VStr c_price) (VStr coupon) yld p_date
  | _ => Raise ValueError
  end.

Fixpoint read_bonds_loop (idx : nat) (lines : list string) (bonds : list Bond.t)
  : list Bond.t * result unit :=
  match lines with
  | [] => (bonds, Ok tt)
  | line :: rest =>
      let parts := PyStr.split_on "," (PyStr.strip line) in
      if (length parts =? 7)%nat then
        match bond_of_parts idx parts with
        | Ok b => read_bonds_loop (S idx) rest (bonds ++ [b])
        | Raise e => (bonds, Raise e)
        end
      else read_bonds_loop (S idx) rest bonds
  end.

Definition read_bonds (filename : string) : M (list Bond.t) :=
  fun st =>
    let '(bonds, r) :=
      match open_r filename st with
      | Ok lines => read_bonds_loop 1 lines []
      | Raise e => ([], Raise e)
      end in
    match r with
    | Ok _ => ret bonds st
    | Raise e => (print (ErrReadBond filename e) ;;; ret bonds) st
    end.

(** ** SQLite *)

Inductive table_name : Type := Stocks | Bonds.

Inductive connection : Type := Connection (id : nat).

Definition get_table (tn : table_name) (s : store) : option table :=
  match tn with Stocks => stocks_table s | Bonds => bonds_table s end.

Definition set_table (tn : table_name) (t : table) (s : store) : store :=
  match tn with
  | Stocks => {| stocks_table := Some t; bonds_table := bonds_table s |}
  | Bonds => {| stocks_table := stocks_table s; bonds_table := Some t |}
  end.

(** How the driver binds a Python value to a statement parameter. *)
Definition bind_int (z : Z) : result sqlval :=
  if (- 2 ^ 63 <=? z) && (z <? 2 ^ 63) then Ok (SqlInt z) else Raise OverflowError.

Definition bind_float (x : float) : sqlval :=
  match x with S754_nan => SqlNull | _ => SqlReal x end.

(** [INSERT OR REPLACE] on a table whose primary key is the first column:
    the rows with that key are deleted and the new row is added. *)
Definition insert_or_replace (r : row) (t : table) : table :=
  filter (fun r' => fst r' ≠ fst r) t ++ [r].

(** [sqlite3.connect(db_path)]; the state holds the one database file the
    run uses. *)
Definition connect (db_path : string) : M connection :=
  fun st =>
    match db_disk st with
    | Some _ => (Ok (Connection (opened st)), set_opened (S (opened st)) st)
    | None => (Raise OperationalError, st)
    end.

(** What a statement run through the connection sees. *)
Definition db_view (st : state) : option store :=
  match db_pending st with
  | Some s => Some s
  | None => db_disk st
  end.

Definition create_if_absent (tn : table_name) (s : store) : store :=
  match get_table tn s with
  | Some _ => s
  | None => set_table tn [] s
  end.

(** [CREATE TABLE IF NOT EXISTS]: committed at once when no transaction is
    open. *)
Definition execute_create (tn : table_name) : M unit :=
  fun st =>
    match db_pending st, db_disk st with
    | Some s, _ => (Ok tt, set_db_pending (Some (create_if_absent tn s)) st)
    | None, Some s => (Ok tt, set_db_disk (Some (create_if_absent tn s)) st)
    | None, None => (Raise OperationalError, st)
    end.

(** [INSERT OR REPLACE INTO tn VALUES (...)]: opens a transaction when
    none is open. *)
Definition execute_insert (tn : table_name) (r : row) : M unit :=
  fun st =>
    match db_view st with
    | Some s =>
        match get_table tn s with
        | Some t => (Ok tt, set_db_pending (Some (set_table tn (insert_or_replace r t) s)) st)
        | None => (Raise OperationalError, st)
        end
    | None => (Raise OperationalError, st)
    end.

(** [conn.commit()] *)
Definition commit : M unit :=
  fun st =>
    match db_pending st with
    | Some s => (Ok tt, set_db_pending None (set_db_disk (Some s) st))
    | None => (Ok tt, st)
    end.

(** [conn.close()]: what was not committed is lost. *)
Definition close (c : connection) : M unit :=
  fun st => (Ok tt, set_closes (S (closes st)) (set_db_pending None st)).

Definition stock_row (inv : Investment.t) : result row :=
  q <- bind_int (Investment.quantity inv) ;;
  Ok (Investment.purchase_id inv,
      [SqlText (Investment.symbol inv); q;
       bind_float (Investment.purchase_price inv);
       bind_float (Investment.current_price inv);
       SqlText (Investment.purchase_date inv)]).

Definition bond_row (bond : Bond.t) : result row :=
  let inv := Bond.base bond in
  q <- bind_int (Investment.quantity inv) ;;
  Ok (Investment.purchase_id inv,
      [SqlText (Investment.symbol inv); q;
       bind_float (Investment.purchase_price inv);
       bind_float (Investment.current_price inv);
       bind_float (Bond.coupon bond);
       bind_float (Bond.yield_rate bond);
       SqlText (Investment.purchase_date inv)]).

Definition setup_database (db_path : string) (stocks : list Investment.t)
    (bonds : list Bond.t) : M connection :=
  conn <~ connect db_path ;;
  execute_create Stocks ;;;
  execute_create Bonds ;;;
  for_each stocks (fun inv => r <~ lift (stock_row inv) ;; execute_insert Stocks r) ;;;
  for_each bonds (fun bond => r <~ lift (bond_row bond) ;; execute_insert Bonds r) ;;;
  commit ;;;
  ret conn.

(** ** Reporting *)

Definition write_report (investor : Investor) (stocks : list Investment.t)
    (bonds : list Bond.t) (output_file : string) : M unit :=
  try_except
    (open_w output_file ;;;
     write_line output_file [CText "Investor"; CText (name investor)] ;;;
     write_line output_file [CText "Address"; CText (address investor)] ;;;
     write_line output_file [CText "Phone"; CText (phone investor)] ;;;
     write_line output_file [CText "STOCKS"] ;;;
     write_line output_file
       [CText "ID"; CText "Symbol"; CText "Qty"; CText "Earn"; CText "Yield%";
        CText "Yearly%"] ;;;
     for_each stocks (fun s =>
       e <~ lift (Investment.earnings s) ;;
       y <~ lift (Investment.percent_yield s) ;;
       r <~ Investment.yearly_return s ;;
       write_line output_file
         [CText (Investment.purchase_id s); CText (Investment.symbol s);
          CInt (Investment.quantity s); CFloat e; CFloat y; CFloat r]) ;;;
     write_line output_file [CText "BONDS"] ;;;
     write_line output_file
       [CText "ID"; CText "Symbol"; CText "Qty"; CText "Earn"; CText "Date"] ;;;
     for_each bonds (fun b =>
       e <~ lift (Bond.earnings b) ;;
       write_line output_file
         [CText (Investment.purchase_id (Bond.base b));
          CText (Investment.symbol (Bond.base b));
          CInt (Investment.quantity (Bond.base b)); CFloat e;
          CText (Investment.purchase_date (Bond.base b))]))
    (fun e => print (ErrReport output_file e)).

(** ** CSV export *)

Definition export_csv (stocks : list Investment.t) (csv_file : string) : M unit :=
  try_except
    (open_w csv_file ;;;
     write_line csv_file [CText "Symbol"; CText "Earnings"; CText "Yield%"; CText "Yearly%"] ;;;
     for_each stocks (fun s =>
       e <~ lift (Investment.earnings s) ;;
       y <~ lift (Investment.percent_yield s) ;;
       r <~ Investment.yearly_return s ;;
       write_line csv_file [CText (Investment.symbol s); CFloat e; CFloat y; CFloat r]))
    (fun e => print (ErrCsv csv_file e)).

(** ** Interactive filter *)

(** [ch.strip().lower().split()[0]] *)
Definition norm (ch : string) : result string :=
  match PyStr.split_ws (PyStr.lower (PyStr.strip ch)) with
  | w :: _ => Ok w
  | [] => Raise IndexError
  end.

(** [choice in [...]] *)
Definition str_in (choice : string) (l : list string) : bool :=
  existsb (String.eqb choice) l.

(** [[f(x) for x in l]] where [f] may raise. *)
Fixpoint map_M {A B : Type} (f : A -> M B) (l : list A) : M (list B) :=
  match l with
  | [] => ret []
  | x :: l' => y <~ f x ;; ys <~ map_M f l' ;; ret (y :: ys)
  end.

(** [sorted(..., key=..., reverse=True)] on elements paired with their
    keys: descending, and elements with equal keys keep their order. The
    order is Python's when no key is a NaN. *)
Fixpoint insert_desc {A : Type} (x : float * A) (l : list (float * A))
  : list (float * A) :=
  match l with
  | [] => [x]
  | y :: l' => if PyFloat.ltb (fst x) (fst y) then y :: insert_desc x l' else x :: l
  end.

Definition sort_desc {A : Type} (l : list (float * A)) : list (float * A) :=
  foldr insert_desc [] l.

(** One round of the loop; [true] stands for [break]. *)
Definition filter_body (stocks : list Investment.t) : M bool :=
  print Menu ;;;
  line <~ input "Choice: " ;;
  choice <~ lift (norm line) ;;
  if str_in choice ["1"; "positive"] then
    for_each stocks (fun s =>
      e <~ lift (Investment.earnings s) ;;
      if PyFloat.ltb PyFloat.zero e
      then e' <~ lift (Investment.earnings s) ;; print (OutEarnings (Investment.symbol s) e')
      else ret tt) ;;;
    ret false
  else if str_in choice ["2"; "negative"] then
    for_each stocks (fun s =>
      e <~ lift (Investment.earnings s) ;;
      if PyFloat.ltb e PyFloat.zero
      then e' <~ lift (Investment.earnings s) ;; print (OutEarnings (Investment.symbol s) e')
      else ret tt) ;;;
    ret false
  else if str_in choice ["3"; "sort"] then
    keyed <~ map_M (fun s => k <~ Investment.yearly_return s ;; ret (k, s)) stocks ;;
    for_each (sort_desc keyed) (fun ks =>
      r <~ Investment.yearly_return (snd ks) ;;
      print (OutYearly (Investment.symbol (snd ks)) r)) ;;;
    ret false
  else if str_in choice ["4"; "lookup"] then
    answer <~ input "Enter symbol: " ;;
    let sym := PyStr.upper answer in
    match List.filter (fun s => String.eqb (Investment.symbol s) sym) stocks with
    | s :: _ =>
        e <~ lift (Investment.earnings s) ;;
        r <~ Investment.yearly_return s ;;
        print (OutLookup (Investment.symbol s) e r) ;;;
        ret false
    | [] => print OutNotFound ;;; ret false
    end
  else if str_in choice ["5"; "exit"; "quit"] then ret true
  else print OutInvalid ;;; ret false.

(** [while True: body], unfolded at most [fuel] + 1 times. *)
Fixpoint while_true (fuel : nat) (body : M bool) : M unit :=
  stop <~ body ;;
  if stop then ret tt
  else match fuel with
       | O => ret tt
       | S n => while_true n body
       end.

(** Every round that does not raise reads at least one line, so the
    number of lines left bounds the number of rounds. *)
Definition interactive_portfolio_filter (stocks : list Investment.t) : M unit :=
  fun st => while_true (length (stdin st)) (filter_body stocks) st.

(** ** Chart *)

Definition visualize_json (json_file : string) (portfolio : gmap string Z) : M unit :=
  try_except
    ((fun st => (chart st portfolio, st)) ;;; print VizSaved)
    (fun e => print (VizFailed e)).

(** ** Main *)

(** The value of a float literal of the source. *)
Definition float_literal (s : string) : float :=
  match PyStr.parse_float s with
  | Ok x => x
  | Raise _ => S754_nan
  end.

(** [{s.symbol: s.quantity for s in stocks}] *)
Definition portfolio_of (stocks : list Investment.t) : gmap string Z :=
  foldl (fun m s => <[Investment.symbol s := Investment.quantity s]> m) ∅ stocks.

Definition main : M unit :=
  let investor := {| investor_id := "INV001"; name := "Peyton Holdbrooks";
                     address := "Denver, CO"; phone := "(334)500-2140" |} in
  let stock_file := "Lesson6_Data_Stocks.txt" in
  let bond_file := "Week6_Data_Bonds.txt" in
  let db_file := "portfolio.db" in
  let json_file := "AllStocks.json" in
  stocks <~ read_stocks stock_file ;;
  bonds <~ read_bonds bond_file ;;
  hardcoded <~ lift (Bond.init "B999" "GT2:GOV" (VInt 200)
                       (VFloat (float_literal "100.02"))
                       (VFloat (float_literal "100.05"))
                       (VFloat (float_literal "1.38")) "1.35%" "8/1/2017") ;;
  let bonds := bonds ++ [hardcoded] in
  conn <~ setup_database db_file stocks bonds ;;
  write_report investor stocks bonds "Investment_Report.txt" ;;;
  export_csv stocks "stock_summary.csv" ;;;
  interactive_portfolio_filter stocks ;;;
  let portfolio_map := portfolio_of stocks in
  visualize_json json_file portfolio_map ;;;
  close conn.

(** ** Sample data *)

(** The bond that [main] appends to the bonds read from the file. *)
Definition hardcoded_bond : result Bond.t :=
  Bond.init "B999" "GT2:GOV" (VInt 200) (VFloat (float_literal "100.02"))
            (VFloat (float_literal "100.05")) (VFloat (float_literal "1.38"))
            "1.35%" "8/1/2017".

Definition b999 : Bond.t :=
  {| Bond.base :=
       {| Investment.purchase_id := "B999"; Investment.symbol := "GT2:GOV";
          Investment.quantity := 200;
          Investment.purchase_price := float_literal "100.02";
          Investment.current_price := float_literal "100.05";
          Investment.purchase_date := "8/1/2017" |};
     Bond.coupon := float_literal "1.38";
     Bond.yield_rate := S754_finite false 7782220156096218 (-59) |}.

(** A stock whose purchase date is written year first. *)
Definition iso_dated : Investment.t :=
  {| Investment.purchase_id := "S1"; Investment.symbol := "GOOG";
     Investment.quantity := 125;
     Investment.purchase_price := float_literal "772.88";
     Investment.current_price := float_literal "941.53";
     Investment.purchase_date := "2015-08-01" |}.

(** ** Vocabulary of the statements *)

(** The comma-separated parts of a line, as both parsers cut it. *)
Definition fields (line : string) : list string :=
  PyStr.split_on "," (PyStr.strip line).

Definition to_option {A : Type} (r : result A) : option A :=
  match r with Ok a => Some a | Raise _ => None end.

(** The bond a line of the bond file gives at line number [idx], when it
    has seven parts and the construction succeeds. *)
Definition bond_at (idx : nat) (line : string) : option Bond.t :=
  if (length (fields line) =? 7)%nat
  then to_option (bond_of_parts idx (fields line))
  else None.

(** The bonds of the lines numbered from [idx], in order. *)
Definition bonds_at (idx : nat) (lines : list string) : list Bond.t :=
  omap id (imap (fun k line => bond_at (idx + k) line) lines).

(** The state after one more event has been printed. *)
Definition printed (o : output) (st : state) : state :=
  set_stdout (stdout st ++ [o]) st.

(** A stock file whose third line has one field, and a bond file with two
    lines that are not bond records. *)
Definition sample_stock_lines : list string :=
  ["GOOG,125,772.88,941.53,8/1/2015"; "MSFT,85,56.60,73.04,8/1/2015";
   "BAD LINE"; "AAPL,1,1,1,1/1/2020"].

Definition sample_bond_lines : list string :=
  ["GOOG,125,772.88,941.53,8/1/2015"; "GT2:GOV,200,100.02,100.05,1.38,1.35%,8/1/2017";
   ""; "T:GOV,10,x,100.05,1.38,1.35%,8/1/2017"; "T:GOV,10,99,100.05,1.38,1.35%,8/1/2017"].

Definition sample_now : Datetime.datetime :=
  {| Datetime.on := {| Datetime.year := 2025; Datetime.month := 6; Datetime.day := 9 |};
     Datetime.hour := 10; Datetime.minute := 30; Datetime.second := 0;
     Datetime.microsecond := 5 |}.

Definition empty_store : store := {| stocks_table := None; bonds_table := None |}.

(** A run with both input files, a new database, a user who types what
    [keys] holds, and no price history to chart. *)
Definition sample_state (keys : list string) : state :=
  {| files := {[ "Lesson6_Data_Stocks.txt" := sample_stock_lines;
                 "Week6_Data_Bonds.txt" := sample_bond_lines ]};
     writable := fun _ => true;
     written := ∅;
     clock := fun _ => sample_now;
     ticks := 0;
     stdin := keys;
     stdout := [];
     db_disk := Some empty_store;
     db_pending := None;
     opened := 0;
     closes := 0;
     chart := fun _ => Raise FileNotFoundError |}.

(** [[f(x) for x in l]] where [f] may raise. *)
Fixpoint map_result {A B : Type} (f : A -> result B) (l : list A) : result (list B) :=
  match l with
  | [] => Ok []
  | x :: l' => y <- f x ;; ys <- map_result f l' ;; Ok (y :: ys)
  end.

(** A table after a sequence of [INSERT OR REPLACE]. *)
Definition upsert_all (rows : list row) (t : table) : table :=
  foldl (fun t r => insert_or_replace r t) t rows.

(** The rows of a table that have a given key. *)
Definition rows_keyed (k : string) (t : table) : table :=
  filter (fun r => fst r = k) t.

(** The committed rows of a table of the database file. *)
Definition stored (tn : table_name) (st : state) : table :=
  match db_disk st with
  | Some s => default [] (get_table tn s)
  | None => []
  end.

(** Two holdings read as "S1" with different current prices. *)
Definition s1_at (current : string) : Investment.t :=
  {| Investment.purchase_id := "S1"; Investment.symbol := "GOOG";
     Investment.quantity := 125;
     Investment.purchase_price := float_literal "772.88";
     Investment.current_price := float_literal current;
     Investment.purchase_date := "8/1/2015" |}.

(** A database file that an earlier run, over a longer stock file, left
    with a row "S9". *)
Definition stale_row : row :=
  ("S9", [SqlText "IBM"; SqlInt 80; SqlReal (float_literal "140.00");
          SqlReal (float_literal "150.00"); SqlText "8/1/2015"]).

Definition stale_store : store :=
  {| stocks_table := Some [stale_row]; bonds_table := Some [] |}.

Definition stale_state (keys : list string) : state :=
  set_db_disk (Some stale_store) (sample_state keys).

(** A step that neither opens nor closes a connection and gives no line
    back to standard input. *)
Definition quiet (st st' : state) : Prop :=
  closes st' = closes st /\ opened st' = opened st
  /\ (length (stdin st') <= length (stdin st))%nat.

Definition keeps {A : Type} (m : M A) : Prop :=
  forall st, quiet st (snd (m st)).

(** A computation that always returns. *)
Definition total {A : Type} (m : M A) : Prop :=
  forall st, is_ok (fst (m st)) = true.

(** How a run that started with [c] closes ends: with one more close and
    [o] connections opened when it returns, with no close when it
    raises. *)
Definition closed_after {A : Type} (c o : nat) (out : result A * state) : Prop :=
  match out with
  | (Ok _, st') => closes st' = S c /\ opened st' = o
  | (Raise _, st') => closes st' = c
  end.

(** A run in which the report file cannot be written. *)
Definition read_only_state (keys : list string) : state :=
  {| files := files (sample_state keys);
     writable := fun _ => false;
     written := ∅;
     clock := fun _ => sample_now;
     ticks := 0;
     stdin := keys;
     stdout := [];
     db_disk := Some empty_store;
     db_pending := None;
     opened := 0;
     closes := 0;
     chart := fun _ => Raise FileNotFoundError |}.

(** A float that is not a NaN and has sign bit [s]. *)
Definition signed (s : bool) (x : float) : Prop :=
  match x with
  | S754_zero s' | S754_infinity s' | S754_finite s' _ _ => s' = s
  | S754_nan => False
  end.

(** A [datetime] with no time of day. *)
Definition is_midnight (t : Datetime.datetime) : Prop :=
  Datetime.hour t = 0 /\ Datetime.minute t = 0 /\ Datetime.second t = 0
  /\ Datetime.microsecond t = 0.

(** ** What a step may change *)

(** A relation between the state before a step and the state after it,
    kept by doing nothing and by doing two steps in a row. *)
Class Frame (R : state -> state -> Prop) : Prop :=
  { frame_refl : forall st, R st st;
    frame_trans : forall st1 st2 st3, R st1 st2 -> R st2 st3 -> R st1 st3 }.

Definition preserves (R : state -> state -> Prop) {A : Type} (m : M A) : Prop :=
  forall st, R st (snd (m st)).

(** The database file and the open transaction are as they were. *)
Definition db_untouched (st st' : state) : Prop :=
  db_disk st' = db_disk st /\ db_pending st' = db_pending st.

(** The committed content of the database file is as it was. *)
Definition disk_kept (st st' : state) : Prop :=
  db_disk st' = db_disk st.

(** The lines left on standard input are the last of those there were. *)
Definition stdin_suffix (st st' : state) : Prop :=
  stdin st' `suffix_of` stdin st.

(** Nothing was written to any output file. *)
Definition written_kept (st st' : state) : Prop :=
  written st' = written st /\ writable st' = writable st.

(** The primary keys of a table, in row order. *)
Definition keys (t : table) : list string := t.*1.

(** A holding of more shares than a 64-bit integer counts. *)
Definition huge_lot : Investment.t :=
  {| Investment.purchase_id := "S1"; Investment.symbol := "GOOG";
     Investment.quantity := 2 ^ 63;
     Investment.purchase_price := float_literal "772.88";
     Investment.current_price := float_literal "941.53";
     Investment.purchase_date := "8/1/2015" |}.

(** The state after the holdings "S1" (twice) and "B999" have been
    persisted into a database that held a row "S9". *)
Definition after_sample_upsert : state :=
  snd (setup_database "portfolio.db" [s1_at "941.53"; s1_at "950.00"] [b999]
                      (stale_state [])).

(** The identifier the parsers give to line number [k]. *)
Definition stock_id (k : nat) : string := String.append "S" (PyStr.of_nat k).
Definition bond_id (k : nat) : string := String.append "B" (PyStr.of_nat k).

(** The lines of a file, none when it cannot be opened. *)
Definition lines_of (filename : string) (st : state) : list string :=
  default [] (files st !! filename).

(** The row of the bond that [main] adds. *)
Definition b999_row : row :=
  ("B999", [SqlText "GT2:GOV"; SqlInt 200; SqlReal (float_literal "100.02");
            SqlReal (float_literal "100.05"); SqlReal (float_literal "1.38");
            SqlReal (S754_finite false 7782220156096218 (-59)); SqlText "8/1/2017"]).

(** ** Output files *)

(** Nothing was printed and no output file was touched. *)
Definition silent (st st' : state) : Prop :=
  written st' = written st /\ writable st' = writable st /\ stdout st' = stdout st.

(** The lines of an output file, none when it was not written. *)
Definition content (filename : string) (st : state) : list (list cell) :=
  default [] (written st !! filename).

Definition csv_header : list cell :=
  [CText "Symbol"; CText "Earnings"; CText "Yield%"; CText "Yearly%"].

(** The cells of a stock's line of the CSV file. *)
Definition csv_cells (s : Investment.t) : M (list cell) :=
  e <~ lift (Investment.earnings s) ;;
  y <~ lift (Investment.percent_yield s) ;;
  r <~ Investment.yearly_return s ;;
  ret [CText (Investment.symbol s); CFloat e; CFloat y; CFloat r].

(** The cells of a stock's line of the report. *)
Definition report_stock_cells (s : Investment.t) : M (list cell) :=
  e <~ lift (Investment.earnings s) ;;
  y <~ lift (Investment.percent_yield s) ;;
  r <~ Investment.yearly_return s ;;
  ret [CText (Investment.purchase_id s); CText (Investment.symbol s);
       CInt (Investment.quantity s); CFloat e; CFloat y; CFloat r].

(** The cells of a bond's line of the report. *)
Definition report_bond_cells (b : Bond.t) : M (list cell) :=
  e <~ lift (Bond.earnings b) ;;
  ret [CText (Investment.purchase_id (Bond.base b));
       CText (Investment.symbol (Bond.base b));
       CInt (Investment.quantity (Bond.base b)); CFloat e;
       CText (Investment.purchase_date (Bond.base b))].

(** The lines of the report above the stocks, and between the stocks and
    the bonds. *)
Definition report_head (investor : Investor) : list (list cell) :=
  [[CText "Investor"; CText (name investor)];
   [CText "Address"; CText (address investor)];
   [CText "Phone"; CText (phone investor)];
   [CText "STOCKS"];
   [CText "ID"; CText "Symbol"; CText "Qty"; CText "Earn"; CText "Yield%";
    CText "Yearly%"]].

Definition bonds_head : list (list cell) :=
  [[CText "BONDS"];
   [CText "ID"; CText "Symbol"; CText "Qty"; CText "Earn"; CText "Date"]].

(** A line that some run of [compute] on the element gives. *)
Definition line_of {A : Type} (compute : A -> M (list cell)) (x : A) (line : list cell)
  : Prop :=
  exists st, fst (compute x st) = Ok line.

(** A stock bought for nothing. *)
Definition free_lot : Investment.t :=
  {| Investment.purchase_id := "S2"; Investment.symbol := "GIFT";
     Investment.quantity := 10;
     Investment.purchase_price := PyFloat.zero;
     Investment.current_price := float_literal "12.50";
     Investment.purchase_date := "8/1/2015" |}.

(** A line of the CSV file for a stock: its symbol, its earnings, its
    percentage yield and one reading of its yearly return. *)
Definition csv_line (s : Investment.t) (line : list cell) : Prop :=
  exists e y r,
    Investment.earnings s = Ok e
    /\ Investment.percent_yield s = Ok y
    /\ (exists st, fst (Investment.yearly_return s st) = Ok r)
    /\ line = [CText (Investment.symbol s); CFloat e; CFloat y; CFloat r].

(** A line of the report for a stock. *)
Definition report_stock_line (s : Investment.t) (line : list cell) : Prop :=
  exists e y r,
    Investment.earnings s = Ok e
    /\ Investment.percent_yield s = Ok y
    /\ (exists st, fst (Investment.yearly_return s st) = Ok r)
    /\ line = [CText (Investment.purchase_id s); CText (Investment.symbol s);
               CInt (Investment.quantity s); CFloat e; CFloat y; CFloat r].

(** A line of the report for a bond. *)
Definition report_bond_line (b : Bond.t) (line : list cell) : Prop :=
  exists e,
    Bond.earnings b = Ok e
    /\ line = [CText (Investment.purchase_id (Bond.base b));
               CText (Investment.symbol (Bond.base b));
               CInt (Investment.quantity (Bond.base b)); CFloat e;
               CText (Investment.purchase_date (Bond.base b))].

(** The step from [st] to [st'] added [lines] at the end of the file and
    changed nothing else of the output. *)
Definition appended (filename : string) (lines : list (list cell)) (st st' : state)
  : Prop :=
  content filename st' = content filename st ++ lines
  /\ stdout st' = stdout st
  /\ writable st' = writable st
  /\ (forall g, g <> filename -> written st' !! g = written st !! g).

(** All that [m] does to the output is to add lines to the file; [P]
    relates how [m] ends to the lines it added. *)
Definition writes (filename : string) (m : M unit)
    (P : result unit -> list (list cell) -> Prop) : Prop :=
  forall st, exists lines,
    appended filename lines st (snd (m st)) /\ P (fst (m st)) lines.

(** The lines of a loop that computes and writes one line per element:
    one for each element up to the first whose line cannot be computed. *)
Definition loop_lines {A : Type} (compute : A -> M (list cell)) (l : list A)
    (r : result unit) (rows : list (list cell)) : Prop :=
  Forall2 (line_of compute) (take (length rows) l) rows
  /\ (length rows <= length l)%nat
  /\ (r = Ok tt <-> length rows = length l)
  /\ ((length rows < length l)%nat ->
      exists x st e, l !! length rows = Some x /\ fst (compute x st) = Raise e).

(** ** The portfolio map and the filter *)

(** The lots of a symbol, in list order. *)
Definition lots_of (sym : string) (stocks : list Investment.t) : list Investment.t :=
  filter (fun s => Investment.symbol s = sym) stocks.

(** Two lots of the same symbol. *)
Definition two_lots : list Investment.t :=
  [s1_at "941.53";
   {| Investment.purchase_id := "S2"; Investment.symbol := "GOOG";
      Investment.quantity := 40;
      Investment.purchase_price := float_literal "800.00";
      Investment.current_price := float_literal "941.53";
      Investment.purchase_date := "8/1/2016" |}].

(** A lower-case ASCII letter occurs in the string. *)
Fixpoint has_lower (s : string) : bool :=
  match s with
  | EmptyString => false
  | String c r =>
      ((97 <=? PyStr.code c) && (PyStr.code c <=? 122)) || has_lower r
  end.

(** The answers that end the loop. *)
Definition exit_words : list string := ["5"; "exit"; "quit"].

(** Only the count of clock readings may differ. *)
Definition ticks_only (st st' : state) : Prop :=
  st' = set_ticks (ticks st') st.

(** A stock file whose symbol is written in lower case. *)
Definition lower_case_lot : Investment.t :=
  {| Investment.purchase_id := "S1"; Investment.symbol := "goog";
     Investment.quantity := 125;
     Investment.purchase_price := float_literal "772.88";
     Investment.current_price := float_literal "941.53";
     Investment.purchase_date := "8/1/2015" |}.

(** ** The price history *)

(** What [json.load] gives: objects as their members in file order (a
    name that is repeated in the file counts with its last value),
    numbers as ints or floats. *)
#[local] Unset Elimination Schemes.
Inductive json : Type :=
  | JNull
  | JBool (b : bool)
  | JInt (z : Z)
  | JFloat (x : float)
  | JStr (s : string)
  | JArr (items : list json)
  | JObj (members : list (string * json)).
#[local] Set Elimination Schemes.

(** The value of a name in an object. *)
Definition member (key : string) (members : list (string * json)) : option json :=
  foldl (fun found kv => if String.eqb (fst kv) key then Some (snd kv) else found)
        None members.

(** The directive [%b] in the C locale: a month's three letters, in any
    case. *)
Definition month_abbr (s : string) : option Z :=
  let low := PyStr.lower s in
  if String.eqb low "jan" then Some 1 else if String.eqb low "feb" then Some 2
  else if String.eqb low "mar" then Some 3 else if String.eqb low "apr" then Some 4
  else if String.eqb low "may" then Some 5 else if String.eqb low "jun" then Some 6
  else if String.eqb low "jul" then Some 7 else if String.eqb low "aug" then Some 8
  else if String.eqb low "sep" then Some 9 else if String.eqb low "oct" then Some 10
  else if String.eqb low "nov" then Some 11 else if String.eqb low "dec" then Some 12
  else None.

(** The directive [%y]: exactly two digits; 69 to 99 are years of the
    1900s, 00 to 68 years of the 2000s. *)
Definition short_year_field (s : string) : option Z :=
  match s with
  | String a (String b EmptyString) =>
      if PyStr.is_digit a && PyStr.is_digit b
      then let v := 10 * PyStr.digit_value a + PyStr.digit_value b in
           Some (if v <=? 68 then 2000 + v else 1900 + v)
      else None
  | _ => None
  end.

(** [datetime.strptime(s, '%d-%b-%y')]: no field can hold a hyphen, so
    the string is cut at its hyphens. *)
Definition strptime_dby (s : string) : result Datetime.datetime :=
  match PyStr.split_on "-" s with
  | [ds; bs; ys] =>
      match Datetime.day_field ds, month_abbr bs, short_year_field ys with
      | Some d, Some m, Some y => Datetime.midnight y m d
      | _, _, _ => Raise ValueError
      end
  | _ => Raise ValueError
  end.

(** [float(v)] on a decoded value; [TypeError] for [None], arrays and
    objects. *)
Definition json_float (v : json) : result float :=
  match v with
  | JStr s => PyStr.parse_float s
  | JInt z => PyFloat.of_int z
  | JFloat x => Ok x
  | JBool b => Ok (if b then PyFloat.round_Z 1 else PyFloat.zero)
  | JNull | JArr _ | JObj _ => Raise OtherError
  end.

(** [e[key]]: [KeyError] when the name is missing. *)
Definition subscript (key : string) (members : list (string * json)) : result json :=
  match member key members with
  | Some v => Ok v
  | None => Raise OtherError
  end.

(** A dated value of the chart. *)
Abbreviation point := (Datetime.datetime * float)%type.

(** The body of the inner [try]: the date and the value of one record,
    for a holding of [qty] shares. *)
Definition point_of (members : list (string * json)) (qty : Z) : result point :=
  dv <- subscript "Date" members ;;
  d <- match dv with
       | JStr s => strptime_dby s
       | _ => Raise OtherError
       end ;;
  cv <- subscript "Close" members ;;
  c <- json_float cv ;;
  val <- PyFloat.mul_int_r c qty ;;
  Ok (d, val).

(** [values[sym].append(p)] on a [defaultdict(list)], kept in the order in
    which the symbols were first added. *)
Fixpoint append_point (sym : string) (p : point) (values : list (string * list point))
  : list (string * list point) :=
  match values with
  | [] => [(sym, [p])]
  | (k, recs) :: rest =>
      if String.eqb k sym then (k, recs ++ [p]) :: rest
      else (k, recs) :: append_point sym p rest
  end.

(** [sym in portfolio]: [TypeError] for an array or an object, which
    cannot be hashed; no other value but a string can be a key of the
    map. *)
Definition held (sym : json) (portfolio : gmap string Z) : result (option (string * Z)) :=
  match sym with
  | JStr s => Ok (match portfolio !! s with Some q => Some (s, q) | None => None end)
  | JArr _ | JObj _ => Raise OtherError
  | JNull | JBool _ | JInt _ | JFloat _ => Ok None
  end.

(** The loop over the decoded elements; an element that is no object has
    no [get] ([AttributeError]). *)
Fixpoint collect (data : list json) (portfolio : gmap string Z)
    (values : list (string * list point)) : result (list (string * list point)) :=
  match data with
  | [] => Ok values
  | e :: rest =>
      match e with
      | JObj members =>
          let sym := default JNull (member "Symbol" members) in
          hit <- held sym portfolio ;;
          match hit with
          | Some (s, qty) =>
              match point_of members qty with
              | Ok p => collect rest portfolio (append_point s p values)
              | Raise _ => collect rest portfolio values
              end
          | None => collect rest portfolio values
          end
      | _ => Raise OtherError
      end
  end.

(** [for e in data]: an array gives its elements, an object its names, a
    string its characters; nothing else can be iterated ([TypeError]). *)
Definition elements (data : json) : result (list json) :=
  match data with
  | JArr items => Ok items
  | JObj members => Ok (JStr <$> remove_dups (fst <$> members))
  | JStr s => Ok ((fun c => JStr (String c EmptyString)) <$> list_ascii_of_string s)
  | JNull | JBool _ | JInt _ | JFloat _ => Raise OtherError
  end.

(** [values] when the first loop of [visualize_json] is over. *)
Definition values_of (data : json) (portfolio : gmap string Z)
  : result (list (string * list point)) :=
  items <- elements data ;;
  collect items portfolio [].

(** [recs.sort(key=lambda x: x[0])]: ascending, and points of one date
    keep their order. *)
Fixpoint insert_by_date (x : point) (l : list point) : list point :=
  match l with
  | [] => [x]
  | y :: l' => if Datetime.ltb (fst y) (fst x) then y :: insert_by_date x l' else x :: l
  end.

Definition sort_by_date (l : list point) : list point := foldr insert_by_date [] l.

(** The lines handed to [plt.plot], in order. *)
Definition plotted (values : list (string * list point)) : list (string * list point) :=
  (fun kv => (fst kv, sort_by_date (snd kv))) <$> values.

(** What [chart] is for a file that decodes to [data] and a plotting
    library that does [plot]. *)
Definition chart_of (load : result json)
    (plot : list (string * list point) -> result unit) (portfolio : gmap string Z)
  : result unit :=
  data <- load ;;
  values <- values_of data portfolio ;;
  plot (plotted values).

(** A price record. *)
Definition price (sym date close : string) : json :=
  JObj [("Symbol", JStr sym); ("Date", JStr date); ("Close", JStr close)].

Definition sample_history : json :=
  JArr [price "GOOG" "3-Jan-17" "786.14";
        price "MSFT" "3-Jan-17" "62.58";
        price "GOOG" "31-Dec-16" "771.82";
        price "GOOG" "30-Feb-17" "800.00";
        JObj [("Symbol", JStr "GOOG"); ("Date", JStr "4-Jan-17")];
        price "IBM" "4-Jan-17" "167.19";
        JObj [("Symbol", JStr "GOOG"); ("Date", JStr "5-Jan-17"); ("Close", JFloat (float_literal "794.02"))]].

(** The point comes from a record of the symbol, scaled by the quantity
    the portfolio map holds for it. *)
Definition from_record (items : list json) (portfolio : gmap string Z) (sym : string)
    (p : point) : Prop :=
  exists members q,
    JObj members ∈ items
    /\ member "Symbol" members = Some (JStr sym)
    /\ portfolio !! sym = Some q
    /\ point_of members q = Ok p.

(** An element that the loop passes over: an object whose symbol is not
    held, or whose date or price cannot be used. *)
Definition passed_over (e : json) (portfolio : gmap string Z) : bool :=
  match e with
  | JObj members =>
      match held (default JNull (member "Symbol" members)) portfolio with
      | Ok None => true
      | Ok (Some (_, qty)) => negb (is_ok (point_of members qty))
      | Raise _ => false
      end
  | _ => false
  end.

(** An element that ends the loop: one that is no object, or an object
    whose symbol is an array or an object. *)
Definition malformed (e : json) : bool :=
  match e with
  | JObj members =>
      match default JNull (member "Symbol" members) with
      | JArr _ | JObj _ => true
      | _ => false
      end
  | _ => true
  end.

(** [a] is not later than [b]. *)
Definition not_later (a b : point) : Prop := Datetime.ltb (fst b) (fst a) = false.

(** The points of the date and time of [d]. *)
Definition dated (d : Datetime.datetime) (l : list point) : list point :=
  filter (fun p => Datetime.fields (fst p) = Datetime.fields d) l.

(** A run whose price history decodes to [data] and whose plotting
    succeeds. *)
Definition history_state (data : json) : state :=
  {| files := files (sample_state []);
     writable := fun _ => true;
     written := ∅;
     clock := fun _ => sample_now;
     ticks := 0;
     stdin := [];
     stdout := [];
     db_disk := Some empty_store;
     db_pending := None;
     opened := 0;
     closes := 0;
     chart := chart_of (Ok data) (fun _ => Ok tt) |}.

(** No point of the line is followed by an earlier one. *)
Fixpoint forward (l : list point) : Prop :=
  match l with
  | x :: (y :: _) as l' => not_later x y /\ forward l'
  | _ => True
  end.

(** One of the three figures of the stock raises. *)
Definition figures_fail (s : Investment.t) : Prop :=
  exists e,
    Investment.earnings s = Raise e
    \/ Investment.percent_yield s = Raise e
    \/ exists st, fst (Investment.yearly_return s st) = Raise e.

(** ** A run without input files *)

(** Output is only added, and what can be written stays the same. *)
Definition grows (st st' : state) : Prop :=
  writable st' = writable st /\ stdout st `prefix_of` stdout st'.

(** The investor of [main]. *)
Definition the_investor : Investor :=
  {| investor_id := "INV001"; name := "Peyton Holdbrooks";
     address := "Denver, CO"; phone := "(334)500-2140" |}.

(** The line of the hardcoded bond in the report. *)
Definition b999_line : list cell :=
  [CText "B999"; CText "GT2:GOV"; CInt 200;
   CFloat (S754_finite false 4856393326305219 (-44)); CText "8/1/2017"].

(** A run in which neither input file exists. *)
Definition no_input_state (keys : list string) : state :=
  {| files := ∅;
     writable := fun _ => true;
     written := ∅;
     clock := fun _ => sample_now;
     ticks := 0;
     stdin := keys;
     stdout := [];
     db_disk := Some empty_store;
     db_pending := None;
     opened := 0;
     closes := 0;
     chart := fun _ => Raise FileNotFoundError |}.

(** ** Gains and losses *)

(** The lines of the stocks whose earnings satisfy [test], in list
    order. *)
Definition listing (test : float -> bool) (stocks : list Investment.t) : list output :=
  flat_map (fun s => match Investment.earnings s with
                     | Ok e => if test e then [OutEarnings (Investment.symbol s) e]
                               else []
                     | Raise _ => []
                     end) stocks.

Definition gains : list Investment.t -> list output := listing (PyFloat.ltb PyFloat.zero).
Definition losses : list Investment.t -> list output :=
  listing (fun e => PyFloat.ltb e PyFloat.zero).

(** A stock that lost value, and one whose prices are both infinite. *)
Definition losing_lot : Investment.t :=
  {| Investment.purchase_id := "S2"; Investment.symbol := "IBM";
     Investment.quantity := 50;
     Investment.purchase_price := float_literal "150.00";
     Investment.current_price := float_literal "140.00";
     Investment.purchase_date := "8/1/2015" |}.

Definition unpriced_lot : Investment.t :=
  {| Investment.purchase_id := "S3"; Investment.symbol := "XYZ";
     Investment.quantity := 5;
     Investment.purchase_price := float_literal "1e999";
     Investment.current_price := float_literal "1e999";
     Investment.purchase_date := "8/1/2015" |}.

(** * Properties *)

(** ** Checks of the library model on known values *)

Example float_hundred : PyFloat.hundred = S754_finite false 7036874417766400 (-46).
Proof. reflexivity. Qed.
Example float_tenth : PyFloat.of_decimal false 1 (-1) = S754_finite false 7205759403792794 (-56).
Proof. vm_compute. reflexivity. Qed.
Example float_10002 : PyFloat.of_decimal false 10002 (-2) = S754_finite false 7038281792649953 (-46).
Proof. vm_compute. reflexivity. Qed.
Example strip_line : PyStr.strip "  GOOG,125, 772.88 
" = "GOOG,125, 772.88".
Proof. reflexivity. Qed.
Example split_commas : PyStr.split_on "," "a,,b," = ["a"; ""; "b"; ""].
Proof. reflexivity. Qed.
Example split_empty : PyStr.split_on "," "" = [""].
Proof. reflexivity. Qed.
Example split_ws_ex : PyStr.split_ws "  Sort  me " = ["Sort"; "me"].
Proof. reflexivity. Qed.
Example strip_percent : PyStr.strip_char "%" "%%1.35%" = "1.35".
Proof. reflexivity. Qed.
Example parse_int_ex : PyStr.parse_int " -1_000 " = Ok (-1000).
Proof. reflexivity. Qed.
Example parse_int_frac : PyStr.parse_int "10.5" = Raise ValueError.
Proof. reflexivity. Qed.
Example parse_float_135 : PyStr.parse_float "1.35" = Ok (S754_finite false 6079859496950170 (-52)).
Proof. vm_compute. reflexivity. Qed.
Example parse_float_exp : PyStr.parse_float "1e23" = Ok (S754_finite false 5960464477539062 24).
Proof. vm_compute. reflexivity. Qed.
Example parse_float_tiny : PyStr.parse_float "5e-324" = Ok (S754_finite false 1 (-1074)).
Proof. vm_compute. reflexivity. Qed.
Example parse_float_bad : PyStr.parse_float "1.35%" = Raise ValueError.
Proof. vm_compute. reflexivity. Qed.
Example ordinal_2017_08_01 :
  Datetime.toordinal {| Datetime.year := 2017; Datetime.month := 8; Datetime.day := 1 |} = 736542.
Proof. reflexivity. Qed.
Example ordinal_max :
  Datetime.toordinal {| Datetime.year := 9999; Datetime.month := 12; Datetime.day := 31 |} = 3652059.
Proof. reflexivity. Qed.
Example strptime_hardcoded :
  Datetime.strptime_mdy "8/1/2017"
  = Ok {| Datetime.on := {| Datetime.year := 2017; Datetime.month := 8; Datetime.day := 1 |};
          Datetime.hour := 0; Datetime.minute := 0; Datetime.second := 0;
          Datetime.microsecond := 0 |}.
Proof. reflexivity. Qed.
Example strptime_iso : Datetime.strptime_mdy "2017-08-01" = Raise ValueError.
Proof. reflexivity. Qed.
Example strptime_feb30 : Datetime.strptime_mdy "02/30/2020" = Raise ValueError.
Proof. reflexivity. Qed.
Example strptime_trailing : Datetime.strptime_mdy "1/2/20201" = Raise ValueError.
Proof. reflexivity. Qed.
Example parse_float_forms :
  PyStr.parse_float "1_0.5e1" = PyStr.parse_float "105"
  /\ PyStr.parse_float " +.5 " = PyStr.parse_float "0.5"
  /\ PyStr.parse_float "-0" = Ok (S754_zero true)
  /\ PyStr.parse_float "1e-400" = Ok (S754_zero false)
  /\ PyStr.parse_float "InFinity" = Ok (S754_infinity false)
  /\ PyStr.parse_float "1e400" = Ok (S754_infinity false).
Proof. vm_compute. repeat split; reflexivity. Qed.
Example parse_float_refused :
  Forall (fun s => PyStr.parse_float s = Raise ValueError)
         ["1_.5"; "_1"; "1__0"; "e5"; "."; "1e"; "1e+"; "+-1"; "0x10"; "1 2"; ""].
Proof. repeat constructor. Qed.

(** ** The metric functions *)

Section Metrics.

Variables current purchase : float.

Lemma div_nonzero (x y : float) :
  PyFloat.eqb y PyFloat.zero = false -> PyFloat.div x y = Ok (PyFloat.quotient x y).
Proof. intros H. unfold PyFloat.div. now rewrite H. Qed.

Lemma div_zero (x y : float) :
  PyFloat.eqb y PyFloat.zero = true -> PyFloat.div x y = Raise ZeroDivisionError.
Proof. intros H. unfold PyFloat.div. now rewrite H. Qed.

Lemma mul_by_hundred (x : float) :
  PyFloat.mul_int_r x 100 = Ok (PyFloat.mul x PyFloat.hundred).
Proof. reflexivity. Qed.

Lemma div_by_hundred (x : float) :
  PyFloat.div_int_r x 100 = Ok (PyFloat.quotient x PyFloat.hundred).
Proof. reflexivity. Qed.

Lemma percentage_yield_value_of :
  PyFloat.eqb purchase PyFloat.zero = false ->
  calculate_percentage_yield current purchase
  = Ok (PyFloat.mul (PyFloat.quotient (PyFloat.sub current purchase) purchase)
                    PyFloat.hundred).
Proof.
  intros H. unfold calculate_percentage_yield.
  rewrite (div_nonzero _ _ H). cbn [bind]. apply mul_by_hundred.
Qed.

(** C5. When the purchase price does not compare equal to zero,
    [calculate_percentage_yield] returns
    [(current - purchase) / purchase * 100]; when it does (0.0 or -0.0),
    the call raises [ZeroDivisionError] and returns no value. *)
Theorem percentage_yield_formula :
  (PyFloat.eqb purchase PyFloat.zero = false ->
   calculate_percentage_yield current purchase
   = Ok (PyFloat.mul (PyFloat.quotient (PyFloat.sub current purchase) purchase)
                     PyFloat.hundred))
  /\ (PyFloat.eqb purchase PyFloat.zero = true ->
      calculate_percentage_yield current purchase = Raise ZeroDivisionError).
Proof.
  split; [exact percentage_yield_value_of|].
  intros H. unfold calculate_percentage_yield. now rewrite (div_zero _ _ H).
Qed.

End Metrics.

Lemma percentage_yield_formula_witness :
  (calculate_percentage_yield (float_literal "941.53") (float_literal "772.88")
   = Ok (PyFloat.mul
           (PyFloat.quotient
              (PyFloat.sub (float_literal "941.53") (float_literal "772.88"))
              (float_literal "772.88"))
           PyFloat.hundred))
  /\ calculate_percentage_yield (float_literal "941.53") (S754_zero true)
     = Raise ZeroDivisionError.
Proof.
  split.
  - apply (proj1 (percentage_yield_formula (float_literal "941.53")
                                           (float_literal "772.88"))).
    vm_compute. reflexivity.
  - apply (proj2 (percentage_yield_formula (float_literal "941.53") (S754_zero true))).
    reflexivity.
Defined.

Example percentage_yield_value :
  calculate_percentage_yield (float_literal "941.53") (float_literal "772.88")
  = Ok (S754_finite false 6142060193335593 (-48)).
Proof. vm_compute. reflexivity. Qed.

(** ** The holding classes *)


Example hardcoded_bond_value : hardcoded_bond = Ok b999.
Proof. vm_compute. reflexivity. Qed.

Example b999_earnings :
  Bond.earnings b999 = Ok (S754_finite false 4856393326305219 (-44))
  /\ Investment.earnings (Bond.base b999) = Ok (S754_finite false 6755399441056000 (-50)).
Proof. vm_compute. split; reflexivity. Qed.

Lemma bond_init_base pid sym q pp cp coupon yld date b :
  Bond.init pid sym q pp cp coupon yld date = Ok b ->
  Investment.init pid sym q pp cp date = Ok (Bond.base b).
Proof.
  unfold Bond.init. destruct (Investment.init pid sym q pp cp date) as [i|e]; cbn [bind];
    [|discriminate].
  destruct (py_float coupon); cbn [bind]; [|discriminate].
  destruct (py_float _); cbn [bind]; [|discriminate].
  rewrite div_by_hundred. cbn [bind]. intros [= <-]. reflexivity.
Qed.

(** C1. For every bond, [Bond.earnings] is the base earnings
    [(current - purchase) * quantity] plus the income term
    [quantity * purchase * yield_rate], the quantity being converted to a
    float first (both raise [OverflowError] when it is too large);
    [percent_yield] and [yearly_return] of the bond are the methods of
    [Investment] on the bond's own price and date fields, so bonds that
    differ only in coupon and yield rate agree on them; and [earnings]
    does differ from the base earnings on the bond built by [main]. *)
Theorem bond_overrides_earnings_only (b : Bond.t) :
  let i := Bond.base b in
  let gain q := PyFloat.mul (PyFloat.sub (Investment.current_price i)
                                         (Investment.purchase_price i)) q in
  let income q := PyFloat.mul (PyFloat.mul q (Investment.purchase_price i))
                              (Bond.yield_rate b) in
  Investment.earnings i = (q <- PyFloat.of_int (Investment.quantity i) ;; Ok (gain q))
  /\ Bond.earnings b
     = (q <- PyFloat.of_int (Investment.quantity i) ;; Ok (PyFloat.add (gain q) (income q)))
  /\ Bond.percent_yield b
     = calculate_percentage_yield (Investment.current_price i) (Investment.purchase_price i)
  /\ Bond.percent_yield b = Investment.percent_yield i
  /\ Bond.yearly_return b
     = calculate_yearly_return (Investment.current_price i) (Investment.purchase_price i)
                               (Investment.purchase_date i)
  /\ Bond.yearly_return b = Investment.yearly_return i
  /\ (forall c y,
        let b' := {| Bond.base := i; Bond.coupon := c; Bond.yield_rate := y |} in
        Bond.percent_yield b' = Bond.percent_yield b
        /\ Bond.yearly_return b' = Bond.yearly_return b)
  /\ Bond.earnings b999 <> Investment.earnings (Bond.base b999).
Proof.
  intros i gain income.
  assert (Hbase : Investment.earnings i
                  = (q <- PyFloat.of_int (Investment.quantity i) ;; Ok (gain q))).
  { reflexivity. }
  repeat split; try reflexivity.
  - unfold Bond.earnings. fold i. rewrite Hbase.
    unfold PyFloat.mul_int_l.
    destruct (PyFloat.of_int (Investment.quantity i)) as [q|e]; reflexivity.
  - destruct b999_earnings as [-> ->]. discriminate.
Qed.

Lemma lstrip_by_absent p s :
  (forall a, PyStr.contains a s = true -> p a = false) -> PyStr.lstrip_by p s = s.
Proof.
  destruct s as [|c r]; cbn; [reflexivity|]. intros H.
  rewrite (H c); [reflexivity|]. unfold PyStr.char_eqb. now rewrite Ascii.eqb_refl.
Qed.

Lemma rstrip_by_absent p s :
  (forall a, PyStr.contains a s = true -> p a = false) -> PyStr.rstrip_by p s = s.
Proof.
  induction s as [|c r IH]; cbn; [reflexivity|]. intros H.
  rewrite IH.
  - rewrite (H c); [reflexivity|]. unfold PyStr.char_eqb. now rewrite Ascii.eqb_refl.
  - intros a Ha. apply H. rewrite Ha. apply orb_true_r.
Qed.

Lemma strip_char_absent c s :
  PyStr.contains c s = false -> PyStr.strip_char c s = s.
Proof.
  intros H. unfold PyStr.strip_char, PyStr.strip_by.
  assert (Hp : forall a, PyStr.contains a s = true -> PyStr.char_eqb c a = false).
  { intros a Ha. unfold PyStr.char_eqb. destruct (Ascii.eqb_spec c a) as [->|]; congruence. }
  rewrite lstrip_by_absent by exact Hp. now apply rstrip_by_absent.
Qed.

(** C6. A bond that [Bond.__init__] builds has as yield rate the float
    parsed from the input with its leading and trailing percent signs
    removed, divided by 100; the division does not depend on a percent
    sign having been there: an input without one is parsed as it is and
    divided by 100 all the same. *)
Theorem bond_yield_rate_divided_by_100 pid sym q pp cp coupon yld date b :
  Bond.init pid sym q pp cp coupon yld date = Ok b ->
  exists y,
    PyStr.parse_float (PyStr.strip_char "%" yld) = Ok y
    /\ Bond.yield_rate b = PyFloat.quotient y PyFloat.hundred
    /\ (PyStr.contains "%" yld = false -> PyStr.parse_float yld = Ok y).
Proof.
  unfold Bond.init.
  destruct (Investment.init pid sym q pp cp date) as [i|e]; cbn [bind]; [|discriminate].
  destruct (py_float coupon) as [c|e]; cbn [bind]; [|discriminate].
  cbn [py_float].
  destruct (PyStr.parse_float (PyStr.strip_char "%" yld)) as [y|e] eqn:Hy; cbn [bind];
    [|discriminate].
  rewrite div_by_hundred. cbn [bind]. intros [= <-].
  exists y. repeat split.
  intros Hno. now rewrite (strip_char_absent _ _ Hno) in Hy.
Qed.

Lemma bond_yield_rate_divided_by_100_witness :
  exists y,
    PyStr.parse_float (PyStr.strip_char "%" "1.35%") = Ok y
    /\ Bond.yield_rate b999 = PyFloat.quotient y PyFloat.hundred
    /\ (PyStr.contains "%" "1.35%" = false -> PyStr.parse_float "1.35%" = Ok y).
Proof.
  apply (bond_yield_rate_divided_by_100 "B999" "GT2:GOV" (VInt 200)
           (VFloat (float_literal "100.02")) (VFloat (float_literal "100.05"))
           (VFloat (float_literal "1.38")) "1.35%" "8/1/2017" b999).
  vm_compute. reflexivity.
Defined.

(** The yield rate stored for a few inputs: a bare number is divided by
    100 like a percentage, so a fraction given as such shrinks again. *)
Example yield_rate_inputs :
  let rate yld :=
    match Bond.init "B1" "X" (VStr "1") (VStr "1") (VStr "1") (VStr "1") yld "1/1/2020" with
    | Ok b => Some (Bond.yield_rate b)
    | Raise _ => None
    end in
  rate "1.35%" = Some (S754_finite false 7782220156096218 (-59))
  /\ rate "1.35" = rate "1.35%"
  /\ rate "%%1.35%" = rate "1.35%"
  /\ rate "0.0135" = Some (PyFloat.quotient (float_literal "0.0135") PyFloat.hundred)
  /\ rate "0.0135" = Some (S754_finite false 4980620899901579 (-65))
  /\ rate "1.35 %" = rate "1.35%"
  /\ rate "1.3%5" = None.
Proof. vm_compute. repeat split; reflexivity. Qed.

(** ** The purchase date is only read by [yearly_return] *)

Lemma strptime_raises_value_error s e :
  Datetime.strptime_mdy s = Raise e -> e = ValueError.
Proof.
  unfold Datetime.strptime_mdy, Datetime.midnight.
  repeat match goal with
         | |- context [match ?x with _ => _ end] => destruct x
         end; congruence.
Qed.

Lemma yearly_return_bad_date c p s e st :
  Datetime.strptime_mdy s = Raise e ->
  calculate_yearly_return c p s st = (Raise ValueError, st).
Proof.
  intros H. rewrite (strptime_raises_value_error _ _ H) in H.
  unfold calculate_yearly_return, bindM, lift. now rewrite H.
Qed.

Lemma investment_init_date pid sym q pp cp d i :
  Investment.init pid sym q pp cp d = Ok i ->
  Investment.purchase_date i = d
  /\ forall d', exists i',
       Investment.init pid sym q pp cp d' = Ok i'
       /\ Investment.purchase_date i' = d'
       /\ Investment.quantity i' = Investment.quantity i
       /\ Investment.purchase_price i' = Investment.purchase_price i
       /\ Investment.current_price i' = Investment.current_price i.
Proof.
  unfold Investment.init.
  destruct (py_int q) as [qz|]; cbn [bind]; [|discriminate].
  destruct (py_float pp) as [ppf|]; cbn [bind]; [|discriminate].
  destruct (py_float cp) as [cpf|]; cbn [bind]; [|discriminate].
  intros [= <-]. split; [reflexivity|].
  intros d'. eexists. split; [reflexivity|]. repeat split.
Qed.

(** C10. The constructors do not look at the purchase date: if
    [Investment.__init__] succeeds with one date string it succeeds with
    every other, storing the string as given, and the instance has the
    same [earnings()] and [percent_yield()] whatever the date; these
    return a value as soon as the quantity converts to a float and the
    purchase price is not zero. A date that [strptime] refuses makes
    [yearly_return()] raise [ValueError], on each call and before the
    clock is read. The same holds for [Bond.__init__] and the methods of
    a bond. *)
Theorem purchase_date_checked_by_yearly_return_only pid sym q pp cp d i :
  Investment.init pid sym q pp cp d = Ok i ->
  Investment.purchase_date i = d
  /\ (forall d', exists i',
        Investment.init pid sym q pp cp d' = Ok i'
        /\ Investment.purchase_date i' = d'
        /\ Investment.earnings i' = Investment.earnings i
        /\ Investment.percent_yield i' = Investment.percent_yield i)
  /\ (forall e st, Datetime.strptime_mdy d = Raise e ->
        Investment.yearly_return i st = (Raise ValueError, st))
  /\ (forall qf, PyFloat.of_int (Investment.quantity i) = Ok qf ->
        exists v, Investment.earnings i = Ok v)
  /\ (PyFloat.eqb (Investment.purchase_price i) PyFloat.zero = false ->
        exists v, Investment.percent_yield i = Ok v)
  /\ (forall coupon yld b,
        Bond.init pid sym q pp cp coupon yld d = Ok b ->
        Bond.base b = i
        /\ (forall d', exists b',
              Bond.init pid sym q pp cp coupon yld d' = Ok b'
              /\ Bond.earnings b' = Bond.earnings b
              /\ Bond.percent_yield b' = Bond.percent_yield b)
        /\ (forall e st, Datetime.strptime_mdy d = Raise e ->
              Bond.yearly_return b st = (Raise ValueError, st))).
Proof.
  intros Hi. destruct (investment_init_date _ _ _ _ _ _ _ Hi) as [Hd Hany].
  split; [exact Hd|]. split; [|split; [|split; [|split]]].
  - intros d'. destruct (Hany d') as (i' & Hi' & Hd' & Hq & Hp & Hc).
    exists i'. repeat split; try assumption.
    + unfold Investment.earnings. now rewrite Hq, Hp, Hc.
    + unfold Investment.percent_yield. now rewrite Hp, Hc.
  - intros e st He. unfold Investment.yearly_return. rewrite Hd.
    now apply yearly_return_bad_date with e.
  - intros qf Hq. unfold Investment.earnings, calculate_earnings, PyFloat.mul_int_r.
    rewrite Hq. eexists. reflexivity.
  - intros Hp. unfold Investment.percent_yield.
    rewrite (percentage_yield_value_of _ _ Hp). eexists. reflexivity.
  - intros coupon yld b Hb.
    pose proof (bond_init_base _ _ _ _ _ _ _ _ _ Hb) as Hbase.
    rewrite Hi in Hbase. injection Hbase as Hbase. split; [now symmetry|].
    split.
    + intros d'. destruct (Hany d') as (i' & Hi' & Hd' & Hq & Hp & Hc).
      revert Hb. unfold Bond.init. rewrite Hi, Hi'. cbn [bind].
      destruct (py_float coupon) as [c|]; cbn [bind]; [|discriminate].
      destruct (py_float (VStr _)) as [y|]; cbn [bind]; [|discriminate].
      rewrite div_by_hundred. cbn [bind]. intros [= <-].
      eexists. split; [reflexivity|]. cbn.
      unfold Bond.earnings, Bond.percent_yield, Investment.earnings,
        Investment.percent_yield. cbn. now rewrite Hq, Hp, Hc.
    + intros e st He. unfold Bond.yearly_return, Investment.yearly_return.
      rewrite <- Hbase, Hd. now apply yearly_return_bad_date with e.
Qed.

Lemma purchase_date_checked_by_yearly_return_only_witness :
  Investment.init "S1" "GOOG" (VStr "125") (VStr "772.88") (VStr "941.53") "2015-08-01"
  = Ok iso_dated
  /\ (forall st, Investment.yearly_return iso_dated st = (Raise ValueError, st))
  /\ (exists v, Investment.earnings iso_dated = Ok v)
  /\ (exists v, Investment.percent_yield iso_dated = Ok v).
Proof.
  assert (H : Investment.init "S1" "GOOG" (VStr "125") (VStr "772.88") (VStr "941.53")
                              "2015-08-01" = Ok iso_dated) by (vm_compute; reflexivity).
  split; [exact H|].
  destruct (purchase_date_checked_by_yearly_return_only _ _ _ _ _ _ _ H)
    as (_ & _ & Hy & He & Hp & _).
  split; [|split].
  - intros st. apply (Hy ValueError). reflexivity.
  - apply (He (PyFloat.round_Z 125)). reflexivity.
  - apply Hp. vm_compute. reflexivity.
Defined.

Example iso_dated_metrics :
  Investment.earnings iso_dated = Ok (S754_finite false 5794769875763199 (-38))
  /\ Investment.percent_yield iso_dated = Ok (S754_finite false 6142060193335593 (-48)).
Proof. vm_compute. split; reflexivity. Qed.

(** ** The record parsers *)

Lemma investment_init_id pid sym q pp cp d i :
  Investment.init pid sym q pp cp d = Ok i -> Investment.purchase_id i = pid.
Proof.
  unfold Investment.init.
  destruct (py_int q); cbn [bind]; [|discriminate].
  destruct (py_float pp); cbn [bind]; [|discriminate].
  destruct (py_float cp); cbn [bind]; [|discriminate].
  now intros [= <-].
Qed.

Lemma stock_of_line_id idx line inv :
  stock_of_line idx line = Ok inv ->
  Investment.purchase_id inv = String.append "S" (PyStr.of_nat idx).
Proof.
  unfold stock_of_line.
  destruct (PyStr.split_on _ _) as [|a [|b [|c [|d [|e [|f l]]]]]]; try discriminate.
  apply investment_init_id.
Qed.

Lemma bond_of_parts_id idx parts b :
  bond_of_parts idx parts = Ok b ->
  Investment.purchase_id (Bond.base b) = String.append "B" (PyStr.of_nat idx).
Proof.
  unfold bond_of_parts.
  destruct parts as [|a [|b0 [|c [|d [|e [|f [|g [|h l]]]]]]]]; try discriminate.
  intros H. apply bond_init_base in H. now apply investment_init_id in H.
Qed.

(** The lines before the first one that fails are all turned into
    holdings, in order. *)
Lemma read_stocks_loop_prefix pre :
  forall idx acc rest,
    (forall k line, pre !! k = Some line ->
                    is_ok (stock_of_line (idx + k) line) = true) ->
    exists invs,
      read_stocks_loop idx (pre ++ rest) acc
      = read_stocks_loop (idx + length pre) rest (acc ++ invs)
      /\ length invs = length pre
      /\ forall k line, pre !! k = Some line ->
           exists inv, invs !! k = Some inv /\ stock_of_line (idx + k) line = Ok inv.
Proof.
  induction pre as [|l pre IH]; intros idx acc rest Hgood.
  - exists []. rewrite app_nil_r, Nat.add_0_r. repeat split. intros k line H. discriminate.
  - pose proof (Hgood 0%nat l eq_refl) as H0. rewrite Nat.add_0_r in H0.
    destruct (stock_of_line idx l) as [inv|e] eqn:Hl; [|discriminate].
    destruct (IH (S idx) (acc ++ [inv]) rest) as (invs & Heq & Hlen & Hk).
    { intros k line Hkl. specialize (Hgood (S k) line Hkl).
      now rewrite Nat.add_succ_r in Hgood. }
    exists (inv :: invs). split; [|split].
    + cbn [app read_stocks_loop length]. rewrite Hl, Heq, <- app_assoc.
      now rewrite Nat.add_succ_r.
    + cbn. now rewrite Hlen.
    + intros [|k] line Hkl.
      * injection Hkl as <-. exists inv. rewrite Nat.add_0_r. now split.
      * destruct (Hk k line Hkl) as (inv' & Hi & Hs). exists inv'.
        rewrite Nat.add_succ_r. now split.
Qed.

Lemma read_bonds_loop_skip idx line rest acc :
  length (fields line) <> 7%nat ->
  read_bonds_loop idx (line :: rest) acc = read_bonds_loop (S idx) rest acc.
Proof.
  intros H. cbn [read_bonds_loop]. fold (fields line).
  destruct (Nat.eqb_spec (length (fields line)) 7); [contradiction|reflexivity].
Qed.

Lemma bonds_at_cons idx line rest :
  bonds_at idx (line :: rest)
  = match bond_at idx line with
    | Some b => b :: bonds_at (S idx) rest
    | None => bonds_at (S idx) rest
    end.
Proof.
  unfold bonds_at. rewrite imap_cons. cbn [omap list_omap]. rewrite Nat.add_0_r.
  assert (E : imap ((fun k l => bond_at (idx + k) l) ∘ S) rest
              = imap (fun k l => bond_at (S idx + k) l) rest).
  { apply imap_ext. intros k l _. cbn. f_equal. lia. }
  rewrite E. destruct (bond_at idx line); reflexivity.
Qed.

(** Lines without seven parts are passed over, and the seven-part lines
    before the first one that fails are all turned into bonds. *)
Lemma read_bonds_loop_prefix pre :
  forall idx acc rest,
    (forall k line, pre !! k = Some line -> length (fields line) = 7%nat ->
                    is_ok (bond_of_parts (idx + k) (fields line)) = true) ->
    read_bonds_loop idx (pre ++ rest) acc
    = read_bonds_loop (idx + length pre) rest (acc ++ bonds_at idx pre).
Proof.
  induction pre as [|l pre IH]; intros idx acc rest Hgood.
  - cbn. unfold bonds_at. cbn. now rewrite app_nil_r, Nat.add_0_r.
  - assert (Htail : forall k line, pre !! k = Some line -> length (fields line) = 7%nat ->
                      is_ok (bond_of_parts (S idx + k) (fields line)) = true).
    { intros k line Hkl H7. specialize (Hgood (S k) line Hkl H7).
      now rewrite Nat.add_succ_r in Hgood. }
    rewrite bonds_at_cons. unfold bond_at.
    cbn [app length]. rewrite Nat.add_succ_r.
    destruct (Nat.eqb_spec (length (fields l)) 7) as [H7|H7].
    + pose proof (Hgood 0%nat l eq_refl H7) as H0. rewrite Nat.add_0_r in H0.
      cbn [read_bonds_loop]. fold (fields l).
      rewrite (proj2 (Nat.eqb_eq _ _) H7).
      destruct (bond_of_parts idx (fields l)) as [b|e]; [|discriminate].
      cbn [to_option]. rewrite (IH (S idx) (acc ++ [b]) rest Htail).
      now rewrite <- app_assoc.
    + rewrite (read_bonds_loop_skip _ _ _ _ H7). apply (IH (S idx) acc rest Htail).
Qed.

Lemma stock_of_line_field_count idx line :
  length (fields line) <> 5%nat -> stock_of_line idx line = Raise ValueError.
Proof.
  unfold stock_of_line, fields.
  destruct (PyStr.split_on _ _) as [|a [|b [|c [|d [|e [|f l]]]]]]; cbn; try reflexivity.
  intros H. now contradiction H.
Qed.

Lemma bonds_at_origin lines :
  forall idx b, b ∈ bonds_at idx lines ->
    exists k line, lines !! k = Some line /\ length (fields line) = 7%nat
                   /\ bond_of_parts (idx + k) (fields line) = Ok b
                   /\ Investment.purchase_id (Bond.base b)
                      = String.append "B" (PyStr.of_nat (idx + k)).
Proof.
  induction lines as [|l lines IH]; intros idx b Hb.
  - unfold bonds_at in Hb. cbn in Hb. now apply elem_of_nil in Hb.
  - rewrite bonds_at_cons in Hb.
    assert (Hrest : b ∈ bonds_at (S idx) lines ->
                    exists k line, (l :: lines) !! k = Some line
                      /\ length (fields line) = 7%nat
                      /\ bond_of_parts (idx + k) (fields line) = Ok b
                      /\ Investment.purchase_id (Bond.base b)
                         = String.append "B" (PyStr.of_nat (idx + k))).
    { intros H. destruct (IH _ _ H) as (k & line & Hk & H7 & Hp & Hid).
      exists (S k), line. rewrite Nat.add_succ_r. now repeat split. }
    destruct (bond_at idx l) as [b0|] eqn:Hat; [|now apply Hrest].
    apply elem_of_cons in Hb as [->|Hb]; [|now apply Hrest].
    unfold bond_at in Hat.
    destruct (Nat.eqb_spec (length (fields l)) 7) as [H7|]; [|discriminate].
    destruct (bond_of_parts idx (fields l)) as [b1|] eqn:Hp; [|discriminate].
    injection Hat as ->. exists 0%nat, l. rewrite Nat.add_0_r.
    repeat split; try assumption. now apply bond_of_parts_id with (fields l).
Qed.

(** C3. [read_stocks] always returns to its caller. When the file cannot
    be opened it prints the failure and returns no holding; when a line
    fails (a field count other than five, or a field that does not
    parse) it prints the failure and returns the holdings of the lines
    before it, the k-th with identifier "S" followed by k; when no line
    fails it returns them all and prints nothing. [read_bonds] always
    returns too; it passes over every line without seven fields, printing
    nothing, and goes on; a seven-field line that fails ends the read
    with the failure printed and the bonds built so far returned. *)
Theorem parsers_return_partial_results filename st :
  (exists invs st', read_stocks filename st = (Ok invs, st'))
  /\ (files st !! filename = None ->
      read_stocks filename st
      = (Ok [], printed (ErrReadStock filename FileNotFoundError) st))
  /\ (forall idx line, length (fields line) <> 5%nat ->
        stock_of_line idx line = Raise ValueError)
  /\ (forall pre bad post e,
        files st !! filename = Some (pre ++ bad :: post) ->
        (forall k line, pre !! k = Some line ->
                        is_ok (stock_of_line (S k) line) = true) ->
        stock_of_line (S (length pre)) bad = Raise e ->
        exists invs,
          read_stocks filename st = (Ok invs, printed (ErrReadStock filename e) st)
          /\ length invs = length pre
          /\ forall k line, pre !! k = Some line ->
               exists inv,
                 invs !! k = Some inv /\ stock_of_line (S k) line = Ok inv
                 /\ Investment.purchase_id inv = String.append "S" (PyStr.of_nat (S k)))
  /\ (forall lines,
        files st !! filename = Some lines ->
        (forall k line, lines !! k = Some line ->
                        is_ok (stock_of_line (S k) line) = true) ->
        exists invs,
          read_stocks filename st = (Ok invs, st)
          /\ length invs = length lines
          /\ forall k line, lines !! k = Some line ->
               exists inv,
                 invs !! k = Some inv /\ stock_of_line (S k) line = Ok inv
                 /\ Investment.purchase_id inv = String.append "S" (PyStr.of_nat (S k)))
  /\ (exists bonds st', read_bonds filename st = (Ok bonds, st'))
  /\ (files st !! filename = None ->
      read_bonds filename st
      = (Ok [], printed (ErrReadBond filename FileNotFoundError) st))
  /\ (forall lines,
        files st !! filename = Some lines ->
        (forall k line, lines !! k = Some line -> length (fields line) = 7%nat ->
                        is_ok (bond_of_parts (S k) (fields line)) = true) ->
        read_bonds filename st = (Ok (bonds_at 1 lines), st))
  /\ (forall pre bad post e,
        files st !! filename = Some (pre ++ bad :: post) ->
        (forall k line, pre !! k = Some line -> length (fields line) = 7%nat ->
                        is_ok (bond_of_parts (S k) (fields line)) = true) ->
        length (fields bad) = 7%nat ->
        bond_of_parts (S (length pre)) (fields bad) = Raise e ->
        read_bonds filename st
        = (Ok (bonds_at 1 pre), printed (ErrReadBond filename e) st))
  /\ (forall lines b, b ∈ bonds_at 1 lines ->
        exists k line, lines !! k = Some line /\ length (fields line) = 7%nat
                       /\ bond_of_parts (S k) (fields line) = Ok b
                       /\ Investment.purchase_id (Bond.base b)
                          = String.append "B" (PyStr.of_nat (S k))).
Proof.
  repeat apply conj.
  - unfold read_stocks.
    destruct (match open_r filename st with
              | Ok lines => read_stocks_loop 1 lines []
              | Raise e => ([], Raise e)
              end) as [invs [[]|e]]; eexists; eexists; reflexivity.
  - intros H. unfold read_stocks, open_r. rewrite H. reflexivity.
  - apply stock_of_line_field_count.
  - intros pre bad post e Hf Hgood Hbad.
    destruct (read_stocks_loop_prefix pre 1 [] (bad :: post) Hgood)
      as (invs & Heq & Hlen & Hk).
    exists invs. split; [|split; [exact Hlen|]].
    + unfold read_stocks, open_r. rewrite Hf, Heq. cbn [read_stocks_loop].
      change (1 + length pre)%nat with (S (length pre)). rewrite Hbad. reflexivity.
    + intros k line Hkl. destruct (Hk k line Hkl) as (inv & Hi & Hs).
      exists inv. repeat split; try assumption. now apply stock_of_line_id with line.
  - intros lines Hf Hgood.
    destruct (read_stocks_loop_prefix lines 1 [] [] Hgood) as (invs & Heq & Hlen & Hk).
    exists invs. split; [|split; [exact Hlen|]].
    + unfold read_stocks, open_r. rewrite Hf. rewrite app_nil_r in Heq.
      rewrite Heq. reflexivity.
    + intros k line Hkl. destruct (Hk k line Hkl) as (inv & Hi & Hs).
      exists inv. repeat split; try assumption. now apply stock_of_line_id with line.
  - unfold read_bonds.
    destruct (match open_r filename st with
              | Ok lines => read_bonds_loop 1 lines []
              | Raise e => ([], Raise e)
              end) as [bonds [[]|e]]; eexists; eexists; reflexivity.
  - intros H. unfold read_bonds, open_r. rewrite H. reflexivity.
  - intros lines Hf Hgood.
    pose proof (read_bonds_loop_prefix lines 1 [] [] Hgood) as Heq.
    rewrite app_nil_r in Heq.
    unfold read_bonds, open_r. rewrite Hf, Heq. reflexivity.
  - intros pre bad post e Hf Hgood H7 Hbad.
    pose proof (read_bonds_loop_prefix pre 1 [] (bad :: post) Hgood) as Heq.
    unfold read_bonds, open_r. rewrite Hf, Heq. cbn [read_bonds_loop].
    fold (fields bad). rewrite (proj2 (Nat.eqb_eq _ _) H7).
    change (1 + length pre)%nat with (S (length pre)). rewrite Hbad. reflexivity.
  - intros lines b Hb. apply (bonds_at_origin lines 1 b Hb).
Qed.

Ltac each_line :=
  let k := fresh "k" in
  let line := fresh "line" in
  let H := fresh "H" in
  intros k line H;
  repeat (destruct k as [|k];
          [vm_compute in H; injection H as <-;
           first [ vm_compute; reflexivity
                 | let H7 := fresh "H" in intros H7; vm_compute; first [reflexivity | vm_compute in H7; discriminate H7] ]
          |]);
  destruct k; vm_compute in H; discriminate H.

Lemma parsers_return_partial_results_witness :
  (exists invs,
     read_stocks "Lesson6_Data_Stocks.txt" (sample_state [])
     = (Ok invs,
        printed (ErrReadStock "Lesson6_Data_Stocks.txt" ValueError) (sample_state []))
     /\ length invs = 2%nat)
  /\ read_bonds "Week6_Data_Bonds.txt" (sample_state [])
     = (Ok (bonds_at 1 (take 3 sample_bond_lines)),
        printed (ErrReadBond "Week6_Data_Bonds.txt" ValueError) (sample_state [])).
Proof.
  split.
  - destruct (parsers_return_partial_results "Lesson6_Data_Stocks.txt" (sample_state []))
      as (_ & _ & _ & H & _).
    destruct (H (take 2 sample_stock_lines) "BAD LINE" (drop 3 sample_stock_lines)
                ValueError) as (invs & Hr & Hlen & _).
    + vm_compute. reflexivity.
    + each_line.
    + vm_compute. reflexivity.
    + exists invs. split; assumption.
  - destruct (parsers_return_partial_results "Week6_Data_Bonds.txt" (sample_state []))
      as (_ & _ & _ & _ & _ & _ & _ & _ & H & _).
    apply (H (take 3 sample_bond_lines) "T:GOV,10,x,100.05,1.38,1.35%,8/1/2017"
             (drop 4 sample_bond_lines) ValueError).
    + vm_compute. reflexivity.
    + each_line.
    + reflexivity.
    + vm_compute. reflexivity.
Defined.

Example read_stocks_sample :
  exists s1 s2,
    fst (read_stocks "Lesson6_Data_Stocks.txt" (sample_state [])) = Ok [s1; s2]
    /\ Investment.purchase_id s1 = "S1" /\ Investment.symbol s1 = "GOOG"
    /\ Investment.purchase_id s2 = "S2" /\ Investment.symbol s2 = "MSFT"
    /\ stdout (snd (read_stocks "Lesson6_Data_Stocks.txt" (sample_state [])))
       = [ErrReadStock "Lesson6_Data_Stocks.txt" ValueError].
Proof. vm_compute. do 2 eexists. repeat split. Qed.

Example read_bonds_sample :
  exists b,
    fst (read_bonds "Week6_Data_Bonds.txt" (sample_state [])) = Ok [b]
    /\ Investment.purchase_id (Bond.base b) = "B2".
Proof. vm_compute. eexists. split; reflexivity. Qed.

(** A bond file of a seven-field line and a five-field line: one bond, and
    nothing printed. *)
Example read_bonds_mixed :
  let st := {| files := {[ "bonds.txt" := ["GT2:GOV,200,100.02,100.05,1.38,1.35%,8/1/2017";
                                           "GOOG,125,772.88,941.53,8/1/2015"] ]};
               writable := fun _ => true; written := ∅; clock := fun _ => sample_now;
               ticks := 0; stdin := []; stdout := []; db_disk := None;
               db_pending := None; opened := 0; closes := 0;
               chart := fun _ => Ok tt |} in
  exists b, read_bonds "bonds.txt" st = (Ok [b], st)
            /\ Investment.purchase_id (Bond.base b) = "B1".
Proof. eexists. split; vm_compute; reflexivity. Qed.

(** What a line of the stock file can fail on. *)
Example stock_line_failures :
  stock_of_line 1 "GOOG,125,772.88,941.53" = Raise ValueError
  /\ stock_of_line 1 "GOOG,125,772.88,941.53,8/1/2015,extra" = Raise ValueError
  /\ stock_of_line 1 "" = Raise ValueError
  /\ stock_of_line 1 "GOOG,12.5,772.88,941.53,8/1/2015" = Raise ValueError
  /\ stock_of_line 1 "GOOG,125,$772.88,941.53,8/1/2015" = Raise ValueError
  /\ is_ok (stock_of_line 1 "GOOG,125,772.88,941.53,not a date") = true.
Proof. vm_compute. repeat split; reflexivity. Qed.

(** ** Tables under [INSERT OR REPLACE] *)

Section Tables.

Implicit Types (t : table) (rows : list row) (r : row) (k : string).

Lemma filter_all {A} (P : A -> Prop) `{forall x, Decision (P x)} (l : list A) :
  (forall x, x ∈ l -> P x) -> filter P l = l.
Proof.
  induction l as [|x l IH]; intros Hall; [reflexivity|].
  rewrite filter_cons_True by (apply Hall; left).
  f_equal. apply IH. intros y Hy. apply Hall. now right.
Qed.

Lemma filter_none {A} (P : A -> Prop) `{forall x, Decision (P x)} (l : list A) :
  (forall x, x ∈ l -> ~ P x) -> filter P l = [].
Proof.
  induction l as [|x l IH]; intros Hall; [reflexivity|].
  rewrite filter_cons_False by (apply Hall; left).
  apply IH. intros y Hy. apply Hall. now right.
Qed.

Lemma upsert_all_snoc rows r t :
  upsert_all (rows ++ [r]) t = insert_or_replace r (upsert_all rows t).
Proof. unfold upsert_all. now rewrite foldl_app. Qed.

Lemma upsert_all_app rows1 rows2 t :
  upsert_all (rows1 ++ rows2) t = upsert_all rows2 (upsert_all rows1 t).
Proof. unfold upsert_all. now rewrite foldl_app. Qed.

(** Rows of the old table survive exactly when their key is not written;
    what is written does not depend on the old table. *)
Lemma upsert_all_split rows :
  forall t,
    upsert_all rows t = filter (fun r => fst r ∉ rows.*1) t ++ upsert_all rows [].
Proof.
  induction rows as [|r rows IH] using rev_ind; intros t.
  - cbn. rewrite app_nil_r. symmetry. apply filter_all. intros x _. apply not_elem_of_nil.
  - rewrite !upsert_all_snoc. rewrite (IH t). unfold insert_or_replace.
    rewrite filter_app, <- app_assoc. f_equal.
    rewrite list_filter_filter. apply list_filter_iff. intros x.
    rewrite fmap_app. cbn. rewrite elem_of_app, list_elem_of_singleton. tauto.
Qed.

Lemma upsert_all_from rows : forall r, r ∈ upsert_all rows [] -> r ∈ rows.
Proof.
  induction rows as [|r0 rows IH] using rev_ind; intros r.
  - cbn. intros H. now apply elem_of_nil in H.
  - rewrite upsert_all_snoc. unfold insert_or_replace.
    rewrite !elem_of_app, list_elem_of_filter, list_elem_of_singleton.
    intros [[_ H]|H]; [left; now apply IH | now right].
Qed.

(** Running the same inserts again changes nothing. *)
Lemma upsert_all_idempotent rows t :
  upsert_all rows (upsert_all rows t) = upsert_all rows t.
Proof.
  rewrite (upsert_all_split rows (upsert_all rows t)).
  rewrite (upsert_all_split rows t).
  rewrite filter_app.
  rewrite (filter_none _ (upsert_all rows [])).
  - rewrite app_nil_r. rewrite list_filter_filter. f_equal.
    apply list_filter_iff. tauto.
  - intros x Hx Hnot. apply Hnot. apply list_elem_of_fmap. exists x.
    split; [reflexivity|]. now apply upsert_all_from.
Qed.

Lemma rows_keyed_insert_other r t k :
  fst r <> k -> rows_keyed k (insert_or_replace r t) = rows_keyed k t.
Proof.
  intros Hne. unfold rows_keyed, insert_or_replace.
  rewrite filter_app, filter_cons_False, filter_nil by exact Hne.
  rewrite app_nil_r, list_filter_filter. apply list_filter_iff.
  intros x. split; [tauto|]. intros ->. split; [reflexivity|]. congruence.
Qed.

Lemma rows_keyed_insert_same r t :
  rows_keyed (fst r) (insert_or_replace r t) = [r].
Proof.
  unfold rows_keyed, insert_or_replace.
  rewrite filter_app, filter_cons_True, filter_nil by reflexivity.
  rewrite list_filter_filter, filter_none; [reflexivity|].
  intros x _ [H1 H2]. contradiction.
Qed.

Lemma rows_keyed_upsert_others rows k :
  forall t, (forall x, x ∈ rows -> fst x <> k) ->
            rows_keyed k (upsert_all rows t) = rows_keyed k t.
Proof.
  induction rows as [|r rows IH]; intros t Hne; [reflexivity|].
  change (upsert_all (r :: rows) t) with (upsert_all rows (insert_or_replace r t)).
  rewrite IH by (intros x Hx; apply Hne; now right).
  apply rows_keyed_insert_other. apply Hne. left.
Qed.

(** After the inserts, a key that was written has exactly one row: the
    last one written with it. *)
Lemma rows_keyed_last pre r post t :
  (forall x, x ∈ post -> fst x <> fst r) ->
  rows_keyed (fst r) (upsert_all (pre ++ r :: post) t) = [r].
Proof.
  intros Hpost.
  rewrite upsert_all_app.
  change (upsert_all (r :: post) ?u) with (upsert_all post (insert_or_replace r u)).
  rewrite rows_keyed_upsert_others by exact Hpost.
  apply rows_keyed_insert_same.
Qed.

End Tables.

(** ** The persistence step *)

Lemma set_table_same tn s t : get_table tn s = Some t -> set_table tn t s = s.
Proof. destruct tn, s; cbn; now intros ->. Qed.

Lemma get_set_table tn t s : get_table tn (set_table tn t s) = Some t.
Proof. now destruct tn. Qed.

Lemma set_set_table tn t t' s : set_table tn t' (set_table tn t s) = set_table tn t' s.
Proof. now destruct tn. Qed.

Lemma map_result_cons {A B} (f : A -> result B) x l ys :
  map_result f (x :: l) = Ok ys ->
  exists y ys', ys = y :: ys' /\ f x = Ok y /\ map_result f l = Ok ys'.
Proof.
  cbn. destruct (f x) as [y|]; cbn; [|discriminate].
  destruct (map_result f l) as [ys'|]; cbn; [|discriminate].
  intros [= <-]. now exists y, ys'.
Qed.

(** A loop of inserts into one table, seen through the connection. *)
Lemma insert_loop {A} (f : A -> result row) tn items :
  forall rows st s t,
    map_result f items = Ok rows ->
    db_view st = Some s ->
    get_table tn s = Some t ->
    exists st',
      for_each items (fun x => r <~ lift (f x) ;; execute_insert tn r) st = (Ok tt, st')
      /\ db_view st' = Some (set_table tn (upsert_all rows t) s)
      /\ db_disk st' = db_disk st
      /\ opened st' = opened st /\ closes st' = closes st.
Proof.
  induction items as [|x items IH]; intros rows st s t Hrows Hview Ht.
  - injection Hrows as <-. exists st. cbn. rewrite (set_table_same _ _ _ Ht). tauto.
  - destruct (map_result_cons _ _ _ _ Hrows) as (r & rows' & -> & Hx & Hrest).
    pose (s1 := set_table tn (insert_or_replace r t) s).
    pose (st1 := set_db_pending (Some s1) st).
    destruct (IH rows' st1 s1 (insert_or_replace r t) Hrest eq_refl (get_set_table _ _ _))
      as (st' & Hrun & Hv & Hd & Ho & Hc).
    exists st'. split; [|split; [|tauto]].
    + cbn [for_each]. unfold bindM at 1. unfold bindM at 1. unfold lift at 1.
      rewrite Hx. unfold execute_insert. rewrite Hview, Ht. exact Hrun.
    + rewrite Hv. unfold s1. now rewrite set_set_table.
Qed.

Lemma commit_view st s :
  db_view st = Some s ->
  exists st',
    commit st = (Ok tt, st')
    /\ db_disk st' = Some s /\ db_pending st' = None
    /\ opened st' = opened st /\ closes st' = closes st.
Proof.
  unfold commit, db_view. destruct (db_pending st) as [s'|] eqn:Hp.
  - intros [= ->]. eexists. split; [reflexivity|]. cbn. tauto.
  - intros Hd. exists st. tauto.
Qed.

(** What [setup_database] leaves in the database file, when every
    quantity fits a 64-bit integer. *)
Lemma setup_database_stores db_path stocks bonds st s srows brows :
  db_disk st = Some s ->
  db_pending st = None ->
  map_result stock_row stocks = Ok srows ->
  map_result bond_row bonds = Ok brows ->
  exists st',
    setup_database db_path stocks bonds st = (Ok (Connection (opened st)), st')
    /\ db_pending st' = None
    /\ db_disk st'
       = Some {| stocks_table := Some (upsert_all srows (default [] (stocks_table s)));
                 bonds_table := Some (upsert_all brows (default [] (bonds_table s))) |}
    /\ opened st' = S (opened st) /\ closes st' = closes st.
Proof.
  intros Hd Hp Hs Hb.
  pose (s2 := create_if_absent Bonds (create_if_absent Stocks s)).
  pose (st2 := set_db_disk (Some s2) (set_db_disk (Some (create_if_absent Stocks s))
                                        (set_opened (S (opened st)) st))).
  assert (Hv2 : db_view st2 = Some s2).
  { unfold db_view, st2. cbn. now rewrite Hp. }
  assert (Hts : get_table Stocks s2 = Some (default [] (stocks_table s))).
  { unfold s2, create_if_absent. cbn. destruct s as [[ts|] [tb|]]; reflexivity. }
  destruct (insert_loop stock_row Stocks stocks srows st2 s2 _ Hs Hv2 Hts)
    as (st3 & Hrun3 & Hv3 & Hd3 & Ho3 & Hc3).
  assert (Htb : get_table Bonds (set_table Stocks (upsert_all srows (default [] (stocks_table s))) s2)
                = Some (default [] (bonds_table s))).
  { unfold s2, create_if_absent. cbn. destruct s as [[ts|] [tb|]]; reflexivity. }
  destruct (insert_loop bond_row Bonds bonds brows st3 _ _ Hb Hv3 Htb)
    as (st4 & Hrun4 & Hv4 & Hd4 & Ho4 & Hc4).
  destruct (commit_view st4 _ Hv4) as (st5 & Hrun5 & Hd5 & Hp5 & Ho5 & Hc5).
  exists st5. split; [|split; [exact Hp5|split; [|split]]].
  - unfold setup_database.
    unfold bindM at 1. unfold connect. rewrite Hd.
    unfold bindM at 1. unfold execute_create at 1.
    cbn [db_pending db_disk set_opened set_db_disk]. rewrite Hp, Hd.
    unfold bindM at 1. unfold execute_create at 1.
    cbn [db_pending db_disk set_opened set_db_disk]. rewrite Hp.
    fold s2. change (set_db_disk (Some s2) _) with st2.
    unfold bindM at 1. rewrite Hrun3.
    unfold bindM at 1. rewrite Hrun4.
    unfold bindM at 1. rewrite Hrun5. reflexivity.
  - rewrite Hd5. reflexivity.
  - rewrite Ho5, Ho4, Ho3. reflexivity.
  - rewrite Hc5, Hc4, Hc3. reflexivity.
Qed.

Lemma map_result_app {A B} (f : A -> result B) l1 :
  forall l2 ys,
    map_result f (l1 ++ l2) = Ok ys ->
    exists ys1 ys2, ys = ys1 ++ ys2 /\ map_result f l1 = Ok ys1 /\ map_result f l2 = Ok ys2.
Proof.
  induction l1 as [|x l1 IH]; intros l2 ys H.
  - exists [], ys. now repeat split.
  - cbn [app] in H. destruct (map_result_cons _ _ _ _ H) as (y & ys' & -> & Hx & Hrest).
    destruct (IH _ _ Hrest) as (ys1 & ys2 & -> & H1 & H2).
    exists (y :: ys1), ys2. repeat split; [|exact H2].
    cbn. now rewrite Hx, H1.
Qed.

Lemma map_result_elem {A B} (f : A -> result B) l :
  forall ys y, map_result f l = Ok ys -> y ∈ ys -> exists x, x ∈ l /\ f x = Ok y.
Proof.
  induction l as [|x l IH]; intros ys y H Hy.
  - injection H as <-. now apply elem_of_nil in Hy.
  - destruct (map_result_cons _ _ _ _ H) as (y0 & ys' & -> & Hx & Hrest).
    apply elem_of_cons in Hy as [->|Hy].
    + exists x. split; [left|exact Hx].
    + destruct (IH _ _ Hrest Hy) as (x' & Hin & Hf). exists x'. split; [now right|exact Hf].
Qed.

Lemma stock_row_key inv r : stock_row inv = Ok r -> fst r = Investment.purchase_id inv.
Proof.
  unfold stock_row. destruct (bind_int _); cbn [bind]; [|discriminate]. now intros [= <-].
Qed.

Lemma bond_row_key b r :
  bond_row b = Ok r -> fst r = Investment.purchase_id (Bond.base b).
Proof.
  unfold bond_row. destruct (bind_int _); cbn [bind]; [|discriminate]. now intros [= <-].
Qed.

(** The row kept for an identifier is the row of the last holding that
    has it. *)
Lemma last_holding_row {A} (f : A -> result row) (key : A -> string)
    (Hkey : forall x r, f x = Ok r -> fst r = key x) items rows pre x post t :
  map_result f items = Ok rows ->
  items = pre ++ x :: post ->
  (forall y, y ∈ post -> key y <> key x) ->
  exists r, f x = Ok r /\ rows_keyed (key x) (upsert_all rows t) = [r].
Proof.
  intros Hrows -> Hpost.
  destruct (map_result_app _ _ _ _ Hrows) as (rpre & rrest & -> & Hpre & Hrest).
  destruct (map_result_cons _ _ _ _ Hrest) as (r & rpost & -> & Hx & Hrpost).
  exists r. split; [exact Hx|].
  rewrite <- (Hkey _ _ Hx). apply rows_keyed_last.
  intros y Hy. destruct (map_result_elem _ _ _ _ Hrpost Hy) as (x' & Hin & Hf).
  rewrite (Hkey _ _ Hf), (Hkey _ _ Hx). now apply Hpost.
Qed.

(** C4. When the database can be opened and every quantity fits a
    64-bit integer, the persistence step succeeds whether or not
    identifiers repeat among the holdings; running it a second time with
    the same holdings leaves the database file as the first run left it;
    and after a run each identifier of a holding has exactly one row in
    its table, the row of the last holding with that identifier, whatever
    the table held before. *)
Theorem upsert_by_purchase_id db_path stocks bonds st s srows brows :
  db_disk st = Some s ->
  db_pending st = None ->
  map_result stock_row stocks = Ok srows ->
  map_result bond_row bonds = Ok brows ->
  exists c1 st1 c2 st2,
    setup_database db_path stocks bonds st = (Ok c1, st1)
    /\ setup_database db_path stocks bonds st1 = (Ok c2, st2)
    /\ db_disk st2 = db_disk st1
    /\ (forall pre inv post,
          stocks = pre ++ inv :: post ->
          (forall x, x ∈ post -> Investment.purchase_id x <> Investment.purchase_id inv) ->
          exists r, stock_row inv = Ok r
                    /\ snd r !! 3%nat = Some (bind_float (Investment.current_price inv))
                    /\ rows_keyed (Investment.purchase_id inv) (stored Stocks st1) = [r])
    /\ (forall pre b post,
          bonds = pre ++ b :: post ->
          (forall x, x ∈ post -> Investment.purchase_id (Bond.base x)
                                 <> Investment.purchase_id (Bond.base b)) ->
          exists r, bond_row b = Ok r
                    /\ rows_keyed (Investment.purchase_id (Bond.base b)) (stored Bonds st1)
                       = [r]).
Proof.
  intros Hd Hp Hs Hb.
  destruct (setup_database_stores db_path stocks bonds st s srows brows Hd Hp Hs Hb)
    as (st1 & Hrun1 & Hp1 & Hd1 & _).
  destruct (setup_database_stores db_path stocks bonds st1 _ srows brows Hd1 Hp1 Hs Hb)
    as (st2 & Hrun2 & Hp2 & Hd2 & _).
  exists (Connection (opened st)), st1, (Connection (opened st1)), st2.
  split; [exact Hrun1|]. split; [exact Hrun2|]. split; [|split].
  - rewrite Hd2, Hd1. cbn. now rewrite !upsert_all_idempotent.
  - intros pre inv post Heq Hpost. unfold stored. rewrite Hd1. cbn.
    destruct (last_holding_row stock_row Investment.purchase_id stock_row_key
                stocks srows pre inv post
                (default [] (stocks_table s)) Hs Heq Hpost)
      as (r & Hr & Hk).
    exists r. split; [exact Hr|]. split; [|exact Hk].
    revert Hr. unfold stock_row. destruct (bind_int _); cbn [bind]; [|discriminate].
    now intros [= <-].
  - intros pre b post Heq Hpost. unfold stored. rewrite Hd1. cbn.
    now apply (last_holding_row bond_row (fun b => Investment.purchase_id (Bond.base b))
                 bond_row_key bonds brows pre b post).
Qed.

Lemma upsert_by_purchase_id_witness :
  exists c1 st1 c2 st2 r,
    setup_database "portfolio.db" [s1_at "941.53"; s1_at "950.00"] [b999]
                   (stale_state []) = (Ok c1, st1)
    /\ setup_database "portfolio.db" [s1_at "941.53"; s1_at "950.00"] [b999] st1
       = (Ok c2, st2)
    /\ db_disk st2 = db_disk st1
    /\ stock_row (s1_at "950.00") = Ok r
    /\ rows_keyed "S1" (stored Stocks st1) = [r].
Proof.
  destruct (upsert_by_purchase_id "portfolio.db" [s1_at "941.53"; s1_at "950.00"] [b999]
              (stale_state []) stale_store
              [("S1", [SqlText "GOOG"; SqlInt 125; SqlReal (float_literal "772.88");
                       SqlReal (float_literal "941.53"); SqlText "8/1/2015"]);
               ("S1", [SqlText "GOOG"; SqlInt 125; SqlReal (float_literal "772.88");
                       SqlReal (float_literal "950.00"); SqlText "8/1/2015"])]
              [("B999", [SqlText "GT2:GOV"; SqlInt 200; SqlReal (float_literal "100.02");
                         SqlReal (float_literal "100.05"); SqlReal (float_literal "1.38");
                         SqlReal (S754_finite false 7782220156096218 (-59));
                         SqlText "8/1/2017"])])
    as (c1 & st1 & c2 & st2 & H1 & H2 & H3 & H4 & _);
    try (vm_compute; reflexivity).
  destruct (H4 [s1_at "941.53"] (s1_at "950.00") [] eq_refl) as (r & Hr & _ & Hk).
  { intros x Hx. now apply elem_of_nil in Hx. }
  exists c1, st1, c2, st2, r. repeat split; assumption.
Defined.

(** Two runs that both read a first stock line, with different current
    prices: one row "S1", with the second price, beside the row an
    earlier run left. *)
Example s1_persisted_twice :
  let run price st := snd (setup_database "portfolio.db" [s1_at price] [] st) in
  stored Stocks (run "950.00" (run "941.53" (stale_state [])))
  = [stale_row;
     ("S1", [SqlText "GOOG"; SqlInt 125; SqlReal (float_literal "772.88");
             SqlReal (float_literal "950.00"); SqlText "8/1/2015"])].
Proof. vm_compute. reflexivity. Qed.

(** C7, as the code has it. After the persistence step each table holds
    the rows it held before whose identifier is not an identifier of this
    run's holdings, unchanged, followed by rows that depend on this run's
    holdings alone; so the rows under this run's identifiers are a
    function of the run's inputs, and a table that was empty or absent
    before the run is such a function as a whole. *)
Theorem store_after_upsert db_path stocks bonds st s srows brows :
  db_disk st = Some s ->
  db_pending st = None ->
  map_result stock_row stocks = Ok srows ->
  map_result bond_row bonds = Ok brows ->
  exists c st',
    setup_database db_path stocks bonds st = (Ok c, st')
    /\ stored Stocks st'
       = filter (fun r => fst r ∉ srows.*1) (stored Stocks st) ++ upsert_all srows []
    /\ stored Bonds st'
       = filter (fun r => fst r ∉ brows.*1) (stored Bonds st) ++ upsert_all brows []
    /\ srows.*1 = Investment.purchase_id <$> stocks
    /\ brows.*1 = (fun b => Investment.purchase_id (Bond.base b)) <$> bonds
    /\ (stored Stocks st = [] -> stored Stocks st' = upsert_all srows [])
    /\ (stored Bonds st = [] -> stored Bonds st' = upsert_all brows []).
Proof.
  intros Hd Hp Hs Hb.
  destruct (setup_database_stores db_path stocks bonds st s srows brows Hd Hp Hs Hb)
    as (st' & Hrun & _ & Hd' & _).
  assert (Hks : forall A (f : A -> result row) (key : A -> string) items rows,
             (forall x r, f x = Ok r -> fst r = key x) ->
             map_result f items = Ok rows -> rows.*1 = key <$> items).
  { intros A f key items. induction items as [|x items IH]; intros rows Hkey Hrows.
    - now injection Hrows as <-.
    - destruct (map_result_cons _ _ _ _ Hrows) as (r & rows' & -> & Hx & Hrest).
      cbn. f_equal; [now apply Hkey | now apply IH]. }
  assert (Hst : stored Stocks st'
                = filter (fun r => fst r ∉ srows.*1) (stored Stocks st)
                  ++ upsert_all srows []).
  { unfold stored. rewrite Hd', Hd. cbn. apply upsert_all_split. }
  assert (Hbt : stored Bonds st'
                = filter (fun r => fst r ∉ brows.*1) (stored Bonds st)
                  ++ upsert_all brows []).
  { unfold stored. rewrite Hd', Hd. cbn. apply upsert_all_split. }
  exists (Connection (opened st)), st'.
  repeat split; try assumption.
  - now apply (Hks _ stock_row Investment.purchase_id stocks srows stock_row_key).
  - now apply (Hks _ bond_row (fun b => Investment.purchase_id (Bond.base b)) bonds brows
                 bond_row_key).
  - intros He. rewrite Hst, He. reflexivity.
  - intros He. rewrite Hbt, He. reflexivity.
Qed.

Lemma store_after_upsert_witness :
  exists c st',
    setup_database "portfolio.db" [s1_at "941.53"] [b999] (stale_state []) = (Ok c, st')
    /\ stored Stocks st' = [stale_row] ++ upsert_all [("S1",
         [SqlText "GOOG"; SqlInt 125; SqlReal (float_literal "772.88");
          SqlReal (float_literal "941.53"); SqlText "8/1/2015"])] [].
Proof.
  destruct (store_after_upsert "portfolio.db" [s1_at "941.53"] [b999]
              (stale_state []) stale_store
              [("S1", [SqlText "GOOG"; SqlInt 125; SqlReal (float_literal "772.88");
                       SqlReal (float_literal "941.53"); SqlText "8/1/2015"])]
              [("B999", [SqlText "GT2:GOV"; SqlInt 200; SqlReal (float_literal "100.02");
                         SqlReal (float_literal "100.05"); SqlReal (float_literal "1.38");
                         SqlReal (S754_finite false 7782220156096218 (-59));
                         SqlText "8/1/2017"])])
    as (c & st' & Hrun & Hs & _);
    try (vm_compute; reflexivity).
  exists c, st'. split; [exact Hrun|]. rewrite Hs. reflexivity.
Defined.

(** Two runs over the same input files, one on a new database and one on
    a database that holds a row "S9" from an earlier run: both complete,
    the row "S9" is still there after the second, and the two database
    files differ. *)
Lemma stale_row_survives_a_run :
  files (stale_state ["5"]) = files (sample_state ["5"])
  /\ fst (main (sample_state ["5"])) = Ok tt
  /\ fst (main (stale_state ["5"])) = Ok tt
  /\ (Investment.purchase_id <$>
        default [] (to_option (fst (read_stocks "Lesson6_Data_Stocks.txt"
                                      (stale_state ["5"]))))) = ["S1"; "S2"]
  /\ rows_keyed "S9" (stored Stocks (snd (main (stale_state ["5"])))) = [stale_row]
  /\ rows_keyed "S9" (stored Stocks (snd (main (sample_state ["5"])))) = []
  /\ db_disk (snd (main (stale_state ["5"]))) <> db_disk (snd (main (sample_state ["5"]))).
Proof.
  repeat split; try (vm_compute; reflexivity).
  intros H. vm_compute in H. discriminate H.
Qed.

(** ** What each step leaves alone *)

Section Frame.

Lemma quiet_refl st : quiet st st.
Proof. unfold quiet. auto. Qed.

Lemma quiet_trans st1 st2 st3 : quiet st1 st2 -> quiet st2 st3 -> quiet st1 st3.
Proof. unfold quiet. intros (-> & -> & H1) (-> & -> & H2). repeat split. lia. Qed.

Context {A B : Type}.

Lemma keeps_ret (a : A) : keeps (ret a).
Proof. intros st. apply quiet_refl. Qed.

Lemma keeps_raise e : keeps (@raise A e).
Proof. intros st. apply quiet_refl. Qed.

Lemma keeps_lift (r : result A) : keeps (lift r).
Proof. intros st. apply quiet_refl. Qed.

Lemma keeps_bind (m : M A) (k : A -> M B) :
  keeps m -> (forall a, keeps (k a)) -> keeps (bindM m k).
Proof.
  intros Hm Hk st. unfold bindM. specialize (Hm st).
  destruct (m st) as [[a|e] st']; cbn in *; [|exact Hm].
  eapply quiet_trans; [exact Hm|apply Hk].
Qed.

Lemma keeps_try (body : M A) handler :
  keeps body -> (forall e, keeps (handler e)) -> keeps (try_except body handler).
Proof.
  intros Hm Hh st. unfold try_except. specialize (Hm st).
  destruct (body st) as [[a|e] st']; cbn in *; [exact Hm|].
  eapply quiet_trans; [exact Hm|apply Hh].
Qed.

Lemma keeps_for_each (l : list A) (body : A -> M unit) :
  (forall x, keeps (body x)) -> keeps (for_each l body).
Proof.
  intros Hb. induction l as [|x l IH]; cbn [for_each].
  - intros st. apply quiet_refl.
  - intros st. unfold bindM. specialize (Hb x st).
    destruct (body x st) as [[[]|e] st']; cbn in *; [|exact Hb].
    eapply quiet_trans; [exact Hb|apply IH].
Qed.

Lemma keeps_map_M (f : A -> M B) (l : list A) :
  (forall x, keeps (f x)) -> keeps (map_M f l).
Proof.
  intros Hf. induction l as [|x l IH]; cbn [map_M].
  - intros st. apply quiet_refl.
  - intros st. unfold bindM at 1. specialize (Hf x st).
    destruct (f x st) as [[y|e] st']; cbn in *; [|exact Hf].
    eapply quiet_trans; [exact Hf|].
    unfold bindM. specialize (IH st').
    destruct (map_M f l st') as [[ys|e] st'']; cbn in *; exact IH.
Qed.

Lemma keeps_while (fuel : nat) (body : M bool) :
  keeps body -> keeps (while_true fuel body).
Proof.
  intros Hb. induction fuel as [|n IH]; intros st; cbn [while_true]; unfold bindM;
    specialize (Hb st); destruct (body st) as [[[|]|e] st']; cbn in *; try exact Hb.
  eapply quiet_trans; [exact Hb|apply IH].
Qed.

End Frame.

Ltac keeps_prim :=
  let st := fresh "st" in
  intros st; unfold quiet; cbv beta delta
    [print datetime_today open_w write_line connect execute_create execute_insert commit
     db_view];
  repeat match goal with
         | |- context [match ?x with _ => _ end] => destruct x
         | |- context [if ?x then _ else _] => destruct x
         end;
  cbn; auto with arith.

Lemma keeps_print o : keeps (print o).
Proof. keeps_prim. Qed.

Lemma keeps_today : keeps datetime_today.
Proof. keeps_prim. Qed.

Lemma keeps_open_w f : keeps (open_w f).
Proof. keeps_prim. Qed.

Lemma keeps_write_line f l : keeps (write_line f l).
Proof. keeps_prim. Qed.

Lemma keeps_execute_create tn : keeps (execute_create tn).
Proof. keeps_prim. Qed.

Lemma keeps_execute_insert tn r : keeps (execute_insert tn r).
Proof. keeps_prim. Qed.

Lemma keeps_commit : keeps commit.
Proof. keeps_prim. Qed.

Lemma keeps_input prompt : keeps (input prompt).
Proof.
  intros st. unfold input, bindM, print. cbn.
  destruct (stdin st) as [|line rest] eqn:E; unfold quiet; cbn; rewrite ?E; cbn;
    auto with arith.
Qed.

Create HintDb frame.
#[local] Hint Resolve keeps_ret keeps_raise keeps_lift keeps_print keeps_today keeps_open_w
  keeps_write_line keeps_execute_create keeps_execute_insert keeps_commit keeps_input
  : frame.
#[local] Hint Extern 2 (keeps (bindM _ _)) => apply keeps_bind; [|intros] : frame.
#[local] Hint Extern 2 (keeps (try_except _ _)) => apply keeps_try; [|intros] : frame.
#[local] Hint Extern 2 (keeps (for_each _ _)) => apply keeps_for_each; intros : frame.
#[local] Hint Extern 2 (keeps (map_M _ _)) => apply keeps_map_M; intros : frame.
#[local] Hint Extern 2 (keeps (while_true _ _)) => apply keeps_while : frame.
#[local] Hint Extern 3 (keeps (if ?b then _ else _)) => destruct b : frame.
#[local] Hint Extern 3 (keeps (match ?x with _ => _ end)) => destruct x : frame.

Lemma keeps_yearly_return c p s : keeps (calculate_yearly_return c p s).
Proof. unfold calculate_yearly_return. auto 20 with frame. Qed.

#[local] Hint Resolve keeps_yearly_return : frame.

Lemma keeps_read_stocks f : keeps (read_stocks f).
Proof.
  intros st. unfold read_stocks.
  destruct (match open_r f st with
            | Ok lines => read_stocks_loop 1 lines []
            | Raise e => ([], Raise e)
            end) as [invs [[]|e]]; unfold quiet; cbn; auto.
Qed.

Lemma keeps_read_bonds f : keeps (read_bonds f).
Proof.
  intros st. unfold read_bonds.
  destruct (match open_r f st with
            | Ok lines => read_bonds_loop 1 lines []
            | Raise e => ([], Raise e)
            end) as [bonds [[]|e]]; unfold quiet; cbn; auto.
Qed.

Lemma keeps_write_report investor stocks bonds f :
  keeps (write_report investor stocks bonds f).
Proof.
  unfold write_report, Investment.yearly_return. auto 30 with frame.
Qed.

Lemma keeps_export_csv stocks f : keeps (export_csv stocks f).
Proof. unfold export_csv, Investment.yearly_return. auto 30 with frame. Qed.

Lemma keeps_visualize_json f portfolio : keeps (visualize_json f portfolio).
Proof.
  unfold visualize_json. apply keeps_try; [|intros; apply keeps_print].
  apply keeps_bind; [|intros; apply keeps_print]. intros st. apply quiet_refl.
Qed.

Lemma keeps_filter_body stocks : keeps (filter_body stocks).
Proof. unfold filter_body, Investment.yearly_return. auto 30 with frame. Qed.

Lemma keeps_filter stocks : keeps (interactive_portfolio_filter stocks).
Proof.
  intros st. unfold interactive_portfolio_filter.
  apply keeps_while, keeps_filter_body.
Qed.

(** ** The run and its connection *)

Lemma total_try_print (body : M unit) (o : exn -> output) :
  total (try_except body (fun e => print (o e))).
Proof.
  intros st. unfold try_except. destruct (body st) as [[[]|e] st']; reflexivity.
Qed.

Lemma total_write_report investor stocks bonds f :
  total (write_report investor stocks bonds f).
Proof. apply total_try_print. Qed.

Lemma total_export_csv stocks f : total (export_csv stocks f).
Proof. apply total_try_print. Qed.

Lemma total_visualize_json f portfolio : total (visualize_json f portfolio).
Proof. apply total_try_print. Qed.

Lemma setup_database_counts db_path stocks bonds st r st' :
  setup_database db_path stocks bonds st = (r, st') ->
  closes st' = closes st /\ (is_ok r = true -> opened st' = S (opened st)).
Proof.
  unfold setup_database. unfold bindM at 1. unfold connect.
  destruct (db_disk st) as [s|]; [|intros [= <- <-]; split; [reflexivity|discriminate]].
  match goal with
  | |- ?rest (set_opened ?n st) = _ -> _ =>
      assert (Hk : keeps rest) by auto 30 with frame;
      specialize (Hk (set_opened n st)); intros H; rewrite H in Hk
  end.
  destruct Hk as (Hc & Ho & _). cbn in Hc, Ho. split; [exact Hc|]. intros _. exact Ho.
Qed.

Lemma closed_after_bind {A B} c o (m : M A) (k : A -> M B) st :
  closes (snd (m st)) = c ->
  (forall a st', m st = (Ok a, st') -> closed_after c o (k a st')) ->
  closed_after c o (bindM m k st).
Proof.
  intros Hc Hk. unfold bindM. destruct (m st) as [[a|e] st']; cbn in *.
  - now apply Hk.
  - exact Hc.
Qed.

Ltac quiet_step lem a st' Hc Ho :=
  let Q := fresh "Q" in
  let E := fresh "E" in
  apply closed_after_bind;
  [ pose proof lem as Q; destruct Q as (Q & _); cbn in Q; congruence
  | intros a st' E;
    pose proof lem as Q; rewrite E in Q; destruct Q as (Hc & Ho & _);
    cbn [snd] in Hc, Ho; clear E ].

Lemma main_closed_after st : closed_after (closes st) (S (opened st)) (main st).
Proof.
  unfold main.
  quiet_step (keeps_read_stocks "Lesson6_Data_Stocks.txt" st) stocks st1 Hc1 Ho1.
  quiet_step (keeps_read_bonds "Week6_Data_Bonds.txt" st1) bonds st2 Hc2 Ho2.
  apply closed_after_bind; [cbn; congruence|]. intros hardcoded st2' E.
  injection E as _ <-.
  apply closed_after_bind.
  { destruct (setup_database "portfolio.db" stocks (bonds ++ [hardcoded]) st2)
      as [r st3] eqn:E.
    destruct (setup_database_counts _ _ _ _ _ _ E) as [Hc _]. cbn. congruence. }
  intros conn st3 E.
  destruct (setup_database_counts _ _ _ _ _ _ E) as [Hc3 Ho3]. specialize (Ho3 eq_refl).
  clear E.
  match goal with |- context [write_report ?i ?s ?b ?f] =>
    quiet_step (keeps_write_report i s b f st3) u4 st4 Hc4 Ho4 end.
  quiet_step (keeps_export_csv stocks "stock_summary.csv" st4) u5 st5 Hc5 Ho5.
  quiet_step (keeps_filter stocks st5) u6 st6 Hc6 Ho6.
  quiet_step (keeps_visualize_json "AllStocks.json" (portfolio_of stocks) st6)
             u7 st7 Hc7 Ho7.
  unfold closed_after, close. cbn. split; congruence.
Qed.

(** C8, as the code has it. [main] closes the connection with its last
    statement and in no other place: a run that completes has opened one
    connection and closed it once. Report writing, CSV export and
    charting always return, since each catches its own failures, so a
    failure inside them does not keep the run from reaching the close. *)
Theorem connection_closed_when_run_completes st st' :
  main st = (Ok tt, st') ->
  closes st' = S (closes st)
  /\ opened st' = S (opened st)
  /\ (forall investor stocks bonds f, total (write_report investor stocks bonds f))
  /\ (forall stocks f, total (export_csv stocks f))
  /\ (forall f portfolio, total (visualize_json f portfolio)).
Proof.
  intros H. pose proof (main_closed_after st) as Hc. rewrite H in Hc.
  destruct Hc as [Hc Ho]. repeat split; try assumption.
  - apply total_write_report.
  - apply total_export_csv.
  - apply total_visualize_json.
Qed.

Lemma connection_closed_when_run_completes_witness :
  closes (snd (main (read_only_state ["5"]))) = 1%nat
  /\ opened (snd (main (read_only_state ["5"]))) = 1%nat
  /\ stdout (snd (main (read_only_state ["5"])))
     = [ErrReadStock "Lesson6_Data_Stocks.txt" ValueError;
        ErrReadBond "Week6_Data_Bonds.txt" ValueError;
        ErrReport "Investment_Report.txt" FileNotFoundError;
        ErrCsv "stock_summary.csv" FileNotFoundError;
        Menu; Prompt "Choice: "; VizFailed FileNotFoundError].
Proof.
  assert (E : main (read_only_state ["5"]) = (Ok tt, snd (main (read_only_state ["5"])))).
  { rewrite (surjective_pairing (main (read_only_state ["5"]))) at 1.
    f_equal; vm_compute; reflexivity. }
  destruct (connection_closed_when_run_completes _ _ E) as (Hc & Ho & _).
  split; [exact Hc|]. split; [exact Ho|]. vm_compute. reflexivity.
Defined.

(** A run that raises has not closed its connection. *)
Lemma no_close_when_main_raises st e st' :
  main st = (Raise e, st') -> closes st' = closes st.
Proof.
  intros H. pose proof (main_closed_after st) as Hc. now rewrite H in Hc.
Qed.

(** The user answers the menu with an empty line: the upsert has been
    committed, the filter raises [IndexError] out of [main], and the
    connection that was opened is never closed. *)
Lemma connection_left_open_when_filter_raises :
  fst (main (sample_state [""])) = Raise IndexError
  /\ opened (snd (main (sample_state [""]))) = 1%nat
  /\ closes (snd (main (sample_state [""]))) = 0%nat
  /\ db_pending (snd (main (sample_state [""]))) = None
  /\ map fst (stored Stocks (snd (main (sample_state [""])))) = ["S1"; "S2"]
  /\ map fst (stored Bonds (snd (main (sample_state [""])))) = ["B2"; "B999"].
Proof. vm_compute. repeat split; reflexivity. Qed.

(** ** The interactive filter *)

Lemma filter_body_blank stocks st line rest :
  stdin st = line :: rest ->
  norm line = Raise IndexError ->
  filter_body stocks st
  = (Raise IndexError, set_stdin rest (printed (Prompt "Choice: ") (printed Menu st))).
Proof.
  intros Hin Hn. unfold filter_body, bindM, input, print, bindM, lift. cbn.
  rewrite Hin, Hn. reflexivity.
Qed.

Lemma norm_blank line :
  PyStr.split_ws (PyStr.lower (PyStr.strip line)) = [] <-> norm line = Raise IndexError.
Proof.
  unfold norm. destruct (PyStr.split_ws _); split; intros H; congruence.
Qed.

(** A first word that is no command: "Invalid." is printed and the loop
    goes on. *)
Lemma filter_body_unrecognised stocks st line rest choice :
  stdin st = line :: rest ->
  norm line = Ok choice ->
  str_in choice ["1"; "positive"; "2"; "negative"; "3"; "sort"; "4"; "lookup";
                 "5"; "exit"; "quit"] = false ->
  filter_body stocks st
  = (Ok false,
     printed OutInvalid
       (set_stdin rest (printed (Prompt "Choice: ") (printed Menu st)))).
Proof.
  intros Hin Hn Hno. unfold filter_body, bindM, input, print, bindM, lift. cbn.
  rewrite Hin, Hn. cbn in Hno |- *.
  repeat (apply orb_false_elim in Hno as [? Hno]).
  repeat match goal with H : (_ =? _)%string = false |- _ => rewrite H; clear H end.
  reflexivity.
Qed.

(** An exit command ends the loop. *)
Lemma filter_body_exit stocks st line rest choice :
  stdin st = line :: rest ->
  norm line = Ok choice ->
  str_in choice ["5"; "exit"; "quit"] = true ->
  filter_body stocks st
  = (Ok true, set_stdin rest (printed (Prompt "Choice: ") (printed Menu st))).
Proof.
  intros Hin Hn Hyes. unfold filter_body, bindM, input, print, bindM, lift. cbn.
  rewrite Hin, Hn. cbn in Hyes |- *.
  repeat (apply orb_true_iff in Hyes as [Hyes|Hyes];
          [apply String.eqb_eq in Hyes; subst choice; reflexivity|]).
  discriminate Hyes.
Qed.

(** A round of the loop that returns has read a line. *)
Lemma filter_body_consumes stocks st b st' :
  filter_body stocks st = (Ok b, st') -> (length (stdin st') < length (stdin st))%nat.
Proof.
  unfold filter_body, Investment.yearly_return. unfold bindM at 1. unfold print at 1.
  unfold bindM at 1. unfold input at 1. unfold bindM at 1. unfold print at 1.
  cbn [stdin stdout set_stdout].
  destruct (stdin st) as [|line rest] eqn:Hin; [discriminate|].
  match goal with
  | |- ?k ?s = _ -> _ =>
      assert (Hk : keeps k) by (auto 30 using keeps_yearly_return with frame);
      specialize (Hk s); intros H; rewrite H in Hk
  end.
  destruct Hk as (_ & _ & Hk). cbn in Hk |- *. lia.
Qed.

(** The number of lines left on standard input is fuel enough: more fuel
    gives the same run. *)
Lemma filter_fuel_enough stocks :
  forall n st, (length (stdin st) <= n)%nat ->
               while_true n (filter_body stocks) st
               = interactive_portfolio_filter stocks st.
Proof.
  unfold interactive_portfolio_filter.
  assert (H : forall n m st, (length (stdin st) <= n)%nat -> (length (stdin st) <= m)%nat ->
                while_true n (filter_body stocks) st = while_true m (filter_body stocks) st).
  { induction n as [|n IH]; intros m st Hn Hm; destruct m as [|m];
      cbn [while_true]; unfold bindM;
      destruct (filter_body stocks st) as [[[|]|e] st'] eqn:E; try reflexivity;
      apply filter_body_consumes in E; try lia.
    apply IH; lia. }
  intros n st Hn. apply H; [exact Hn|reflexivity].
Qed.

(** Input that is no command, and the commands that end the loop. *)
Example filter_rounds :
  stdout (snd (interactive_portfolio_filter [] (sample_state ["hello"; " QUIT now"; "1"])))
  = [Menu; Prompt "Choice: "; OutInvalid; Menu; Prompt "Choice: "]
  /\ fst (interactive_portfolio_filter [] (sample_state ["hello"; " QUIT now"; "1"])) = Ok tt
  /\ stdin (snd (interactive_portfolio_filter [] (sample_state ["hello"; " QUIT now"; "1"])))
     = ["1"]
  /\ fst (interactive_portfolio_filter [] (sample_state ["hello"])) = Raise EOFError.
Proof. vm_compute. repeat split; reflexivity. Qed.

(** The metric calls inside the loop are not guarded either: sorting a
    stock whose date does not parse. *)
Example filter_sort_bad_date :
  fst (interactive_portfolio_filter [iso_dated] (sample_state ["3"; "5"]))
  = Raise ValueError.
Proof. vm_compute. reflexivity. Qed.

(** C9. The loop does not survive every input: a line that is empty or
    all white space has no first word, [norm] raises [IndexError], and
    nothing in the loop catches it. *)
Theorem filter_raises_on_blank_line :
  interactive_portfolio_filter [] (sample_state [""])
  = (Raise IndexError,
     set_stdin [] (printed (Prompt "Choice: ") (printed Menu (sample_state [""]))))
  /\ fst (interactive_portfolio_filter [] (sample_state ["  "; "5"])) = Raise IndexError
  /\ fst (interactive_portfolio_filter [s1_at "941.53"] (sample_state ["   "; "5"]))
     = Raise IndexError.
Proof. vm_compute. repeat split; reflexivity. Qed.

(** ** Rounding keeps the sign, and small integers are exact *)

Section Rounding.

Let prec := PyFloat.prec.
Let emax := PyFloat.emax.

Lemma shr_1_nonneg mrs : 0 <= shr_m mrs -> 0 <= shr_m (shr_1 mrs).
Proof.
  destruct mrs as [m r s]. cbn [shr_m]. intros Hm.
  destruct m as [|[p|p|]|p]; cbn; lia.
Qed.

Lemma iter_shr_1_nonneg p :
  forall mrs, 0 <= shr_m mrs -> 0 <= shr_m (SpecFloat.iter_pos shr_1 p mrs).
Proof.
  induction p as [p IH|p IH|]; intros mrs Hm; cbn [iter_pos].
  - apply IH, IH, shr_1_nonneg, Hm.
  - apply IH, IH, Hm.
  - apply shr_1_nonneg, Hm.
Qed.

Lemma shr_fexp_nonneg m e l :
  0 <= m -> 0 <= shr_m (fst (shr_fexp prec emax m e l)).
Proof.
  intros Hm. unfold shr_fexp, shr.
  assert (H0 : 0 <= shr_m (shr_record_of_loc m l)) by (destruct l as [|[]]; exact Hm).
  destruct (fexp prec emax (Zdigits2 m + e) - e); cbn [fst]; try exact H0.
  now apply iter_shr_1_nonneg.
Qed.

Lemma round_nearest_even_nonneg m l : 0 <= m -> 0 <= round_nearest_even m l.
Proof.
  intros Hm. destruct l as [|[]]; cbn [round_nearest_even]; try lia.
  destruct (Z.even m); lia.
Qed.

(** Rounding a non-negative mantissa gives a float of the requested
    sign: a zero, a finite number or an infinity. *)
Lemma binary_round_aux_signed s m e l :
  0 <= m -> signed s (binary_round_aux prec emax s m e l).
Proof.
  intros Hm. unfold binary_round_aux.
  pose proof (shr_fexp_nonneg m e l Hm) as H1.
  destruct (shr_fexp prec emax m e l) as [mrs1 e1]. cbn [fst] in H1.
  pose proof (shr_fexp_nonneg _ e1 loc_Exact
                (round_nearest_even_nonneg _ (loc_of_shr_record mrs1) H1)) as H2.
  destruct (shr_fexp prec emax _ e1 loc_Exact) as [mrs2 e2]. cbn [fst] in H2.
  destruct (shr_m mrs2) as [|p|p]; cbn.
  - reflexivity.
  - destruct (e2 <=? emax - prec); reflexivity.
  - lia.
Qed.

Lemma div_core_nonneg m1 e1 m2 e2 :
  0 <= m1 -> 0 < m2 ->
  0 <= fst (fst (SFdiv_core_binary prec emax m1 e1 m2 e2)).
Proof.
  intros H1 H2. unfold SFdiv_core_binary.
  set (s := _ - _ - _).
  set (m' := match s with Z.pos _ => Z.shiftl m1 s | 0 => m1 | Z.neg _ => 0 end).
  assert (Hm' : 0 <= m').
  { unfold m'. destruct s; try lia. apply Z.shiftl_nonneg, H1. }
  pose proof (Z.div_pos m' m2 Hm' H2) as Hq. unfold Z.div in Hq.
  destruct (Z.div_eucl m' m2) as [q r]. exact Hq.
Qed.

(** The quotient of two finite numbers has the sign the operands give
    it. *)
Lemma quotient_signed sx mx ex sy my ey :
  signed (xorb sx sy)
         (PyFloat.quotient (S754_finite sx mx ex) (S754_finite sy my ey)).
Proof.
  unfold PyFloat.quotient, SFdiv. fold prec emax.
  pose proof (div_core_nonneg (Zpos mx) ex (Zpos my) ey ltac:(lia) ltac:(lia)) as Hq.
  destruct (SFdiv_core_binary prec emax (Zpos mx) ex (Zpos my) ey) as [[mz ez] lz].
  cbn [fst] in Hq. now apply binary_round_aux_signed.
Qed.

Lemma signed_negative_leb x : signed true x -> PyFloat.leb x PyFloat.zero = true.
Proof. destruct x as [[]|[]| |[] m e]; cbn; intros H; congruence || contradiction. Qed.

(** [y <= 0] is false: then [y] does not compare equal to zero. *)
Lemma leb_false_nonzero y :
  PyFloat.leb y PyFloat.zero = false -> PyFloat.eqb y PyFloat.zero = false.
Proof.
  unfold PyFloat.leb, PyFloat.eqb, SFleb, SFeqb.
  destruct (SFcompare y PyFloat.zero) as [[]|]; congruence.
Qed.

Lemma digits2_pos_iter_xO p n :
  digits2_pos (Pos.iter xO p n) = (digits2_pos p + n)%positive.
Proof.
  induction n as [|n IH] using Pos.peano_ind.
  - cbn. lia.
  - rewrite Pos.iter_succ. cbn [digits2_pos]. rewrite IH. lia.
Qed.

Lemma digits2_pos_lower p : 2 ^ (Zpos (digits2_pos p) - 1) <= Zpos p.
Proof.
  induction p as [p IH|p IH|]; cbn [digits2_pos]; [| |cbn; lia].
  - replace (Zpos (Pos.succ (digits2_pos p)) - 1) with (Z.succ (Zpos (digits2_pos p) - 1))
      by lia.
    rewrite Z.pow_succ_r by lia. lia.
  - replace (Zpos (Pos.succ (digits2_pos p)) - 1) with (Z.succ (Zpos (digits2_pos p) - 1))
      by lia.
    rewrite Z.pow_succ_r by lia. lia.
Qed.

Lemma digits2_pos_small p : Zpos p < 2 ^ 53 -> Zpos (digits2_pos p) <= 53.
Proof.
  intros Hp. destruct (Z.le_gt_cases (Zpos (digits2_pos p)) 53) as [H|H]; [exact H|].
  pose proof (digits2_pos_lower p) as Hl.
  assert (2 ^ 53 <= 2 ^ (Zpos (digits2_pos p) - 1)) by (apply Z.pow_le_mono_r; lia).
  lia.
Qed.

(** A mantissa of exactly 53 bits with an exponent in range is a float
    as it stands. *)
Lemma binary_round_aux_exact s m e :
  Zpos (digits2_pos m) = 53 -> -1074 <= e <= 971 ->
  binary_round_aux prec emax s (Zpos m) e loc_Exact = S754_finite s m e.
Proof.
  intros Hd He.
  assert (Hsh : shr_fexp prec emax (Zpos m) e loc_Exact
                = ({| shr_m := Zpos m; shr_r := false; shr_s := false |}, e)).
  { unfold shr_fexp. cbn [Zdigits2]. rewrite Hd.
    replace (fexp prec emax (53 + e) - e) with 0.
    - reflexivity.
    - unfold fexp, SpecFloat.emin, prec, emax, PyFloat.prec, PyFloat.emax. lia. }
  unfold binary_round_aux. rewrite Hsh. cbn [shr_m loc_of_shr_record round_nearest_even].
  rewrite Hsh. cbn [shr_m].
  replace (e <=? emax - prec) with true; [reflexivity|].
  symmetry. apply Z.leb_le. unfold prec, emax, PyFloat.prec, PyFloat.emax. lia.
Qed.

(** An integer below 2^53 in absolute value converts to a finite float
    of its sign. *)
Lemma round_pos_finite s p :
  Zpos p < 2 ^ 53 -> exists m e, binary_round prec emax s p 0 = S754_finite s m e.
Proof.
  intros Hp. pose proof (digits2_pos_small p Hp) as Hd.
  unfold binary_round, shl_align.
  assert (Hf : fexp prec emax (Zpos (digits2_pos p) + 0) = Zpos (digits2_pos p) - 53).
  { unfold fexp, SpecFloat.emin, prec, emax, PyFloat.prec, PyFloat.emax. lia. }
  rewrite Hf.
  destruct (Zpos (digits2_pos p) - 53 - 0) as [|d|d] eqn:Hdiff; try lia.
  - exists p, 0. apply binary_round_aux_exact; lia.
  - exists (Pos.iter xO p d), (Zpos (digits2_pos p) - 53).
    apply binary_round_aux_exact; [|lia].
    rewrite digits2_pos_iter_xO. lia.
Qed.

Lemma of_int_small z :
  Z.abs z < 2 ^ 53 ->
  PyFloat.of_int z = Ok (PyFloat.round_Z z)
  /\ match z with
     | 0 => PyFloat.round_Z z = PyFloat.zero
     | Zpos _ => exists m e, PyFloat.round_Z z = S754_finite false m e
     | Zneg _ => exists m e, PyFloat.round_Z z = S754_finite true m e
     end.
Proof.
  intros Hz. unfold PyFloat.of_int, PyFloat.round_Z, PyFloat.of_scaled, binary_normalize.
  fold prec emax.
  destruct z as [|p|p].
  - split; reflexivity.
  - destruct (round_pos_finite false p) as (m & e & ->); [lia|]. split; [reflexivity|eauto].
  - destruct (round_pos_finite true p) as (m & e & ->); [lia|]. split; [reflexivity|eauto].
Qed.

End Rounding.

(** ** Day counts *)

Section DayCount.

Import Datetime.

Lemma days_before_year_succ y :
  days_before_year (y + 1)
  = days_before_year y + 365 + (if is_leap y then 1 else 0).
Proof.
  unfold days_before_year, is_leap. replace (y + 1 - 1) with y by lia.
  destruct (Z.eqb_spec (y mod 4) 0), (Z.eqb_spec (y mod 100) 0),
    (Z.eqb_spec (y mod 400) 0); cbn [negb orb andb];
    Z.to_euclidean_division_equations; lia.
Qed.

Lemma days_before_year_mono y1 y2 :
  y1 <= y2 -> days_before_year y1 <= days_before_year y2.
Proof. unfold days_before_year. Z.to_euclidean_division_equations. lia. Qed.

Lemma month_cases m : 1 <= m <= 12 ->
  m = 1 \/ m = 2 \/ m = 3 \/ m = 4 \/ m = 5 \/ m = 6 \/ m = 7 \/ m = 8 \/ m = 9
  \/ m = 10 \/ m = 11 \/ m = 12.
Proof. lia. Qed.

Ltac by_month H := destruct (month_cases _ H) as [->|[->|[->|[->|[->|[->|[->|[->|[->|[->|[->| ->]]]]]]]]]]].

Lemma within_year y m d :
  1 <= m <= 12 -> 1 <= d <= days_in_month y m ->
  1 <= days_before_month y m + d <= 365 + (if is_leap y then 1 else 0).
Proof.
  intros Hm. unfold days_before_month, days_in_month.
  by_month Hm; destruct (is_leap y); cbn; lia.
Qed.

Lemma month_order y m1 d1 m2 d2 :
  1 <= m1 <= 12 -> 1 <= m2 <= 12 ->
  1 <= d1 <= days_in_month y m1 -> 1 <= d2 ->
  m1 < m2 ->
  days_before_month y m1 + d1 < days_before_month y m2 + d2.
Proof.
  intros H1 H2. unfold days_before_month, days_in_month.
  by_month H1; by_month H2; destruct (is_leap y); cbn; lia.
Qed.

Lemma valid_date_bounds d :
  valid_date d = true ->
  1 <= year d <= 9999 /\ 1 <= month d <= 12 /\ 1 <= day d <= days_in_month (year d) (month d).
Proof. unfold valid_date. rewrite !andb_true_iff, !Z.leb_le. lia. Qed.

(** Later dates have larger ordinals. *)
Lemma toordinal_mono d1 d2 :
  valid_date d1 = true -> valid_date d2 = true ->
  year d1 < year d2
  \/ (year d1 = year d2 /\ month d1 < month d2)
  \/ (year d1 = year d2 /\ month d1 = month d2 /\ day d1 < day d2) ->
  toordinal d1 < toordinal d2.
Proof.
  intros V1 V2. apply valid_date_bounds in V1, V2.
  destruct d1 as [y1 m1 a1], d2 as [y2 m2 a2]. cbn [year month day] in *.
  unfold toordinal. cbn [year month day].
  pose proof (within_year y1 m1 a1 ltac:(lia) ltac:(lia)) as W1.
  pose proof (within_year y2 m2 a2 ltac:(lia) ltac:(lia)) as W2.
  intros [Hy|[[-> Hm]|(-> & -> & Hd)]].
  - pose proof (days_before_year_succ y1) as Hs.
    pose proof (days_before_year_mono (y1 + 1) y2 ltac:(lia)). lia.
  - pose proof (month_order y2 m1 a1 m2 a2 ltac:(lia) ltac:(lia) ltac:(lia) ltac:(lia) Hm).
    lia.
  - lia.
Qed.

Lemma toordinal_bounds d : valid_date d = true -> 1 <= toordinal d <= 3652059.
Proof.
  intros V. apply valid_date_bounds in V. destruct d as [y m a]. cbn [year month day] in *.
  unfold toordinal. cbn [year month day].
  pose proof (within_year y m a ltac:(lia) ltac:(lia)) as W.
  pose proof (days_before_year_mono 1 y ltac:(lia)) as L.
  change (days_before_year 1) with 0 in L.
  destruct (Z.eq_dec y 9999) as [->|Hy].
  - change (days_before_year 9999) with 3651694 in *.
    change (is_leap 9999) with false in W. lia.
  - pose proof (days_before_year_succ y) as Hs.
    pose proof (days_before_year_mono (y + 1) 9999 ltac:(lia)) as U.
    change (days_before_year 9999) with 3651694 in U. lia.
Qed.

Lemma valid_datetime_bounds t :
  valid_datetime t = true ->
  valid_date (on t) = true
  /\ 0 <= hour t < 24 /\ 0 <= minute t < 60 /\ 0 <= second t < 60
  /\ 0 <= microsecond t < 1000000.
Proof.
  unfold valid_datetime. rewrite !andb_true_iff, !Z.leb_le, !Z.ltb_lt. tauto.
Qed.

(** What [strptime] returns is midnight of a date that exists. *)
Lemma strptime_midnight s t :
  strptime_mdy s = Ok t -> valid_date (on t) = true /\ is_midnight t.
Proof.
  unfold strptime_mdy, midnight.
  repeat match goal with
         | |- context [match ?x with _ => _ end] => destruct x eqn:?
         end; try discriminate.
  intros [= <-]. cbn. unfold is_midnight. cbn. tauto.
Qed.

(** The day count between a time of day and an earlier or later midnight
    is the difference of the ordinals. *)
Lemma days_since_midnight today t :
  valid_datetime today = true -> is_midnight t ->
  days (sub today t) = toordinal (on today) - toordinal (on t).
Proof.
  intros V (Hh & Hm & Hs & Hu). apply valid_datetime_bounds in V.
  unfold sub, mk_timedelta, seconds_of_day. cbn [days]. rewrite Hh, Hm, Hs, Hu.
  replace ((microsecond today - 0) / 1000000) with 0 by (symmetry; apply Z.div_small; lia).
  replace ((second today + minute today * 60 + hour today * 3600 - (0 + 0 * 60 + 0 * 3600) + 0)
           / 86400) with 0 by (symmetry; apply Z.div_small; lia).
  lia.
Qed.

(** A midnight that lies after a time of day is the midnight of a later
    date. *)
Lemma later_midnight today t :
  valid_datetime today = true -> valid_date (on t) = true -> is_midnight t ->
  ltb today t = true ->
  toordinal (on today) < toordinal (on t).
Proof.
  intros V Vt (Hh & Hm & Hs & Hu) Hlt.
  pose proof (valid_datetime_bounds _ V) as (Vd & B).
  apply toordinal_mono; try assumption.
  unfold ltb, fields, lex_ltb in Hlt. rewrite Hh, Hm, Hs, Hu in Hlt.
  rewrite !orb_true_iff, !andb_true_iff, !Z.ltb_lt, !Z.eqb_eq in Hlt. lia.
Qed.

End DayCount.

(** ** The annualised return *)

Lemma days_per_year_value :
  PyFloat.days_per_year = S754_finite false 6425545952722944 (-44).
Proof. reflexivity. Qed.

Lemma years_held_not_positive z :
  Z.abs z < 2 ^ 53 -> z <= 0 ->
  PyFloat.leb (PyFloat.quotient (PyFloat.round_Z z) PyFloat.days_per_year) PyFloat.zero
  = true.
Proof.
  intros Hb Hz. destruct (of_int_small z Hb) as [_ Hr].
  destruct z as [|q|q]; [|lia|].
  - rewrite Hr. reflexivity.
  - destruct Hr as (m & e & ->). rewrite days_per_year_value.
    apply signed_negative_leb. apply (quotient_signed true m e false).
Qed.

(** C2. For a purchase date that [strptime] accepts and a valid clock
    reading, years held is the float quotient of the day count (the
    difference of the two ordinals) by 365.25, and computing it never
    raises. When years held is [<= 0] the function returns 0.0 and
    divides by nothing else, whatever the prices; this is the case of
    every day count that is zero or negative, so of every purchase date
    after the clock reading. Otherwise it returns
    [((current - purchase) / purchase) / years_held * 100], raising
    [ZeroDivisionError] when the purchase price is zero. *)
Theorem yearly_return_guard c p s pd st :
  Datetime.strptime_mdy s = Ok pd ->
  Datetime.valid_datetime (clock st (ticks st)) = true ->
  let today := clock st (ticks st) in
  let st' := set_ticks (S (ticks st)) st in
  let day_count := Datetime.toordinal (Datetime.on today)
                   - Datetime.toordinal (Datetime.on pd) in
  let years_held := PyFloat.quotient (PyFloat.round_Z day_count) PyFloat.days_per_year in
  Datetime.days (Datetime.sub today pd) = day_count
  /\ years_held_of today pd = Ok years_held
  /\ (PyFloat.leb years_held PyFloat.zero = true ->
      calculate_yearly_return c p s st = (Ok PyFloat.zero, st'))
  /\ (PyFloat.leb years_held PyFloat.zero = false ->
      PyFloat.eqb p PyFloat.zero = false ->
      calculate_yearly_return c p s st
      = (Ok (PyFloat.mul
               (PyFloat.quotient (PyFloat.quotient (PyFloat.sub c p) p) years_held)
               PyFloat.hundred), st'))
  /\ (PyFloat.leb years_held PyFloat.zero = false ->
      PyFloat.eqb p PyFloat.zero = true ->
      calculate_yearly_return c p s st = (Raise ZeroDivisionError, st'))
  /\ (day_count <= 0 -> PyFloat.leb years_held PyFloat.zero = true)
  /\ (Datetime.ltb today pd = true ->
      calculate_yearly_return c p s st = (Ok PyFloat.zero, st')).
Proof.
  intros Hs Hv today st' day_count years_held.
  destruct (strptime_midnight _ _ Hs) as [Vp Hmid].
  pose proof (days_since_midnight today pd Hv Hmid) as Hdays. fold day_count in Hdays.
  assert (Hb : Z.abs day_count < 2 ^ 53).
  { pose proof (toordinal_bounds _ Vp).
    pose proof (toordinal_bounds _ (proj1 (valid_datetime_bounds _ Hv))).
    unfold day_count. fold today in H0. change (2 ^ 53) with 9007199254740992. lia. }
  assert (Hyh : years_held_of today pd = Ok years_held).
  { unfold years_held_of, PyFloat.div_int_l. rewrite Hdays.
    rewrite (proj1 (of_int_small _ Hb)). reflexivity. }
  assert (Hrun : calculate_yearly_return c p s st
                 = if PyFloat.leb years_held PyFloat.zero then (Ok PyFloat.zero, st')
                   else match PyFloat.div (PyFloat.sub c p) p with
                        | Ok total_return =>
                            (Ok (PyFloat.mul (PyFloat.quotient total_return years_held)
                                             PyFloat.hundred), st')
                        | Raise e => (Raise e, st')
                        end).
  { unfold calculate_yearly_return, bindM, lift, datetime_today. rewrite Hs.
    fold today st'. rewrite Hyh.
    destruct (PyFloat.leb years_held PyFloat.zero) eqn:Hle; [reflexivity|].
    destruct (PyFloat.div (PyFloat.sub c p) p) as [tr|e]; [|reflexivity].
    rewrite (div_nonzero _ _ (leb_false_nonzero _ Hle)). reflexivity. }
  assert (Hneg : day_count <= 0 -> PyFloat.leb years_held PyFloat.zero = true).
  { intros Hz. now apply years_held_not_positive. }
  split; [exact Hdays|]. split; [exact Hyh|].
  split; [|split; [|split; [|split]]].
  - intros Hle. now rewrite Hrun, Hle.
  - intros Hle Hp. now rewrite Hrun, Hle, (div_nonzero _ _ Hp).
  - intros Hle Hp. now rewrite Hrun, Hle, (div_zero _ _ Hp).
  - exact Hneg.
  - intros Hlt. rewrite Hrun, Hneg; [reflexivity|].
    pose proof (later_midnight today pd Hv Vp Hmid Hlt). unfold day_count. lia.
Qed.

Lemma yearly_return_guard_witness :
  calculate_yearly_return (float_literal "941.53") PyFloat.zero "8/1/2030" (sample_state [])
  = (Ok PyFloat.zero, set_ticks 1 (sample_state []))
  /\ calculate_yearly_return (float_literal "941.53") (float_literal "772.88") "8/1/2015"
                             (sample_state [])
     = (Ok (S754_finite false 4985305523590723 (-51)), set_ticks 1 (sample_state [])).
Proof.
  split.
  - refine (proj2 (proj2 (proj2 (proj2 (proj2 (proj2
             (yearly_return_guard (float_literal "941.53") PyFloat.zero "8/1/2030"
                {| Datetime.on := {| Datetime.year := 2030; Datetime.month := 8;
                                     Datetime.day := 1 |};
                   Datetime.hour := 0; Datetime.minute := 0; Datetime.second := 0;
                   Datetime.microsecond := 0 |}
                (sample_state []) eq_refl eq_refl)))))) _).
    reflexivity.
  - pose proof (yearly_return_guard (float_literal "941.53") (float_literal "772.88")
                  "8/1/2015"
                  {| Datetime.on := {| Datetime.year := 2015; Datetime.month := 8;
                                       Datetime.day := 1 |};
                     Datetime.hour := 0; Datetime.minute := 0; Datetime.second := 0;
                     Datetime.microsecond := 0 |}
                  (sample_state []) eq_refl eq_refl) as H.
    cbv zeta in H. destruct H as (_ & _ & _ & H & _).
    rewrite H; [vm_compute; reflexivity | vm_compute; reflexivity | vm_compute; reflexivity].
Defined.

(** The guard at work: a purchase made on the day of the clock reading,
    one made the day after, and a zero purchase price before and after
    that day. *)
Example yearly_return_cases :
  let run p s := fst (calculate_yearly_return (float_literal "941.53") p s (sample_state [])) in
  run (float_literal "772.88") "6/9/2025" = Ok PyFloat.zero
  /\ run (float_literal "772.88") "6/10/2025" = Ok PyFloat.zero
  /\ run PyFloat.zero "6/10/2025" = Ok PyFloat.zero
  /\ run PyFloat.zero "6/8/2025" = Raise ZeroDivisionError
  /\ run (float_literal "772.88") "8/1/2015" = Ok (S754_finite false 4985305523590723 (-51)).
Proof. vm_compute. repeat split; reflexivity. Qed.

(** * Further properties of the code *)

(** ** Frames *)

Section Preserves.

Context (R : state -> state -> Prop) `{!Frame R}.

Lemma preserves_ret {A} (a : A) : preserves R (ret a).
Proof. intros st. apply frame_refl. Qed.

Lemma preserves_raise {A} e : preserves R (@raise A e).
Proof. intros st. apply frame_refl. Qed.

Lemma preserves_lift {A} (r : result A) : preserves R (lift r).
Proof. intros st. apply frame_refl. Qed.

Lemma preserves_bind {A B} (m : M A) (k : A -> M B) :
  preserves R m -> (forall a, preserves R (k a)) -> preserves R (bindM m k).
Proof.
  intros Hm Hk st. unfold bindM. specialize (Hm st).
  destruct (m st) as [[a|e] st']; cbn in *; [|exact Hm].
  eapply frame_trans; [exact Hm|apply Hk].
Qed.

Lemma preserves_try {A} (body : M A) handler :
  preserves R body -> (forall e, preserves R (handler e)) ->
  preserves R (try_except body handler).
Proof.
  intros Hm Hh st. unfold try_except. specialize (Hm st).
  destruct (body st) as [[a|e] st']; cbn in *; [exact Hm|].
  eapply frame_trans; [exact Hm|apply Hh].
Qed.

Lemma preserves_for_each {A} (l : list A) (body : A -> M unit) :
  (forall x, preserves R (body x)) -> preserves R (for_each l body).
Proof.
  intros Hb. induction l as [|x l IH]; cbn [for_each].
  - apply preserves_ret.
  - apply preserves_bind; [apply Hb|intros _; exact IH].
Qed.

Lemma preserves_map_M {A B} (f : A -> M B) (l : list A) :
  (forall x, preserves R (f x)) -> preserves R (map_M f l).
Proof.
  intros Hf. induction l as [|x l IH]; cbn [map_M].
  - apply preserves_ret.
  - apply preserves_bind; [apply Hf|intros y].
    apply preserves_bind; [exact IH|intros ys; apply preserves_ret].
Qed.

Lemma preserves_while (fuel : nat) (body : M bool) :
  preserves R body -> preserves R (while_true fuel body).
Proof.
  intros Hb. induction fuel as [|n IH]; cbn [while_true];
    (apply preserves_bind; [exact Hb|intros [|]]); try apply preserves_ret.
  exact IH.
Qed.

End Preserves.

#[local] Instance db_untouched_frame : Frame db_untouched.
Proof.
  split; unfold db_untouched; [tauto|]. intros ? ? ? [-> ->] [-> ->]. tauto.
Qed.

#[local] Instance disk_kept_frame : Frame disk_kept.
Proof. split; unfold disk_kept; [tauto|]. intros ? ? ? -> ->. reflexivity. Qed.

#[local] Instance stdin_suffix_frame : Frame stdin_suffix.
Proof.
  split; unfold stdin_suffix; [reflexivity|]. intros ? ? ? H1 H2. now transitivity (stdin st2).
Qed.

#[local] Instance written_kept_frame : Frame written_kept.
Proof.
  split; unfold written_kept; [tauto|]. intros ? ? ? [-> ->] [-> ->]. tauto.
Qed.

#[local] Instance silent_frame : Frame silent.
Proof.
  split; unfold silent; [tauto|]. intros ? ? ? (-> & -> & ->) (-> & -> & ->). tauto.
Qed.

#[local] Instance ticks_only_frame : Frame ticks_only.
Proof.
  split; unfold ticks_only.
  - now intros [].
  - intros st1 st2 st3 -> ->. reflexivity.
Qed.

#[local] Instance grows_frame : Frame grows.
Proof.
  split; unfold grows.
  - intros st. split; reflexivity.
  - intros st1 st2 st3 [-> H1] [-> H2]. split; [reflexivity|]. now transitivity (stdout st2).
Qed.

Lemma print_grows o : preserves grows (print o).
Proof.
  intros st. unfold grows, print. cbn. split; [reflexivity|]. now apply prefix_app_r.
Qed.

(** A primitive step, checked on the fields the relation reads. *)
Ltac preserves_prim :=
  let st := fresh "st" in
  unfold preserves; intros st;
  unfold db_untouched, disk_kept, stdin_suffix, written_kept, silent, ticks_only, grows;
  cbv beta delta
    [print datetime_today open_w write_line connect execute_create execute_insert commit
     close db_view input bindM];
  cbn;
  repeat match goal with
         | |- context [match ?x with _ => _ end] => destruct x eqn:?
         | |- context [if ?x then _ else _] => destruct x eqn:?
         end;
  cbn; try tauto; try reflexivity; try (split; reflexivity).

Lemma read_line_stdin :
  preserves stdin_suffix
    (fun st => match stdin st with
               | [] => (Raise EOFError, st)
               | line :: rest => (Ok line, set_stdin rest st)
               end).
Proof.
  intros st. unfold stdin_suffix.
  destruct (stdin st) as [|line rest] eqn:E; cbn; rewrite ?E;
    [reflexivity|apply suffix_cons_r; reflexivity].
Qed.

(** A computation built from steps that each keep the relation. *)
Ltac preserves_all :=
  repeat first
    [ exact _
    | match goal with |- forall _, _ => intro end
    | apply preserves_ret | apply preserves_raise | apply preserves_lift
    | apply preserves_bind
    | apply preserves_try
    | apply preserves_for_each
    | apply preserves_map_M
    | apply preserves_while
    | apply read_line_stdin
    | apply print_grows
    | match goal with
      | |- preserves _ (if ?b then _ else _) => destruct b
      | |- preserves _ (match ?x with _ => _ end) => destruct x
      end
    | solve [preserves_prim] ].

Lemma filter_body_keeps_db stocks : preserves db_untouched (filter_body stocks).
Proof.
  unfold filter_body, Investment.yearly_return, calculate_yearly_return. preserves_all.
Qed.

Lemma filter_keeps_db stocks : preserves db_untouched (interactive_portfolio_filter stocks).
Proof.
  intros st. unfold interactive_portfolio_filter.
  apply preserves_while; [exact _|apply filter_body_keeps_db].
Qed.

Lemma write_report_keeps_db investor stocks bonds f :
  preserves db_untouched (write_report investor stocks bonds f).
Proof.
  unfold write_report, Investment.yearly_return, calculate_yearly_return. preserves_all.
Qed.

Lemma export_csv_keeps_db stocks f : preserves db_untouched (export_csv stocks f).
Proof.
  unfold export_csv, Investment.yearly_return, calculate_yearly_return. preserves_all.
Qed.

Lemma visualize_json_keeps_db f portfolio :
  preserves db_untouched (visualize_json f portfolio).
Proof.
  unfold visualize_json. preserves_all.
Qed.

Lemma read_stocks_keeps_db f : preserves db_untouched (read_stocks f).
Proof.
  intros st. unfold read_stocks.
  destruct (match open_r f st with
            | Ok lines => read_stocks_loop 1 lines []
            | Raise e => ([], Raise e)
            end) as [invs [[]|e]]; unfold db_untouched; cbn; auto.
Qed.

Lemma read_bonds_keeps_db f : preserves db_untouched (read_bonds f).
Proof.
  intros st. unfold read_bonds.
  destruct (match open_r f st with
            | Ok lines => read_bonds_loop 1 lines []
            | Raise e => ([], Raise e)
            end) as [bonds [[]|e]]; unfold db_untouched; cbn; auto.
Qed.

(** ** The persistence step: failure, key uniqueness, growth *)

Lemma stock_row_raises inv e : stock_row inv = Raise e -> e = OverflowError.
Proof.
  unfold stock_row, bind_int. destruct (_ && _); cbn [bind]; congruence.
Qed.

Lemma bond_row_raises b e : bond_row b = Raise e -> e = OverflowError.
Proof.
  unfold bond_row, bind_int. destruct (_ && _); cbn [bind]; congruence.
Qed.

Lemma map_result_raises {A B} (f : A -> result B) (e0 : exn) l e :
  (forall x e', f x = Raise e' -> e' = e0) -> map_result f l = Raise e -> e = e0.
Proof.
  intros Hf. induction l as [|x l IH]; cbn; [discriminate|].
  destruct (f x) as [y|e'] eqn:Hx; cbn.
  - destruct (map_result f l); cbn; [discriminate|]. intros [= <-]. now apply IH.
  - intros [= <-]. now apply Hf with x.
Qed.

(** A loop of inserts that meets a row it cannot bind raises what the
    binding raises and leaves the committed content alone. *)
Lemma insert_loop_raise {A} (f : A -> result row) tn items :
  forall e st s t,
    map_result f items = Raise e ->
    db_view st = Some s ->
    get_table tn s = Some t ->
    exists st',
      for_each items (fun x => r <~ lift (f x) ;; execute_insert tn r) st = (Raise e, st')
      /\ db_disk st' = db_disk st
      /\ opened st' = opened st /\ closes st' = closes st.
Proof.
  induction items as [|x items IH]; intros e st s t Hrows Hview Ht; [discriminate|].
  cbn [map_result] in Hrows. cbn [for_each]. unfold bindM at 1. unfold bindM at 1.
  unfold lift at 1.
  destruct (f x) as [r|e'] eqn:Hx; cbn [bind] in Hrows.
  - unfold execute_insert. rewrite Hview, Ht.
    destruct (map_result f items) as [rows|e''] eqn:Hrest; cbn [bind] in Hrows;
      [discriminate|]. injection Hrows as <-.
    pose (s1 := set_table tn (insert_or_replace r t) s).
    destruct (IH e'' (set_db_pending (Some s1) st) s1 (insert_or_replace r t)
                eq_refl eq_refl (get_set_table _ _ _)) as (st' & Hrun & Hd & Ho & Hc).
    exists st'. split; [exact Hrun|]. cbn in Hd, Ho, Hc. tauto.
  - injection Hrows as <-. exists st. tauto.
Qed.

Lemma stored_create tn tn' s st :
  db_disk st = Some (create_if_absent tn' s) ->
  stored tn st = default [] (get_table tn s).
Proof.
  unfold stored. intros ->. unfold create_if_absent.
  destruct tn, tn', s as [[?|] [?|]]; reflexivity.
Qed.

Lemma setup_database_raise_inv db_path stocks bonds st e st' :
  db_pending st = None ->
  setup_database db_path stocks bonds st = (Raise e, st') ->
  stored Stocks st' = stored Stocks st
  /\ stored Bonds st' = stored Bonds st
  /\ closes st' = closes st
  /\ (db_disk st = None -> e = OperationalError /\ st' = st)
  /\ (db_disk st <> None ->
      e = OverflowError /\ opened st' = S (opened st)
      /\ (map_result stock_row stocks = Raise OverflowError
          \/ map_result bond_row bonds = Raise OverflowError)).
Proof.
  intros Hp. unfold setup_database.
  unfold bindM at 1. unfold connect.
  destruct (db_disk st) as [s|] eqn:Hd.
  2:{ intros [= <- <-]. unfold stored. rewrite Hd. repeat split; congruence. }
  unfold bindM at 1. unfold execute_create at 1.
  cbn [db_pending db_disk set_opened set_db_disk]. rewrite Hp, Hd.
  unfold bindM at 1. unfold execute_create at 1.
  cbn [db_pending db_disk set_opened set_db_disk]. rewrite Hp.
  set (s2 := create_if_absent Bonds (create_if_absent Stocks s)).
  set (st2 := set_db_disk (Some s2) _).
  assert (Hv2 : db_view st2 = Some s2) by (unfold db_view, st2; cbn; now rewrite Hp).
  assert (Hts : get_table Stocks s2 = Some (default [] (stocks_table s))).
  { unfold s2, create_if_absent. cbn. destruct s as [[ts|] [tb|]]; reflexivity. }
  assert (Hst : forall tn stx, db_disk stx = db_disk st2 -> stored tn stx = stored tn st).
  { intros tn stx Hx. unfold stored at 2. rewrite Hd.
    unfold stored. rewrite Hx. unfold st2, s2, create_if_absent. cbn.
    destruct tn, s as [[ts|] [tb|]]; reflexivity. }
  unfold bindM at 1.
  destruct (map_result stock_row stocks) as [srows|e1] eqn:Hs.
  - destruct (insert_loop stock_row Stocks stocks srows st2 s2 _ Hs Hv2 Hts)
      as (st3 & Hrun3 & Hv3 & Hd3 & Ho3 & Hc3).
    rewrite Hrun3. unfold bindM at 1.
    assert (Htb : get_table Bonds
                    (set_table Stocks (upsert_all srows (default [] (stocks_table s))) s2)
                  = Some (default [] (bonds_table s))).
    { unfold s2, create_if_absent. cbn. destruct s as [[ts|] [tb|]]; reflexivity. }
    destruct (map_result bond_row bonds) as [brows|e2] eqn:Hb.
    + destruct (insert_loop bond_row Bonds bonds brows st3 _ _ Hb Hv3 Htb)
        as (st4 & Hrun4 & Hv4 & _).
      rewrite Hrun4. unfold bindM at 1.
      destruct (commit_view st4 _ Hv4) as (st5 & Hrun5 & _). rewrite Hrun5.
      discriminate.
    + destruct (insert_loop_raise bond_row Bonds bonds e2 st3 _ _ Hb Hv3 Htb)
        as (st4 & Hrun4 & Hd4 & Ho4 & Hc4).
      rewrite Hrun4. intros [= <- <-].
      pose proof (map_result_raises _ OverflowError _ _ bond_row_raises Hb) as ->.
      repeat split; try (apply Hst; congruence); try congruence; auto.
      * rewrite Hc4, Hc3. reflexivity.
      * rewrite Ho4, Ho3. reflexivity.
  - destruct (insert_loop_raise stock_row Stocks stocks e1 st2 s2 _ Hs Hv2 Hts)
      as (st3 & Hrun3 & Hd3 & Ho3 & Hc3).
    rewrite Hrun3. intros [= <- <-].
    pose proof (map_result_raises _ OverflowError _ _ stock_row_raises Hs) as ->.
    repeat split; try (apply Hst; congruence); try congruence; auto.
Qed.

(** X1. When [setup_database] raises, no row has been committed: both
    tables hold the rows they held before the call (the tables themselves
    may have been created). It raises [OperationalError] exactly when
    the database cannot be opened, and otherwise [OverflowError], for a
    quantity that does not fit a 64-bit integer; the connection it opened
    is then neither closed nor returned. *)
Theorem failed_upsert_commits_nothing db_path stocks bonds st e st' :
  db_pending st = None ->
  setup_database db_path stocks bonds st = (Raise e, st') ->
  stored Stocks st' = stored Stocks st
  /\ stored Bonds st' = stored Bonds st
  /\ closes st' = closes st
  /\ (db_disk st = None -> e = OperationalError /\ st' = st)
  /\ (db_disk st <> None ->
      e = OverflowError /\ opened st' = S (opened st)
      /\ (map_result stock_row stocks = Raise OverflowError
          \/ map_result bond_row bonds = Raise OverflowError)).
Proof. apply setup_database_raise_inv. Qed.

Lemma failed_upsert_commits_nothing_witness :
  fst (setup_database "portfolio.db" [s1_at "941.53"; huge_lot] [b999] (stale_state []))
  = Raise OverflowError
  /\ stored Stocks (snd (setup_database "portfolio.db" [s1_at "941.53"; huge_lot] [b999]
                                        (stale_state [])))
     = [stale_row].
Proof.
  assert (E : setup_database "portfolio.db" [s1_at "941.53"; huge_lot] [b999] (stale_state [])
              = (Raise OverflowError,
                 snd (setup_database "portfolio.db" [s1_at "941.53"; huge_lot] [b999]
                                     (stale_state [])))).
  { rewrite (surjective_pairing (setup_database _ _ _ _)) at 1.
    f_equal; vm_compute; reflexivity. }
  destruct (failed_upsert_commits_nothing
              "portfolio.db" [s1_at "941.53"; huge_lot] [b999] (stale_state [])
              OverflowError _ eq_refl E) as (Hs & _).
  split; [now rewrite E|]. rewrite Hs. reflexivity.
Defined.

Section Keys.

Implicit Types (t : table) (rows : list row) (r : row) (k : string).

Lemma keys_insert r t :
  keys (insert_or_replace r t) = keys (filter (fun r' => fst r' ≠ fst r) t) ++ [fst r].
Proof. unfold keys, insert_or_replace. now rewrite fmap_app. Qed.

Lemma keys_filter_elem (P : row -> Prop) `{forall x, Decision (P x)} t k :
  k ∈ keys (filter P t) -> k ∈ keys t.
Proof.
  unfold keys. rewrite !list_elem_of_fmap. intros (x & -> & Hx).
  apply list_elem_of_filter in Hx as [_ Hx]. now exists x.
Qed.

Lemma keys_filter_NoDup (P : row -> Prop) `{forall x, Decision (P x)} t :
  NoDup (keys t) -> NoDup (keys (filter P t)).
Proof.
  induction t as [|x t IH]; [intros; constructor|].
  unfold keys in *. cbn [fmap list_fmap]. rewrite NoDup_cons. intros [Hx Ht].
  destruct (decide (P x)) as [HP|HP].
  - rewrite filter_cons_True by exact HP. cbn [fmap list_fmap].
    apply NoDup_cons. split; [|now apply IH].
    intros Hin. apply Hx. now apply (keys_filter_elem P).
  - rewrite filter_cons_False by exact HP. now apply IH.
Qed.

(** [INSERT OR REPLACE] keeps the primary key unique. *)
Lemma insert_keeps_keys_unique r t :
  NoDup (keys t) -> NoDup (keys (insert_or_replace r t)).
Proof.
  intros Ht. rewrite keys_insert. apply NoDup_app. split; [|split].
  - now apply keys_filter_NoDup.
  - intros k Hk Hr. apply list_elem_of_singleton in Hr as ->.
    unfold keys in Hk. apply list_elem_of_fmap in Hk as (x & Hx & Hin).
    apply list_elem_of_filter in Hin as [Hne _]. congruence.
  - apply NoDup_singleton.
Qed.

Lemma upsert_keeps_keys_unique rows :
  forall t, NoDup (keys t) -> NoDup (keys (upsert_all rows t)).
Proof.
  induction rows as [|r rows IH]; intros t Ht; [exact Ht|].
  change (upsert_all (r :: rows) t) with (upsert_all rows (insert_or_replace r t)).
  apply IH. now apply insert_keeps_keys_unique.
Qed.

(** No key leaves a table, and the key written is there. *)
Lemma insert_keeps_keys r t k :
  k ∈ keys t \/ k = fst r -> k ∈ keys (insert_or_replace r t).
Proof.
  rewrite keys_insert, elem_of_app, list_elem_of_singleton.
  destruct (decide (k = fst r)) as [->|Hne]; [now right|].
  intros [Hk|Hk]; [left|contradiction].
  unfold keys in *. apply list_elem_of_fmap in Hk as (x & -> & Hx).
  apply list_elem_of_fmap. exists x. split; [reflexivity|].
  apply list_elem_of_filter. now split.
Qed.

Lemma upsert_keeps_keys rows :
  forall t k, k ∈ keys t \/ k ∈ keys rows -> k ∈ keys (upsert_all rows t).
Proof.
  induction rows as [|r rows IH]; intros t k Hk.
  - destruct Hk as [Hk|Hk]; [exact Hk|]. now apply elem_of_nil in Hk.
  - change (upsert_all (r :: rows) t) with (upsert_all rows (insert_or_replace r t)).
    apply IH. destruct Hk as [Hk|Hk].
    + left. apply insert_keeps_keys. now left.
    + unfold keys in Hk. cbn in Hk. apply elem_of_cons in Hk as [->|Hk].
      * left. apply insert_keeps_keys. now right.
      * now right.
Qed.

Lemma filter_out_key_length t k :
  NoDup (keys t) ->
  length t = (length (filter (fun r' => fst r' ≠ k) t)
              + (if decide (k ∈ keys t) then 1 else 0))%nat.
Proof.
  induction t as [|x t IH]; [reflexivity|].
  unfold keys in *. cbn [fmap list_fmap]. rewrite NoDup_cons. intros [Hx Ht].
  specialize (IH Ht).
  destruct (decide (fst x = k)) as [<-|Hne].
  - rewrite filter_cons_False by tauto.
    rewrite decide_True by left. rewrite decide_False in IH by exact Hx.
    cbn [length]. lia.
  - rewrite filter_cons_True by exact Hne. cbn [length].
    destruct (decide (k ∈ t.*1)) as [Hin|Hin].
    + rewrite decide_True by now right. lia.
    + rewrite decide_False; [lia|]. intros H. apply elem_of_cons in H as [->|H]; tauto.
Qed.

(** With unique keys, a replace keeps the row count and an insert under
    a new key adds one row. *)
Lemma insert_length r t :
  NoDup (keys t) ->
  length (insert_or_replace r t)
  = (length t + (if decide (fst r ∈ keys t) then 0 else 1))%nat.
Proof.
  intros Ht. pose proof (filter_out_key_length t (fst r) Ht) as H.
  unfold insert_or_replace. rewrite length_app. cbn [length].
  destruct (decide (fst r ∈ keys t)); lia.
Qed.

Lemma upsert_length rows :
  forall t, NoDup (keys t) ->
            (length t <= length (upsert_all rows t) <= length t + length rows)%nat.
Proof.
  induction rows as [|r rows IH]; intros t Ht; [cbn; lia|].
  change (upsert_all (r :: rows) t) with (upsert_all rows (insert_or_replace r t)).
  specialize (IH _ (insert_keeps_keys_unique r t Ht)).
  rewrite (insert_length r t Ht) in IH. cbn [length].
  destruct (decide (fst r ∈ keys t)); lia.
Qed.

End Keys.

Lemma stored_after_setup db_path stocks bonds st s srows brows :
  db_disk st = Some s ->
  db_pending st = None ->
  map_result stock_row stocks = Ok srows ->
  map_result bond_row bonds = Ok brows ->
  exists c st',
    setup_database db_path stocks bonds st = (Ok c, st')
    /\ stored Stocks st' = upsert_all srows (stored Stocks st)
    /\ stored Bonds st' = upsert_all brows (stored Bonds st).
Proof.
  intros Hd Hp Hs Hb.
  destruct (setup_database_stores db_path stocks bonds st s srows brows Hd Hp Hs Hb)
    as (st' & Hrun & _ & Hd' & _).
  exists (Connection (opened st)), st'. split; [exact Hrun|].
  unfold stored. rewrite Hd', Hd. split; reflexivity.
Qed.

Lemma setup_database_ok_rows db_path stocks bonds st c st' :
  db_pending st = None ->
  setup_database db_path stocks bonds st = (Ok c, st') ->
  exists s srows brows,
    db_disk st = Some s
    /\ map_result stock_row stocks = Ok srows
    /\ map_result bond_row bonds = Ok brows.
Proof.
  intros Hp Hrun.
  destruct (db_disk st) as [s|] eqn:Hd.
  2:{ unfold setup_database, bindM at 1, connect in Hrun. rewrite Hd in Hrun. discriminate. }
  destruct (map_result stock_row stocks) as [srows|e1] eqn:Hs.
  - destruct (map_result bond_row bonds) as [brows|e2] eqn:Hb; [now exists s, srows, brows|].
    destruct (setup_database db_path stocks bonds st) as [[c0|e] st0] eqn:E;
      [|discriminate].
    exfalso.
    assert (Hne : db_disk st <> None) by congruence.
    destruct (map_result_raises _ OverflowError _ _ bond_row_raises Hb).
    clear Hrun. revert E. unfold setup_database.
    unfold bindM at 1. unfold connect. rewrite Hd.
    unfold bindM at 1. unfold execute_create at 1.
    cbn [db_pending db_disk set_opened set_db_disk]. rewrite Hp, Hd.
    unfold bindM at 1. unfold execute_create at 1.
    cbn [db_pending db_disk set_opened set_db_disk]. rewrite Hp.
    set (s2 := create_if_absent Bonds (create_if_absent Stocks s)).
    set (st2 := set_db_disk (Some s2) _).
    assert (Hv2 : db_view st2 = Some s2) by (unfold db_view, st2; cbn; now rewrite Hp).
    assert (Hts : get_table Stocks s2 = Some (default [] (stocks_table s))).
    { unfold s2, create_if_absent. cbn. destruct s as [[ts|] [tb|]]; reflexivity. }
    destruct (insert_loop stock_row Stocks stocks srows st2 s2 _ Hs Hv2 Hts)
      as (st3 & Hrun3 & Hv3 & _).
    unfold bindM at 1. rewrite Hrun3. unfold bindM at 1.
    assert (Htb : get_table Bonds
                    (set_table Stocks (upsert_all srows (default [] (stocks_table s))) s2)
                  = Some (default [] (bonds_table s))).
    { unfold s2, create_if_absent. cbn. destruct s as [[ts|] [tb|]]; reflexivity. }
    destruct (insert_loop_raise bond_row Bonds bonds _ st3 _ _ Hb Hv3 Htb)
      as (st4 & Hrun4 & _).
    rewrite Hrun4. discriminate.
  - exfalso. destruct (map_result_raises _ OverflowError _ _ stock_row_raises Hs).
    revert Hrun. unfold setup_database.
    unfold bindM at 1. unfold connect. rewrite Hd.
    unfold bindM at 1. unfold execute_create at 1.
    cbn [db_pending db_disk set_opened set_db_disk]. rewrite Hp, Hd.
    unfold bindM at 1. unfold execute_create at 1.
    cbn [db_pending db_disk set_opened set_db_disk]. rewrite Hp.
    set (s2 := create_if_absent Bonds (create_if_absent Stocks s)).
    set (st2 := set_db_disk (Some s2) _).
    assert (Hv2 : db_view st2 = Some s2) by (unfold db_view, st2; cbn; now rewrite Hp).
    assert (Hts : get_table Stocks s2 = Some (default [] (stocks_table s))).
    { unfold s2, create_if_absent. cbn. destruct s as [[ts|] [tb|]]; reflexivity. }
    destruct (insert_loop_raise stock_row Stocks stocks _ st2 s2 _ Hs Hv2 Hts)
      as (st3 & Hrun3 & _).
    unfold bindM at 1. rewrite Hrun3. discriminate.
Qed.

(** What a run that returned has stored, without assumptions on the
    holdings. *)
Lemma setup_database_ok_stored db_path stocks bonds st c st' :
  db_pending st = None ->
  setup_database db_path stocks bonds st = (Ok c, st') ->
  exists srows brows,
    map_result stock_row stocks = Ok srows
    /\ map_result bond_row bonds = Ok brows
    /\ stored Stocks st' = upsert_all srows (stored Stocks st)
    /\ stored Bonds st' = upsert_all brows (stored Bonds st)
    /\ db_pending st' = None.
Proof.
  intros Hp Hrun.
  destruct (setup_database_ok_rows _ _ _ _ _ _ Hp Hrun) as (s & srows & brows & Hd & Hs & Hb).
  destruct (setup_database_stores db_path stocks bonds st s srows brows Hd Hp Hs Hb)
    as (st1 & Hrun1 & Hp1 & Hd1 & _).
  rewrite Hrun in Hrun1. injection Hrun1 as _ <-.
  exists srows, brows. repeat split; try assumption.
  - unfold stored. rewrite Hd1, Hd. reflexivity.
  - unfold stored. rewrite Hd1, Hd. reflexivity.
Qed.

(** X2. A completed persistence step keeps the primary key a key: when
    no identifier occurred twice in a table before the call, none does
    after it, however often identifiers repeat among the holdings. *)
Theorem upsert_keeps_identifiers_unique db_path stocks bonds st c st' :
  db_pending st = None ->
  setup_database db_path stocks bonds st = (Ok c, st') ->
  (NoDup (keys (stored Stocks st)) -> NoDup (keys (stored Stocks st')))
  /\ (NoDup (keys (stored Bonds st)) -> NoDup (keys (stored Bonds st'))).
Proof.
  intros Hp Hrun.
  destruct (setup_database_ok_stored _ _ _ _ _ _ Hp Hrun)
    as (srows & brows & _ & _ & -> & -> & _).
  split; apply upsert_keeps_keys_unique.
Qed.

(** X3. A completed persistence step never drops an identifier: every
    identifier stored before is stored after, every holding's identifier
    is stored after, and (keys being unique before) a table has at least
    as many rows as before and at most as many more as there are
    holdings. *)
Theorem upsert_never_drops_identifiers db_path stocks bonds st c st' :
  db_pending st = None ->
  setup_database db_path stocks bonds st = (Ok c, st') ->
  (forall k, k ∈ keys (stored Stocks st) -> k ∈ keys (stored Stocks st'))
  /\ (forall k, k ∈ keys (stored Bonds st) -> k ∈ keys (stored Bonds st'))
  /\ (forall inv, inv ∈ stocks -> Investment.purchase_id inv ∈ keys (stored Stocks st'))
  /\ (forall b, b ∈ bonds ->
                Investment.purchase_id (Bond.base b) ∈ keys (stored Bonds st'))
  /\ (NoDup (keys (stored Stocks st)) ->
      (length (stored Stocks st) <= length (stored Stocks st')
       <= length (stored Stocks st) + length stocks)%nat)
  /\ (NoDup (keys (stored Bonds st)) ->
      (length (stored Bonds st) <= length (stored Bonds st')
       <= length (stored Bonds st) + length bonds)%nat).
Proof.
  intros Hp Hrun.
  destruct (setup_database_ok_stored _ _ _ _ _ _ Hp Hrun)
    as (srows & brows & Hs & Hb & -> & -> & _).
  assert (Hlen : forall A (f : A -> result row) items rows,
             map_result f items = Ok rows -> length rows = length items).
  { intros A f items. induction items as [|x items IH]; intros rows H.
    - now injection H as <-.
    - destruct (map_result_cons _ _ _ _ H) as (r & rows' & -> & _ & Hrest).
      cbn. f_equal. now apply IH. }
  assert (Hin : forall A (f : A -> result row) (key : A -> string) items rows x,
             (forall x r, f x = Ok r -> fst r = key x) ->
             map_result f items = Ok rows -> x ∈ items -> key x ∈ keys rows).
  { intros A f key items. induction items as [|y items IH]; intros rows x Hkey H Hx.
    - now apply elem_of_nil in Hx.
    - destruct (map_result_cons _ _ _ _ H) as (r & rows' & -> & Hy & Hrest).
      unfold keys. cbn. apply elem_of_cons. apply elem_of_cons in Hx as [->|Hx].
      + left. symmetry. now apply Hkey.
      + right. now apply (IH rows' x Hkey Hrest Hx). }
  repeat split.
  - intros k Hk. apply upsert_keeps_keys. now left.
  - intros k Hk. apply upsert_keeps_keys. now left.
  - intros inv Hi. apply upsert_keeps_keys. right.
    now apply (Hin _ stock_row Investment.purchase_id stocks srows inv stock_row_key).
  - intros b Hi. apply upsert_keeps_keys. right.
    now apply (Hin _ bond_row (fun b => Investment.purchase_id (Bond.base b))
                 bonds brows b bond_row_key).
  - now apply upsert_length.
  - rewrite <- (Hlen _ _ _ _ Hs). now apply upsert_length.
  - now apply upsert_length.
  - rewrite <- (Hlen _ _ _ _ Hb). now apply upsert_length.
Qed.

Lemma sample_upsert_run :
  setup_database "portfolio.db" [s1_at "941.53"; s1_at "950.00"] [b999] (stale_state [])
  = (Ok (Connection 0), after_sample_upsert).
Proof.
  unfold after_sample_upsert.
  rewrite (surjective_pairing (setup_database _ _ _ _)) at 1.
  f_equal; vm_compute; reflexivity.
Qed.

Lemma upsert_keeps_identifiers_unique_witness :
  NoDup (keys (stored Stocks after_sample_upsert))
  /\ keys (stored Stocks after_sample_upsert) = ["S9"; "S1"].
Proof.
  split; [|vm_compute; reflexivity].
  apply (proj1 (upsert_keeps_identifiers_unique
                  "portfolio.db" [s1_at "941.53"; s1_at "950.00"] [b999]
                  (stale_state []) (Connection 0) after_sample_upsert
                  eq_refl sample_upsert_run)).
  apply (NoDup_singleton "S9").
Defined.

Lemma upsert_never_drops_identifiers_witness :
  "S9" ∈ keys (stored Stocks after_sample_upsert)
  /\ "S1" ∈ keys (stored Stocks after_sample_upsert)
  /\ (1 <= length (stored Stocks after_sample_upsert) <= 1 + 2)%nat.
Proof.
  destruct (upsert_never_drops_identifiers
              "portfolio.db" [s1_at "941.53"; s1_at "950.00"] [b999]
              (stale_state []) (Connection 0) after_sample_upsert
              eq_refl sample_upsert_run) as (H1 & _ & H3 & _ & H5 & _).
  split; [|split].
  - apply H1. apply (list_elem_of_here "S9" []).
  - apply (H3 (s1_at "950.00")). apply list_elem_of_further, list_elem_of_here.
  - apply H5. apply (NoDup_singleton "S9").
Defined.

(** ** The identifiers the parsers assign *)

Lemma of_nat_inj a b : PyStr.of_nat a = PyStr.of_nat b -> a = b.
Proof.
  unfold PyStr.of_nat. intros H.
  apply DecimalNat.Unsigned.to_uint_inj.
  assert (H' : NilEmpty.uint_of_string (NilEmpty.string_of_uint (Nat.to_uint a))
               = NilEmpty.uint_of_string (NilEmpty.string_of_uint (Nat.to_uint b)))
    by now rewrite H.
  rewrite !NilEmpty.usu in H'. now injection H'.
Qed.

#[local] Instance stock_id_inj : Inj (=) (=) stock_id.
Proof. intros a b H. unfold stock_id in H. cbn in H. injection H as H. now apply of_nat_inj. Qed.

#[local] Instance bond_id_inj : Inj (=) (=) bond_id.
Proof. intros a b H. unfold bond_id in H. cbn in H. injection H as H. now apply of_nat_inj. Qed.

Lemma read_stocks_loop_ids lines :
  forall idx acc,
  exists n,
    (n <= length lines)%nat
    /\ Investment.purchase_id <$> fst (read_stocks_loop idx lines acc)
       = (Investment.purchase_id <$> acc) ++ (stock_id <$> seq idx n).
Proof.
  induction lines as [|l lines IH]; intros idx acc.
  - exists 0%nat. cbn. now rewrite app_nil_r.
  - cbn [read_stocks_loop].
    destruct (stock_of_line idx l) as [inv|e] eqn:Hl.
    + destruct (IH (S idx) (acc ++ [inv])) as (n & Hn & Hids).
      exists (S n). split; [cbn; lia|].
      rewrite Hids, fmap_app, <- app_assoc. cbn. f_equal. f_equal.
      now apply stock_of_line_id with l.
    + exists 0%nat. split; [lia|]. cbn. now rewrite app_nil_r.
Qed.

Lemma read_bonds_loop_ids lines :
  forall idx acc,
  exists ks,
    ks `sublist_of` seq idx (length lines)
    /\ (fun b => Investment.purchase_id (Bond.base b)) <$> fst (read_bonds_loop idx lines acc)
       = ((fun b => Investment.purchase_id (Bond.base b)) <$> acc) ++ (bond_id <$> ks).
Proof.
  induction lines as [|l lines IH]; intros idx acc.
  - exists []. cbn. split; [constructor|]. now rewrite app_nil_r.
  - cbn [read_bonds_loop length seq].
    destruct (length (PyStr.split_on "," (PyStr.strip l)) =? 7)%nat.
    + destruct (bond_of_parts idx _) as [b|e] eqn:Hl.
      * destruct (IH (S idx) (acc ++ [b])) as (ks & Hks & Hids).
        exists (idx :: ks). split; [now apply sublist_skip|].
        rewrite Hids, fmap_app, <- app_assoc. cbn. f_equal. f_equal.
        now apply bond_of_parts_id with (PyStr.split_on "," (PyStr.strip l)).
      * exists []. split; [apply sublist_nil_l|]. cbn. now rewrite app_nil_r.
    + destruct (IH (S idx) acc) as (ks & Hks & Hids).
      exists ks. split; [now apply sublist_cons|exact Hids].
Qed.

(** X4. The holdings [read_stocks] returns carry the identifiers "S1",
    "S2", ... up to the number of holdings, in order, so no two share an
    identifier; the bonds [read_bonds] returns carry "B" followed by the
    numbers of lines of the file, in increasing order, so no two share
    an identifier either. *)
Theorem parsers_assign_distinct_identifiers filename st :
  (exists invs st' n,
     read_stocks filename st = (Ok invs, st')
     /\ (n <= length (lines_of filename st))%nat
     /\ Investment.purchase_id <$> invs = stock_id <$> seq 1 n
     /\ NoDup (Investment.purchase_id <$> invs))
  /\ (exists bonds st' ks,
        read_bonds filename st = (Ok bonds, st')
        /\ ks `sublist_of` seq 1 (length (lines_of filename st))
        /\ (fun b => Investment.purchase_id (Bond.base b)) <$> bonds = bond_id <$> ks
        /\ NoDup ((fun b => Investment.purchase_id (Bond.base b)) <$> bonds)).
Proof.
  split.
  - unfold read_stocks, open_r, lines_of.
    destruct (files st !! filename) as [lines|]; cbn [default].
    + destruct (read_stocks_loop_ids lines 1 []) as (n & Hn & Hids).
      destruct (read_stocks_loop 1 lines []) as [invs r]. cbn [fst] in Hids.
      assert (Hnd : NoDup (Investment.purchase_id <$> invs)).
      { rewrite Hids. cbn. apply NoDup_fmap_2; [exact _|apply NoDup_seq]. }
      destruct r as [[]|e]; eexists invs, _, n; (split; [reflexivity|]); tauto.
    + eexists [], _, 0%nat. split; [reflexivity|]. cbn. repeat split; [lia|constructor].
  - unfold read_bonds, open_r, lines_of.
    destruct (files st !! filename) as [lines|]; cbn [default].
    + destruct (read_bonds_loop_ids lines 1 []) as (ks & Hks & Hids).
      destruct (read_bonds_loop 1 lines []) as [bonds r]. cbn [fst] in Hids.
      assert (Hnd : NoDup ((fun b => Investment.purchase_id (Bond.base b)) <$> bonds)).
      { rewrite Hids. cbn. apply NoDup_fmap_2; [exact _|].
        eapply sublist_NoDup; [apply NoDup_seq|exact Hks]. }
      destruct r as [[]|e]; eexists bonds, _, ks; (split; [reflexivity|]); tauto.
    + eexists [], _, []. split; [reflexivity|]. cbn.
      repeat split; [constructor|constructor].
Qed.

(** ** What the parsers can report *)

Lemma parse_int_raises s e : PyStr.parse_int s = Raise e -> e = ValueError.
Proof.
  unfold PyStr.parse_int. destruct (PyStr.take_sign _) as [neg body].
  destruct (PyStr.digitpart body) as [[v k]|]; congruence.
Qed.

Lemma parse_float_raises s e : PyStr.parse_float s = Raise e -> e = ValueError.
Proof.
  unfold PyStr.parse_float. destruct (PyStr.take_sign _) as [neg body].
  destruct (_ || _); [discriminate|]. destruct (String.eqb _ _); [discriminate|].
  destruct (PyStr.cut_at PyStr.is_e body) as [ms eo].
  destruct (PyStr.parse_mantissa ms) as [[m k]|]; [|congruence].
  destruct eo as [es|]; [|discriminate].
  destruct (PyStr.parse_exponent es); congruence.
Qed.

Lemma investment_init_str_raises pid sym q pp cp d e :
  Investment.init pid sym (VStr q) (VStr pp) (VStr cp) d = Raise e -> e = ValueError.
Proof.
  unfold Investment.init. cbn [py_int py_float].
  destruct (PyStr.parse_int q) eqn:Hq; cbn [bind];
    [|intros [= <-]; now apply parse_int_raises with q].
  destruct (PyStr.parse_float pp) eqn:Hpp; cbn [bind];
    [|intros [= <-]; now apply parse_float_raises with pp].
  destruct (PyStr.parse_float cp) eqn:Hcp; cbn [bind];
    [discriminate|intros [= <-]; now apply parse_float_raises with cp].
Qed.

Lemma stock_of_line_raises idx line e : stock_of_line idx line = Raise e -> e = ValueError.
Proof.
  unfold stock_of_line.
  destruct (PyStr.split_on _ _) as [|a [|b [|c [|d [|f [|g l]]]]]]; try congruence.
  apply investment_init_str_raises.
Qed.

Lemma bond_of_parts_raises idx parts e : bond_of_parts idx parts = Raise e -> e = ValueError.
Proof.
  unfold bond_of_parts.
  destruct parts as [|a [|b [|c [|d [|f [|g [|h [|i l]]]]]]]]; try congruence.
  unfold Bond.init.
  destruct (Investment.init _ _ _ _ _ _) eqn:Hi; cbn [bind];
    [|intros [= <-]; now apply investment_init_str_raises in Hi].
  cbn [py_float].
  destruct (PyStr.parse_float f) eqn:Hf; cbn [bind];
    [|intros [= <-]; now apply parse_float_raises with f].
  destruct (PyStr.parse_float (PyStr.strip_char "%" g)) eqn:Hg; cbn [bind];
    [|intros [= <-]; now apply parse_float_raises in Hg].
  rewrite div_by_hundred. discriminate.
Qed.

Lemma read_stocks_loop_raises lines :
  forall idx acc e, snd (read_stocks_loop idx lines acc) = Raise e -> e = ValueError.
Proof.
  induction lines as [|l lines IH]; intros idx acc e; cbn [read_stocks_loop];
    [discriminate|].
  destruct (stock_of_line idx l) eqn:Hl; [apply IH|].
  cbn. intros [= <-]. now apply stock_of_line_raises in Hl.
Qed.

Lemma read_bonds_loop_raises lines :
  forall idx acc e, snd (read_bonds_loop idx lines acc) = Raise e -> e = ValueError.
Proof.
  induction lines as [|l lines IH]; intros idx acc e; cbn [read_bonds_loop];
    [discriminate|].
  destruct (_ =? 7)%nat; [|apply IH].
  destruct (bond_of_parts idx _) eqn:Hl; [apply IH|].
  cbn. intros [= <-]. now apply bond_of_parts_raises in Hl.
Qed.

(** X5. Reading a file changes nothing but standard output, and prints
    at most one message: for [FileNotFoundError] when the file cannot be
    opened, for [ValueError] when a line fails. No other exception class
    arises from a line: a number too large for a float is read as
    infinity, not refused. *)
Theorem parsers_report_one_failure filename st :
  (snd (read_stocks filename st) = st
   \/ (files st !! filename = None
       /\ snd (read_stocks filename st)
          = printed (ErrReadStock filename FileNotFoundError) st)
   \/ (files st !! filename <> None
       /\ snd (read_stocks filename st) = printed (ErrReadStock filename ValueError) st))
  /\ (snd (read_bonds filename st) = st
      \/ (files st !! filename = None
          /\ snd (read_bonds filename st)
             = printed (ErrReadBond filename FileNotFoundError) st)
      \/ (files st !! filename <> None
          /\ snd (read_bonds filename st) = printed (ErrReadBond filename ValueError) st)).
Proof.
  split.
  - unfold read_stocks, open_r.
    destruct (files st !! filename) as [lines|] eqn:Hf; [|right; left; now split].
    pose proof (read_stocks_loop_raises lines 1 []) as Hr.
    destruct (read_stocks_loop 1 lines []) as [invs [[]|e]]; [now left|].
    right; right. rewrite (Hr e eq_refl). split; [discriminate|reflexivity].
  - unfold read_bonds, open_r.
    destruct (files st !! filename) as [lines|] eqn:Hf; [|right; left; now split].
    pose proof (read_bonds_loop_raises lines 1 []) as Hr.
    destruct (read_bonds_loop 1 lines []) as [bonds [[]|e]]; [now left|].
    right; right. rewrite (Hr e eq_refl). split; [discriminate|reflexivity].
Qed.

Example huge_price_is_infinite :
  to_option (stock_of_line 1 "GOOG,1,1e999,2,8/1/2015")
  = Some {| Investment.purchase_id := "S1"; Investment.symbol := "GOOG";
            Investment.quantity := 1; Investment.purchase_price := S754_infinity false;
            Investment.current_price := float_literal "2";
            Investment.purchase_date := "8/1/2015" |}.
Proof. vm_compute. reflexivity. Qed.

(** ** What a run leaves in the database *)

Lemma preserves_weaken (R R' : state -> state -> Prop) {A} (m : M A) :
  (forall a b, R a b -> R' a b) -> preserves R m -> preserves R' m.
Proof. intros H Hm st. apply H, Hm. Qed.

Lemma db_untouched_disk a b : db_untouched a b -> disk_kept a b.
Proof. now intros [H _]. Qed.

Lemma read_stocks_returns f st :
  exists invs, read_stocks f st = (Ok invs, snd (read_stocks f st)).
Proof.
  unfold read_stocks.
  destruct (match open_r f st with
            | Ok lines => read_stocks_loop 1 lines []
            | Raise e => ([], Raise e)
            end) as [invs [[]|e]]; now exists invs.
Qed.

Lemma read_bonds_returns f st :
  exists bonds, read_bonds f st = (Ok bonds, snd (read_bonds f st)).
Proof.
  unfold read_bonds.
  destruct (match open_r f st with
            | Ok lines => read_bonds_loop 1 lines []
            | Raise e => ([], Raise e)
            end) as [bonds [[]|e]]; now exists bonds.
Qed.

(** What a parser returns depends on the files alone. *)
Lemma read_bonds_files f st1 st2 :
  files st1 = files st2 -> fst (read_bonds f st1) = fst (read_bonds f st2).
Proof.
  intros H. unfold read_bonds, open_r. rewrite H.
  destruct (match files st2 !! f with
            | Some lines => Ok lines
            | None => Raise FileNotFoundError
            end) as [lines|e].
  - destruct (read_bonds_loop 1 lines []) as [bonds [[]|e]]; reflexivity.
  - reflexivity.
Qed.

Lemma read_stocks_files_kept f st : files (snd (read_stocks f st)) = files st.
Proof.
  unfold read_stocks.
  destruct (match open_r f st with
            | Ok lines => read_stocks_loop 1 lines []
            | Raise e => ([], Raise e)
            end) as [invs [[]|e]]; reflexivity.
Qed.

Lemma after_setup_keeps_disk investor stocks bonds conn :
  preserves disk_kept
    (write_report investor stocks bonds "Investment_Report.txt" ;;;
     export_csv stocks "stock_summary.csv" ;;;
     interactive_portfolio_filter stocks ;;;
     visualize_json "AllStocks.json" (portfolio_of stocks) ;;;
     close conn).
Proof.
  apply preserves_bind; [exact _| |intros _].
  { apply (preserves_weaken db_untouched); [apply db_untouched_disk|].
    apply write_report_keeps_db. }
  apply preserves_bind; [exact _| |intros _].
  { apply (preserves_weaken db_untouched); [apply db_untouched_disk|].
    apply export_csv_keeps_db. }
  apply preserves_bind; [exact _| |intros _].
  { apply (preserves_weaken db_untouched); [apply db_untouched_disk|].
    apply filter_keeps_db. }
  apply preserves_bind; [exact _| |intros _].
  { apply (preserves_weaken db_untouched); [apply db_untouched_disk|].
    apply visualize_json_keeps_db. }
  preserves_prim.
Qed.

Lemma stored_disk tn st st' : db_disk st' = db_disk st -> stored tn st' = stored tn st.
Proof. unfold stored. now intros ->. Qed.

(** X6. A run that gets past the persistence step (it returns, or it
    raises something other than the two errors of that step) leaves in
    the database the upsert of what [read_stocks] returned into the
    stocks table, and of what [read_bonds] returned followed by the
    hardcoded bond into the bonds table; report, CSV export, filter and
    chart write nothing to it. So "B999" has exactly one row, the
    hardcoded bond's, also when line 999 of the bond file is a bond. *)
Theorem main_persists_what_it_read st r st' :
  db_pending st = None ->
  main st = (r, st') ->
  (forall e, r = Raise e -> e <> OperationalError /\ e <> OverflowError) ->
  exists stocks bonds srows brows,
    fst (read_stocks "Lesson6_Data_Stocks.txt" st) = Ok stocks
    /\ fst (read_bonds "Week6_Data_Bonds.txt" st) = Ok bonds
    /\ map_result stock_row stocks = Ok srows
    /\ map_result bond_row bonds = Ok brows
    /\ stored Stocks st' = upsert_all srows (stored Stocks st)
    /\ stored Bonds st' = upsert_all (brows ++ [b999_row]) (stored Bonds st)
    /\ rows_keyed "B999" (stored Bonds st') = [b999_row].
Proof.
  intros Hp Hmain Hr. revert Hmain. unfold main. cbv zeta.
  unfold bindM at 1.
  destruct (read_stocks_returns "Lesson6_Data_Stocks.txt" st) as (stocks & E1).
  pose proof (read_stocks_keeps_db "Lesson6_Data_Stocks.txt" st) as [D1 P1].
  pose proof (read_stocks_files_kept "Lesson6_Data_Stocks.txt" st) as F1.
  rewrite E1. set (st1 := snd (read_stocks _ st)) in *.
  unfold bindM at 1.
  destruct (read_bonds_returns "Week6_Data_Bonds.txt" st1) as (bonds & E2).
  pose proof (read_bonds_keeps_db "Week6_Data_Bonds.txt" st1) as [D2 P2].
  pose proof (read_bonds_files "Week6_Data_Bonds.txt" st1 st F1) as F2.
  rewrite E2 in F2 |- *. set (st2 := snd (read_bonds _ st1)) in *. cbn [fst] in F2.
  unfold bindM at 1. unfold lift at 1.
  change (Bond.init "B999" "GT2:GOV" (VInt 200) (VFloat (float_literal "100.02"))
            (VFloat (float_literal "100.05")) (VFloat (float_literal "1.38"))
            "1.35%" "8/1/2017") with hardcoded_bond.
  rewrite hardcoded_bond_value.
  unfold bindM at 1.
  assert (Hp2 : db_pending st2 = None) by congruence.
  destruct (setup_database "portfolio.db" stocks (bonds ++ [b999]) st2)
    as [[conn|e] st3] eqn:E3.
  2:{ intros [= <- <-].
      destruct (setup_database_raise_inv _ _ _ _ _ _ Hp2 E3) as (_ & _ & _ & Hn & Hs).
      destruct (Hr e eq_refl) as [H1 H2].
      destruct (db_disk st2); [destruct Hs as [? _]; congruence|].
      destruct Hn as [? _]; congruence. }
  destruct (setup_database_ok_stored _ _ _ _ _ _ Hp2 E3)
    as (srows & brows' & Hs & Hb & S3 & B3 & _).
  destruct (map_result_app _ _ _ _ Hb) as (brows & last & -> & Hb1 & Hb2).
  assert (last = [b999_row]) as ->.
  { revert Hb2. vm_compute. now intros [= <-]. }
  intros Hrest.
  match type of Hrest with
  | ?rest st3 = _ =>
      pose proof (after_setup_keeps_disk
                    {| investor_id := "INV001"; name := "Peyton Holdbrooks";
                       address := "Denver, CO"; phone := "(334)500-2140" |}
                    stocks (bonds ++ [b999]) conn st3) as K
  end.
  unfold disk_kept in K. rewrite Hrest in K. cbn [snd] in K.
  assert (Hst : forall tn, stored tn st2 = stored tn st).
  { intros tn. apply stored_disk. unfold st2, st1 in *. congruence. }
  exists stocks, bonds, srows, brows.
  cbn [fst].
  assert (HS : stored Stocks st' = upsert_all srows (stored Stocks st)).
  { rewrite (stored_disk _ _ _ K), S3, Hst. reflexivity. }
  assert (HB : stored Bonds st' = upsert_all (brows ++ [b999_row]) (stored Bonds st)).
  { rewrite (stored_disk _ _ _ K), B3, Hst. reflexivity. }
  split; [reflexivity|]. split; [now symmetry|].
  do 4 (split; [assumption|]).
  rewrite HB. apply (rows_keyed_last brows b999_row [] (stored Bonds st)).
  intros x Hx. now apply elem_of_nil in Hx.
Qed.


Lemma main_persists_what_it_read_witness :
  rows_keyed "B999" (stored Bonds (snd (main (sample_state [""])))) = [b999_row]
  /\ fst (main (sample_state [""])) = Raise IndexError.
Proof.
  assert (E : main (sample_state [""]) = (Raise IndexError, snd (main (sample_state [""])))).
  { rewrite (surjective_pairing (main _)) at 1. f_equal; vm_compute; reflexivity. }
  destruct (main_persists_what_it_read (sample_state [""]) _ _ eq_refl E)
    as (stocks & bonds & srows & brows & _ & _ & _ & _ & _ & _ & H).
  - intros e [= <-]. split; discriminate.
  - split; [exact H|now rewrite E].
Defined.

(** ** The report and the CSV file *)

Lemma for_each_ext {A} (l : list A) (b1 b2 : A -> M unit) :
  (forall x st, b1 x st = b2 x st) ->
  forall st, for_each l b1 st = for_each l b2 st.
Proof.
  intros Hb. induction l as [|x l IH]; intros st; cbn [for_each]; [reflexivity|].
  unfold bindM. rewrite Hb. destruct (b2 x st) as [[[]|e] st1]; [apply IH|reflexivity].
Qed.

Lemma bindM_ext {A B} (m : M A) (k1 k2 : A -> M B) st :
  (forall a st1, k1 a st1 = k2 a st1) -> bindM m k1 st = bindM m k2 st.
Proof. intros H. unfold bindM. destruct (m st) as [[a|e] st1]; [apply H|reflexivity]. Qed.

Lemma bindM_ext_both {A B} (m1 m2 : M A) (k1 k2 : A -> M B) st :
  m1 st = m2 st -> (forall a st1, k1 a st1 = k2 a st1) -> bindM m1 k1 st = bindM m2 k2 st.
Proof.
  intros Hm H. unfold bindM. rewrite Hm.
  destruct (m2 st) as [[a|e] st1]; [apply H|reflexivity].
Qed.

Lemma yearly_return_silent s : preserves silent (Investment.yearly_return s).
Proof. unfold Investment.yearly_return, calculate_yearly_return. preserves_all. Qed.

Lemma csv_cells_silent s : preserves silent (csv_cells s).
Proof.
  unfold csv_cells. pose proof yearly_return_silent. preserves_all.
Qed.

Lemma report_stock_cells_silent s : preserves silent (report_stock_cells s).
Proof.
  unfold report_stock_cells. pose proof yearly_return_silent. preserves_all.
Qed.

Lemma report_bond_cells_silent b : preserves silent (report_bond_cells b).
Proof. unfold report_bond_cells. preserves_all. Qed.

Lemma appended_nil f st st' : silent st st' -> appended f [] st st'.
Proof.
  intros (Hw & Hwr & Ho). unfold appended, content. rewrite Hw, app_nil_r. auto.
Qed.

Lemma appended_app f l1 l2 st1 st2 st3 :
  appended f l1 st1 st2 -> appended f l2 st2 st3 -> appended f (l1 ++ l2) st1 st3.
Proof.
  intros (H1 & H2 & H3 & H4) (H5 & H6 & H7 & H8). unfold appended.
  rewrite H5, H1, H6, H2, H7, H3, app_assoc. repeat split; auto.
  intros g Hg. now rewrite H8, H4.
Qed.

Lemma write_line_appended f line st :
  appended f [line] st (snd (write_line f line st)).
Proof.
  unfold appended, content, write_line. cbn. rewrite lookup_insert_eq. cbn.
  repeat split; auto. intros g Hg. now rewrite lookup_insert_ne by congruence.
Qed.

Lemma writes_line_then f line (k : M unit) Q :
  writes f k Q ->
  writes f (write_line f line ;;; k) (fun r ls => exists l2, ls = line :: l2 /\ Q r l2).
Proof.
  intros Hk st. unfold bindM.
  pose proof (write_line_appended f line st) as Ha.
  destruct (write_line f line st) as [[[]|e] st1] eqn:E; [|discriminate E].
  cbn [snd] in Ha. destruct (Hk st1) as (l2 & Hb & HQ).
  exists ([line] ++ l2). split; [eapply appended_app; eassumption|].
  now exists l2.
Qed.

Lemma writes_bind f (m k : M unit) P Q :
  writes f m P -> writes f k Q ->
  writes f (m ;;; k)
    (fun r ls => (exists l1 l2, ls = l1 ++ l2 /\ P (Ok tt) l1 /\ Q r l2)
                 \/ (exists e, r = Raise e /\ P (Raise e) ls)).
Proof.
  intros Hm Hk st. unfold bindM. destruct (Hm st) as (l1 & Ha & HP).
  destruct (m st) as [[[]|e] st1]; cbn [fst snd] in *.
  - destruct (Hk st1) as (l2 & Hb & HQ). exists (l1 ++ l2).
    split; [eapply appended_app; eassumption|]. left. now exists l1, l2.
  - exists l1. split; [exact Ha|]. right. now exists e.
Qed.

(** A loop that writes one computed line per element. *)
Lemma write_rows {A} f (compute : A -> M (list cell)) (l : list A) :
  (forall x, preserves silent (compute x)) ->
  writes f (for_each l (fun x => bindM (compute x) (write_line f)))
         (loop_lines compute l).
Proof.
  intros Hc. induction l as [|x l IH]; intros st; cbn [for_each].
  - exists []. split; [apply appended_nil, frame_refl|].
    unfold loop_lines. cbn. repeat split; auto. lia.
  - match goal with
    | |- context [bindM ?m ?k st] =>
        assert (Hstep : bindM m k st
                        = match compute x st with
                          | (Ok r, st1) =>
                              for_each l (fun x => bindM (compute x) (write_line f))
                                       (snd (write_line f r st1))
                          | (Raise e, st1) => (Raise e, st1)
                          end)
          by (unfold bindM, write_line; destruct (compute x st) as [[?|?] ?]; reflexivity);
        rewrite Hstep; clear Hstep
    end.
    pose proof (Hc x st) as Hs.
    destruct (compute x st) as [[r|e] st1] eqn:E; cbn [snd] in Hs.
    + pose proof (write_line_appended f r st1) as Ha.
      destruct (IH (snd (write_line f r st1))) as (rows & Hb & H2 & H3 & H4 & H5).
      exists (r :: rows). split.
      * change (r :: rows) with ([] ++ [r] ++ rows).
        eapply appended_app; [apply appended_nil; exact Hs|].
        eapply appended_app; eassumption.
      * unfold loop_lines. cbn [length take].
        split; [constructor; [exists st; now rewrite E|exact H2]|].
        split; [lia|]. split; [rewrite H4; lia|].
        intros Hlt. apply H5. lia.
    + exists []. split; [apply appended_nil; exact Hs|].
      unfold loop_lines. cbn [length take].
      split; [constructor|]. split; [lia|]. split; [split; [discriminate|lia]|].
      intros _. exists x, st, e. split; [reflexivity|now rewrite E].
Qed.

Lemma csv_cells_fail s st e : fst (csv_cells s st) = Raise e -> figures_fail s.
Proof.
  unfold csv_cells, bindM, lift, ret, figures_fail.
  destruct (Investment.earnings s) as [x|e1]; [|intros [= <-]; eauto].
  destruct (Investment.percent_yield s) as [y|e2]; [|intros [= <-]; eauto].
  destruct (Investment.yearly_return s st) as [[r|e3] st1] eqn:E; [discriminate|].
  intros [= <-]. exists e3. right; right. exists st. now rewrite E.
Qed.

Lemma report_stock_cells_fail s st e :
  fst (report_stock_cells s st) = Raise e -> figures_fail s.
Proof.
  unfold report_stock_cells, bindM, lift, ret, figures_fail.
  destruct (Investment.earnings s) as [x|e1]; [|intros [= <-]; eauto].
  destruct (Investment.percent_yield s) as [y|e2]; [|intros [= <-]; eauto].
  destruct (Investment.yearly_return s st) as [[r|e3] st1] eqn:E; [discriminate|].
  intros [= <-]. exists e3. right; right. exists st. now rewrite E.
Qed.

Lemma report_bond_cells_fail b st e :
  fst (report_bond_cells b st) = Raise e -> Bond.earnings b = Raise e.
Proof.
  unfold report_bond_cells, bindM, lift, ret.
  destruct (Bond.earnings b) as [x|e1]; [discriminate|]. now intros [= <-].
Qed.

Lemma csv_cells_line s line : line_of csv_cells s line -> csv_line s line.
Proof.
  intros [st H]. revert H. unfold csv_cells, bindM, lift, ret.
  destruct (Investment.earnings s) as [e|] eqn:Ee; [|discriminate].
  destruct (Investment.percent_yield s) as [y|] eqn:Ey; [|discriminate].
  destruct (Investment.yearly_return s st) as [[r|] st1] eqn:E; [|discriminate].
  cbn. intros [= <-]. exists e, y, r.
  split; [exact Ee|]. split; [exact Ey|].
  split; [exists st; now rewrite E|reflexivity].
Qed.

Lemma report_stock_cells_line s line :
  line_of report_stock_cells s line -> report_stock_line s line.
Proof.
  intros [st H]. revert H. unfold report_stock_cells, bindM, lift, ret.
  destruct (Investment.earnings s) as [e|] eqn:Ee; [|discriminate].
  destruct (Investment.percent_yield s) as [y|] eqn:Ey; [|discriminate].
  destruct (Investment.yearly_return s st) as [[r|] st1] eqn:E; [|discriminate].
  cbn. intros [= <-]. exists e, y, r.
  split; [exact Ee|]. split; [exact Ey|].
  split; [exists st; now rewrite E|reflexivity].
Qed.

Lemma report_bond_cells_line b line :
  line_of report_bond_cells b line -> report_bond_line b line.
Proof.
  intros [st H]. revert H. unfold report_bond_cells, bindM, lift, ret.
  destruct (Bond.earnings b) as [e|] eqn:Ee; [|discriminate].
  cbn. intros [= <-]. now exists e.
Qed.

Lemma export_csv_unfold stocks f st :
  export_csv stocks f st
  = try_except
      (open_w f ;;; write_line f csv_header ;;;
       for_each stocks (fun s => bindM (csv_cells s) (write_line f)))
      (fun e => print (ErrCsv f e)) st.
Proof.
  unfold export_csv, try_except.
  match goal with
  | |- match ?a st with _ => _ end = match ?b st with _ => _ end =>
      assert (E : a st = b st); [|now rewrite E]
  end.
  apply bindM_ext; intros _ st1. apply bindM_ext; intros _ st2.
  apply for_each_ext. intros s st3. unfold csv_cells, bindM, lift, ret.
  destruct (Investment.earnings s); [|reflexivity].
  destruct (Investment.percent_yield s); [|reflexivity].
  destruct (Investment.yearly_return s st3) as [[?|?] ?]; reflexivity.
Qed.

Lemma open_w_step f (k : M unit) st :
  writable st f = true ->
  (open_w f ;;; k) st = k (set_written (<[f := []]> (written st)) st).
Proof. intros Hw. unfold bindM, open_w. now rewrite Hw. Qed.

Lemma open_w_fails f (k : M unit) st :
  writable st f = false -> (open_w f ;;; k) st = (Raise FileNotFoundError, st).
Proof. intros Hw. unfold bindM, open_w. now rewrite Hw. Qed.

Lemma appended_truncated f lines st st' :
  appended f lines (set_written (<[f := []]> (written st)) st) st' ->
  content f st' = lines
  /\ stdout st' = stdout st
  /\ (forall g, g <> f -> content g st' = content g st).
Proof.
  intros (H1 & H2 & H3 & H4). unfold content in *. cbn in *.
  rewrite lookup_insert_eq in H1. cbn in H1.
  repeat split; auto. intros g Hg. rewrite (H4 g Hg).
  now rewrite lookup_insert_ne by congruence.
Qed.

Lemma export_csv_inv stocks f st :
  writable st f = true ->
  exists rows,
    content f (snd (export_csv stocks f st)) = csv_header :: rows
    /\ Forall2 csv_line (take (length rows) stocks) rows
    /\ ((length rows = length stocks
         /\ stdout (snd (export_csv stocks f st)) = stdout st)
        \/ ((length rows < length stocks)%nat
            /\ (exists e, stdout (snd (export_csv stocks f st))
                          = stdout st ++ [ErrCsv f e])
            /\ exists s, stocks !! length rows = Some s /\ figures_fail s))
    /\ (forall g, g <> f ->
          content g (snd (export_csv stocks f st)) = content g st).
Proof.
  intros Hw. rewrite export_csv_unfold. unfold try_except.
  rewrite (open_w_step _ _ _ Hw).
  match goal with |- context [(write_line f csv_header ;;; ?k) ?s] =>
    destruct (writes_line_then f csv_header k _
                (write_rows f csv_cells stocks csv_cells_silent) s)
      as (lines & Ha & rows & -> & H2 & H3 & H4 & H5);
    destruct ((write_line f csv_header ;;; k) s) as [[[]|e] st1]
  end; cbn [fst snd] in *;
    apply appended_truncated in Ha as (Hc & Ho & Hg); exists rows.
  - split; [exact Hc|].
    split; [eapply Forall2_impl; [exact H2|apply csv_cells_line]|].
    split; [left; split; [now apply H4|exact Ho]|exact Hg].
  - split; [exact Hc|].
    split; [eapply Forall2_impl; [exact H2|apply csv_cells_line]|].
    split; [|exact Hg].
    assert (Hlt : (length rows < length stocks)%nat).
    { destruct (decide (length rows = length stocks)) as [Hl|Hl]; [|lia].
      apply H4 in Hl. discriminate. }
    right. split; [exact Hlt|]. split.
    + exists e. cbn. now rewrite Ho.
    + destruct (H5 Hlt) as (s & st0 & e0 & Hs & Hf). exists s.
      split; [exact Hs|]. eapply csv_cells_fail, Hf.
Qed.

Lemma write_report_unfold investor stocks bonds f st :
  write_report investor stocks bonds f st
  = try_except
      (open_w f ;;;
       write_line f [CText "Investor"; CText (name investor)] ;;;
       write_line f [CText "Address"; CText (address investor)] ;;;
       write_line f [CText "Phone"; CText (phone investor)] ;;;
       write_line f [CText "STOCKS"] ;;;
       write_line f [CText "ID"; CText "Symbol"; CText "Qty"; CText "Earn";
                     CText "Yield%"; CText "Yearly%"] ;;;
       for_each stocks (fun s => bindM (report_stock_cells s) (write_line f)) ;;;
       write_line f [CText "BONDS"] ;;;
       write_line f [CText "ID"; CText "Symbol"; CText "Qty"; CText "Earn";
                     CText "Date"] ;;;
       for_each bonds (fun b => bindM (report_bond_cells b) (write_line f)))
      (fun e => print (ErrReport f e)) st.
Proof.
  unfold write_report, try_except.
  match goal with
  | |- match ?a st with _ => _ end = match ?b st with _ => _ end =>
      assert (E : a st = b st); [|now rewrite E]
  end.
  do 6 (apply bindM_ext; intros _ ?).
  apply bindM_ext_both.
  { apply for_each_ext. intros s sx. unfold report_stock_cells, bindM, lift, ret.
    destruct (Investment.earnings s); [|reflexivity].
    destruct (Investment.percent_yield s); [|reflexivity].
    destruct (Investment.yearly_return s sx) as [[?|?] ?]; reflexivity. }
  intros _ ?. do 2 (apply bindM_ext; intros _ ?).
  apply for_each_ext. intros b sx. unfold report_bond_cells, bindM, lift, ret.
  destruct (Bond.earnings b); reflexivity.
Qed.

Lemma write_report_inv investor stocks bonds f st :
  writable st f = true ->
  exists srows brows,
    Forall2 report_stock_line (take (length srows) stocks) srows
    /\ Forall2 report_bond_line (take (length brows) bonds) brows
    /\ ((length srows = length stocks /\ length brows = length bonds
         /\ content f (snd (write_report investor stocks bonds f st))
            = report_head investor ++ srows ++ bonds_head ++ brows
         /\ stdout (snd (write_report investor stocks bonds f st)) = stdout st)
        \/ (length srows = length stocks /\ (length brows < length bonds)%nat
            /\ content f (snd (write_report investor stocks bonds f st))
               = report_head investor ++ srows ++ bonds_head ++ brows
            /\ (exists e, stdout (snd (write_report investor stocks bonds f st))
                          = stdout st ++ [ErrReport f e])
            /\ exists b e, bonds !! length brows = Some b /\ Bond.earnings b = Raise e)
        \/ ((length srows < length stocks)%nat /\ brows = []
            /\ content f (snd (write_report investor stocks bonds f st))
               = report_head investor ++ srows
            /\ (exists e, stdout (snd (write_report investor stocks bonds f st))
                          = stdout st ++ [ErrReport f e])
            /\ exists s, stocks !! length srows = Some s /\ figures_fail s))
    /\ (forall g, g <> f ->
          content g (snd (write_report investor stocks bonds f st)) = content g st).
Proof.
  intros Hw. rewrite write_report_unfold. unfold try_except.
  rewrite (open_w_step _ _ _ Hw).
  match goal with |- context [bindM ?m ?k ?s] =>
    eassert (W : writes f (bindM m k) _);
    [|destruct (W s) as (ls & Ha & HP);
      destruct (bindM m k s) as [[[]|e] st1]]
  end.
  { do 5 eapply writes_line_then.
    eapply writes_bind; [apply write_rows, report_stock_cells_silent|].
    do 2 eapply writes_line_then. apply write_rows, report_bond_cells_silent. }
  - cbn [fst snd] in *. apply appended_truncated in Ha as (Hc & Ho & Hg).
    destruct HP as (? & -> & ? & -> & ? & -> & ? & -> & l5 & -> & HP).
    destruct HP as [(srows & ? & -> & (S1 & S2 & S3 & S4) & ? & -> & brows & -> & B1 & B2 & B3 & B4)
                   |(e & He & _)]; [|discriminate He].
    exists srows, brows.
    split; [eapply Forall2_impl; [exact S1|apply report_stock_cells_line]|].
    split; [eapply Forall2_impl; [exact B1|apply report_bond_cells_line]|].
    split; [|exact Hg].
    left. split; [now apply S3|]. split; [now apply B3|]. split; [exact Hc|exact Ho].
  - cbn [fst snd] in *. apply appended_truncated in Ha as (Hc & Ho & Hg).
    destruct HP as (? & -> & ? & -> & ? & -> & ? & -> & l5 & -> & HP).
    destruct HP as [(srows & ? & -> & (S1 & S2 & S3 & S4) & ? & -> & brows & -> & B1 & B2 & B3 & B4)
                   |(e' & He & S1 & S2 & S3 & S4)].
    + exists srows, brows.
      split; [eapply Forall2_impl; [exact S1|apply report_stock_cells_line]|].
      split; [eapply Forall2_impl; [exact B1|apply report_bond_cells_line]|].
      split; [|intros g Hg'; cbn; now apply Hg].
      assert (Hlt : (length brows < length bonds)%nat).
      { destruct (decide (length brows = length bonds)) as [Hl|Hl];
          [apply B3 in Hl; discriminate Hl|lia]. }
      right; left. split; [now apply S3|]. split; [exact Hlt|].
      split; [exact Hc|]. split; [exists e; cbn; now rewrite Ho|].
      destruct (B4 Hlt) as (b & st0 & e0 & Hb & Hf). exists b, e0.
      split; [exact Hb|]. eapply report_bond_cells_fail, Hf.
    + exists l5, [].
      split; [eapply Forall2_impl; [exact S1|apply report_stock_cells_line]|].
      split; [constructor|].
      split; [|intros g Hg'; cbn; now apply Hg].
      assert (Hlt : (length l5 < length stocks)%nat).
      { destruct (decide (length l5 = length stocks)) as [Hl|Hl];
          [apply S3 in Hl; discriminate Hl|lia]. }
      right; right. split; [exact Hlt|].
      split; [reflexivity|]. split; [exact Hc|]. split; [exists e; cbn; now rewrite Ho|].
      destruct (S4 Hlt) as (s & st0 & e0 & Hs & Hf). exists s.
      split; [exact Hs|]. eapply report_stock_cells_fail, Hf.
Qed.

(** X7. With a CSV file that can be opened, [export_csv] returns
    normally and leaves in the file the header followed by one line per
    stock, in order, up to the first stock one of whose three figures
    cannot be computed; each line holds the stock's symbol, earnings and
    percentage yield and a reading of its yearly return. A message is
    printed exactly when lines are missing, one of the figures of the
    first stock without a line then raises, and no other file changes. *)
Theorem export_csv_writes_a_prefix stocks f st :
  writable st f = true ->
  fst (export_csv stocks f st) = Ok tt
  /\ exists rows,
       content f (snd (export_csv stocks f st)) = csv_header :: rows
       /\ Forall2 csv_line (take (length rows) stocks) rows
       /\ ((length rows = length stocks
            /\ stdout (snd (export_csv stocks f st)) = stdout st)
           \/ ((length rows < length stocks)%nat
               /\ (exists e, stdout (snd (export_csv stocks f st))
                             = stdout st ++ [ErrCsv f e])
               /\ exists s, stocks !! length rows = Some s /\ figures_fail s))
       /\ (forall g, g <> f ->
             content g (snd (export_csv stocks f st)) = content g st).
Proof.
  intros Hw. split; [|now apply export_csv_inv].
  unfold export_csv, try_except.
  match goal with |- fst (match ?b with _ => _ end) = _ => destruct b as [[[]|e] st1] end;
    reflexivity.
Qed.

Lemma export_csv_writes_a_prefix_witness :
  fst (export_csv [s1_at "941.53"; free_lot; s1_at "950.00"] "stock_summary.csv"
                  (sample_state []))
  = Ok tt
  /\ exists rows,
       content "stock_summary.csv"
               (snd (export_csv [s1_at "941.53"; free_lot; s1_at "950.00"]
                                "stock_summary.csv" (sample_state [])))
       = csv_header :: rows
       /\ length rows = 1%nat.
Proof.
  destruct (export_csv_writes_a_prefix
              [s1_at "941.53"; free_lot; s1_at "950.00"] "stock_summary.csv"
              (sample_state []) eq_refl) as (H1 & rows & H2 & _).
  split; [exact H1|]. exists rows. split; [exact H2|].
  revert H2. vm_compute. now intros [= <-].
Defined.

(** X8. With a report file that can be opened, [write_report] leaves in
    it the five heading lines and one line per stock; when every stock
    line could be computed, the two heading lines of the bonds and one
    line per bond follow. The lines stop at the first stock or bond whose
    figures cannot be computed (one of them raises), and a message is
    printed exactly then. No other file changes. *)
Theorem write_report_layout investor stocks bonds f st :
  writable st f = true ->
  exists srows brows,
    Forall2 report_stock_line (take (length srows) stocks) srows
    /\ Forall2 report_bond_line (take (length brows) bonds) brows
    /\ ((length srows = length stocks /\ length brows = length bonds
         /\ content f (snd (write_report investor stocks bonds f st))
            = report_head investor ++ srows ++ bonds_head ++ brows
         /\ stdout (snd (write_report investor stocks bonds f st)) = stdout st)
        \/ (length srows = length stocks /\ (length brows < length bonds)%nat
            /\ content f (snd (write_report investor stocks bonds f st))
               = report_head investor ++ srows ++ bonds_head ++ brows
            /\ (exists e, stdout (snd (write_report investor stocks bonds f st))
                          = stdout st ++ [ErrReport f e])
            /\ exists b e, bonds !! length brows = Some b /\ Bond.earnings b = Raise e)
        \/ ((length srows < length stocks)%nat /\ brows = []
            /\ content f (snd (write_report investor stocks bonds f st))
               = report_head investor ++ srows
            /\ (exists e, stdout (snd (write_report investor stocks bonds f st))
                          = stdout st ++ [ErrReport f e])
            /\ exists s, stocks !! length srows = Some s /\ figures_fail s))
    /\ (forall g, g <> f ->
          content g (snd (write_report investor stocks bonds f st)) = content g st).
Proof. apply write_report_inv. Qed.

Lemma write_report_layout_witness :
  exists srows brows,
    content "Investment_Report.txt"
            (snd (write_report (Build_Investor "INV001" "P" "D" "3")
                               [s1_at "941.53"] [b999] "Investment_Report.txt"
                               (sample_state [])))
    = report_head (Build_Investor "INV001" "P" "D" "3") ++ srows ++ bonds_head ++ brows
    /\ length srows = 1%nat /\ length brows = 1%nat.
Proof.
  destruct (write_report_layout (Build_Investor "INV001" "P" "D" "3")
              [s1_at "941.53"] [b999] "Investment_Report.txt" (sample_state []) eq_refl)
    as (srows & brows & _ & _ & [(H1 & H2 & H3 & _)|[(_ & _ & _ & (e & He) & _)|(_ & _ & _ & (e & He) & _)]] & _).
  - exists srows, brows. auto.
  - exfalso. revert He. vm_compute. intros He. discriminate He.
  - exfalso. revert He. vm_compute. intros He. discriminate He.
Defined.

Lemma Forall2_elem_l {A B} (P : A -> B -> Prop) l k i x :
  Forall2 P l k -> l !! i = Some x -> exists y, k !! i = Some y /\ P x y.
Proof.
  intros H. revert i. induction H as [|a b l k Hab H IH]; intros [|i] Hi; try discriminate.
  - injection Hi as <-. now exists b.
  - apply (IH i Hi).
Qed.

Lemma Forall2_elem_r {A B} (P : A -> B -> Prop) l k y :
  Forall2 P l k -> y ∈ k -> exists x, x ∈ l /\ P x y.
Proof.
  intros H. induction H as [|a b l k Hab H IH]; intros Hy.
  - now apply elem_of_nil in Hy.
  - apply elem_of_cons in Hy as [->|Hy].
    + exists a. split; [apply list_elem_of_here|exact Hab].
    + destruct (IH Hy) as (x & Hx & HP). exists x.
      split; [now apply list_elem_of_further|exact HP].
Qed.

Lemma percent_yield_zero_price s :
  PyFloat.eqb (Investment.purchase_price s) PyFloat.zero = true ->
  Investment.percent_yield s = Raise ZeroDivisionError.
Proof.
  intros H. unfold Investment.percent_yield, calculate_percentage_yield.
  now rewrite (div_zero _ _ H).
Qed.

(** X9. A stock with a zero purchase price, at position [i] of the list,
    costs the report its bonds section and every stock line from that
    position on, and the CSV file every line from that position on: the
    division by the purchase price raises inside the loop, which ends the
    writing of the file. Both functions print a message. *)
Theorem zero_priced_stock_truncates_outputs investor stocks bonds f g st i s :
  stocks !! i = Some s ->
  PyFloat.eqb (Investment.purchase_price s) PyFloat.zero = true ->
  writable st f = true ->
  writable st g = true ->
  ~ ([CText "BONDS"] ∈ content f (snd (write_report investor stocks bonds f st)))
  /\ (length (content f (snd (write_report investor stocks bonds f st)))
      <= 5 + i)%nat
  /\ (length (content g (snd (export_csv stocks g st))) <= 1 + i)%nat
  /\ (exists e, stdout (snd (write_report investor stocks bonds f st))
                = stdout st ++ [ErrReport f e])
  /\ (exists e, stdout (snd (export_csv stocks g st)) = stdout st ++ [ErrCsv g e]).
Proof.
  intros Hi Hz Hf Hg. pose proof (percent_yield_zero_price s Hz) as Hy.
  assert (Hlen : (i < length stocks)%nat) by (eapply lookup_lt_Some; exact Hi).
  assert (Hs : forall rows : list (list cell),
             Forall2 report_stock_line (take (length rows) stocks) rows ->
             (length rows <= i)%nat).
  { intros rows H. destruct (decide (length rows <= i)%nat) as [|Hn]; [assumption|].
    destruct (Forall2_elem_l _ _ _ i s H) as (y & _ & (? & ? & ? & _ & Hy' & _)).
    - rewrite lookup_take_lt by lia. exact Hi.
    - congruence. }
  assert (Hc : forall rows : list (list cell),
             Forall2 csv_line (take (length rows) stocks) rows ->
             (length rows <= i)%nat).
  { intros rows H. destruct (decide (length rows <= i)%nat) as [|Hn]; [assumption|].
    destruct (Forall2_elem_l _ _ _ i s H) as (y & _ & (? & ? & ? & _ & Hy' & _)).
    - rewrite lookup_take_lt by lia. exact Hi.
    - congruence. }
  destruct (write_report_inv investor stocks bonds f st Hf)
    as (srows & brows & S1 & _ & HR & _).
  destruct (export_csv_inv stocks g st Hg) as (rows & C1 & C2 & HC & _).
  specialize (Hs srows S1). specialize (Hc rows C2).
  destruct HR as [(? & _)|[(? & _)|(_ & _ & HR & He & _)]]; try lia.
  destruct HC as [(? & _)|(_ & He' & _)]; try lia.
  rewrite HR, C1. cbn [length]. rewrite length_app. cbn [report_head length].
  split; [|split; [lia|split; [lia|split; assumption]]].
  intros Hin. apply elem_of_app in Hin as [Hin|Hin].
  - unfold report_head in Hin.
    repeat (apply elem_of_cons in Hin as [Hin|Hin]; [discriminate Hin|]).
    now apply elem_of_nil in Hin.
  - destruct (Forall2_elem_r _ _ _ _ S1 Hin) as (x & _ & (? & ? & ? & _ & _ & _ & Hx)).
    discriminate Hx.
Qed.


Lemma zero_priced_stock_truncates_outputs_witness :
  ~ ([CText "BONDS"]
       ∈ content "Investment_Report.txt"
           (snd (write_report (Build_Investor "INV001" "P" "D" "3")
                              [s1_at "941.53"; free_lot; s1_at "950.00"] [b999]
                              "Investment_Report.txt" (sample_state []))))
  /\ (length (content "stock_summary.csv"
                (snd (export_csv [s1_at "941.53"; free_lot; s1_at "950.00"]
                                 "stock_summary.csv" (sample_state [])))) <= 2)%nat.
Proof.
  destruct (zero_priced_stock_truncates_outputs
              (Build_Investor "INV001" "P" "D" "3")
              [s1_at "941.53"; free_lot; s1_at "950.00"] [b999]
              "Investment_Report.txt" "stock_summary.csv" (sample_state [])
              1%nat free_lot eq_refl eq_refl eq_refl eq_refl) as (H1 & _ & H3 & _).
  split; [exact H1|exact H3].
Defined.

(** X10. An output file that cannot be opened costs one message and
    nothing else: [write_report] and [export_csv] return normally, print
    the failure, and leave every output file as it was. *)
Theorem unwritable_output_is_reported investor stocks bonds f st :
  writable st f = false ->
  write_report investor stocks bonds f st
  = (Ok tt, printed (ErrReport f FileNotFoundError) st)
  /\ export_csv stocks f st = (Ok tt, printed (ErrCsv f FileNotFoundError) st).
Proof.
  intros Hw. rewrite write_report_unfold, export_csv_unfold. unfold try_except.
  rewrite !(open_w_fails _ _ _ Hw). split; reflexivity.
Qed.

Lemma unwritable_output_is_reported_witness :
  stdout (snd (export_csv [s1_at "941.53"] "stock_summary.csv" (read_only_state [])))
  = [ErrCsv "stock_summary.csv" FileNotFoundError]
  /\ written (snd (export_csv [s1_at "941.53"] "stock_summary.csv" (read_only_state [])))
     = ∅.
Proof.
  destruct (unwritable_output_is_reported
              (Build_Investor "INV001" "P" "D" "3") [s1_at "941.53"] [b999]
              "stock_summary.csv" (read_only_state []) eq_refl) as [_ H].
  rewrite H. split; reflexivity.
Defined.

(** ** The portfolio map *)

Lemma portfolio_of_snoc stocks s :
  portfolio_of (stocks ++ [s])
  = <[Investment.symbol s := Investment.quantity s]> (portfolio_of stocks).
Proof. unfold portfolio_of. now rewrite foldl_app. Qed.

Lemma portfolio_of_lookup stocks sym :
  portfolio_of stocks !! sym = last (Investment.quantity <$> lots_of sym stocks).
Proof.
  unfold lots_of. induction stocks as [|s stocks IH] using rev_ind; [reflexivity|].
  rewrite portfolio_of_snoc, filter_app, fmap_app.
  destruct (decide (Investment.symbol s = sym)) as [Heq|Hne].
  - rewrite Heq, lookup_insert_eq, filter_cons_True by exact Heq.
    cbn. now rewrite last_snoc.
  - rewrite lookup_insert_ne, filter_cons_False by exact Hne.
    cbn. now rewrite app_nil_r.
Qed.

(** X11. The portfolio map that scales the chart holds, for each symbol,
    the quantity of the last lot of that symbol in the list, not the sum
    of its lots; a symbol is in the map exactly when some lot has it. *)
Theorem portfolio_counts_the_last_lot stocks sym :
  portfolio_of stocks !! sym = last (Investment.quantity <$> lots_of sym stocks)
  /\ (is_Some (portfolio_of stocks !! sym)
      <-> exists s, s ∈ stocks /\ Investment.symbol s = sym).
Proof.
  split; [apply portfolio_of_lookup|].
  rewrite portfolio_of_lookup. unfold lots_of. split.
  - intros [q Hq].
    destruct (filter (fun s => Investment.symbol s = sym) stocks) as [|s l] eqn:E;
      [discriminate Hq|].
    assert (Hs : s ∈ filter (fun s => Investment.symbol s = sym) stocks)
      by (rewrite E; apply list_elem_of_here).
    apply list_elem_of_filter in Hs as [Hs1 Hs2]. now exists s.
  - intros (s & Hs & Hsym).
    assert (Hin : s ∈ filter (fun s => Investment.symbol s = sym) stocks)
      by (apply list_elem_of_filter; auto).
    destruct (filter (fun s => Investment.symbol s = sym) stocks) as [|x l] using rev_ind;
      [now apply elem_of_nil in Hin|].
    rewrite fmap_app. cbn. rewrite last_snoc. eauto.
Qed.

(** Two lots of one symbol: the map holds the second lot's 40 shares,
    not the 165 held. *)
Example portfolio_of_two_lots : portfolio_of two_lots !! "GOOG" = Some 40.
Proof. reflexivity. Qed.

(** ** The filter loop *)

Lemma filter_body_stdin stocks : preserves stdin_suffix (filter_body stocks).
Proof.
  unfold filter_body, Investment.yearly_return, calculate_yearly_return. preserves_all.
Qed.

(** A round that cannot end the loop. *)
Lemma bind_never_true {A} (m : M A) (k : A -> M bool) st st' :
  (forall a s, k a s <> (Ok true, st')) -> bindM m k st <> (Ok true, st').
Proof.
  intros Hk. unfold bindM. destruct (m st) as [[a|e] s]; [apply Hk|discriminate].
Qed.

Lemma ret_false_never_true st st' : @ret bool false st <> (Ok true, st').
Proof. discriminate. Qed.

Lemma filter_body_true stocks st st' :
  filter_body stocks st = (Ok true, st') ->
  exists line choice,
    stdin st = line :: stdin st'
    /\ norm line = Ok choice
    /\ str_in choice exit_words = true.
Proof.
  unfold filter_body. unfold bindM at 1. unfold print at 1.
  unfold bindM at 1. unfold input at 1. unfold bindM at 1. unfold print at 1.
  cbn [stdin stdout set_stdout].
  destruct (stdin st) as [|line rest] eqn:Hin; [discriminate|].
  unfold bindM at 1. unfold lift at 1.
  destruct (norm line) as [choice|e] eqn:Hn; [|discriminate].
  repeat match goal with
         | |- (if ?b then _ else _) _ = _ -> _ => destruct b eqn:?
         end;
    try solve [intros H; exfalso; revert H;
               repeat first [apply ret_false_never_true
                            |apply bind_never_true; intros
                            |match goal with
                             | |- (match ?x with _ => _ end) _ <> _ => destruct x
                             end]].
  unfold ret; cbv beta. intros [= <-]. exists line, choice. cbn. auto.
Qed.

Lemma filter_exit_inv stocks :
  forall fuel st st',
    (length (stdin st) <= fuel)%nat ->
    while_true fuel (filter_body stocks) st = (Ok tt, st') ->
    exists before line choice,
      stdin st = before ++ line :: stdin st'
      /\ norm line = Ok choice
      /\ str_in choice exit_words = true.
Proof.
  induction fuel as [|n IH]; intros st st' Hlen; cbn [while_true]; unfold bindM;
    destruct (filter_body stocks st) as [[[|]|e] st1] eqn:E; try discriminate.
  - intros [= <-]. destruct (filter_body_true _ _ _ E) as (line & choice & H1 & H2 & H3).
    now exists [], line, choice.
  - apply filter_body_consumes in E. lia.
  - intros [= <-]. destruct (filter_body_true _ _ _ E) as (line & choice & H1 & H2 & H3).
    now exists [], line, choice.
  - intros H. pose proof (filter_body_stdin stocks st) as [k Hk].
    rewrite E in Hk. cbn [snd] in Hk.
    apply filter_body_consumes in E.
    destruct (IH st1 st' ltac:(lia) H) as (before & line & choice & H1 & H2 & H3).
    exists (k ++ before), line, choice. rewrite Hk, H1, <- app_assoc. auto.
Qed.

(** X12. The filter returns normally only by an exit command: when
    [interactive_portfolio_filter] returns, some line of standard input
    had "5", "exit" or "quit" as its first word (in any case), the lines
    before it were consumed, and the lines after it are left unread.
    Running out of input never ends the loop normally. *)
Theorem filter_returns_only_on_exit stocks st st' :
  interactive_portfolio_filter stocks st = (Ok tt, st') ->
  exists before line choice,
    stdin st = before ++ line :: stdin st'
    /\ norm line = Ok choice
    /\ str_in choice exit_words = true.
Proof.
  unfold interactive_portfolio_filter. apply filter_exit_inv. reflexivity.
Qed.

Lemma filter_returns_only_on_exit_witness :
  exists before line choice,
    ["hello"; " QUIT now"; "1"] = before ++ line :: ["1"]
    /\ norm line = Ok choice
    /\ str_in choice exit_words = true.
Proof.
  apply (filter_returns_only_on_exit [] (sample_state ["hello"; " QUIT now"; "1"])
           (snd (interactive_portfolio_filter [] (sample_state ["hello"; " QUIT now"; "1"])))).
  vm_compute. reflexivity.
Defined.

Lemma yearly_return_ticks_only s : preserves ticks_only (Investment.yearly_return s).
Proof. unfold Investment.yearly_return, calculate_yearly_return. preserves_all. Qed.

Lemma upper_char_not_lower c :
  (97 <=? PyStr.code (PyStr.upper_char c)) && (PyStr.code (PyStr.upper_char c) <=? 122)
  = false.
Proof. destruct c as [[] [] [] [] [] [] [] []]; reflexivity. Qed.

Lemma upper_has_no_lower a : has_lower (PyStr.upper a) = false.
Proof.
  induction a as [|c a IH]; [reflexivity|].
  cbn [PyStr.upper PyStr.map_chars has_lower]. rewrite upper_char_not_lower. exact IH.
Qed.

Lemma lots_of_filter sym stocks :
  List.filter (fun s => String.eqb (Investment.symbol s) sym) stocks = lots_of sym stocks.
Proof.
  unfold lots_of. induction stocks as [|s stocks IH]; [reflexivity|].
  cbn [List.filter]. destruct (String.eqb_spec (Investment.symbol s) sym) as [Heq|Hne].
  - rewrite filter_cons_True by exact Heq. now rewrite IH.
  - rewrite filter_cons_False by exact Hne. exact IH.
Qed.

Lemma lookup_round stocks st line answer rest choice :
  stdin st = line :: answer :: rest ->
  norm line = Ok choice ->
  str_in choice ["4"; "lookup"] = true ->
  filter_body stocks st
  = match lots_of (PyStr.upper answer) stocks with
    | s :: _ =>
        (e <~ lift (Investment.earnings s) ;;
         r <~ Investment.yearly_return s ;;
         print (OutLookup (Investment.symbol s) e r) ;;;
         ret false)
          (set_stdin rest
             (set_stdout (stdout st ++ [Menu; Prompt "Choice: "; Prompt "Enter symbol: "])
                         st))
    | [] =>
        (Ok false,
         set_stdout (stdout st ++ [Menu; Prompt "Choice: "; Prompt "Enter symbol: ";
                                   OutNotFound])
                    (set_stdin rest st))
    end.
Proof.
  intros Hin Hn Hc.
  assert (Hchoice : choice = "4" \/ choice = "lookup").
  { cbn in Hc. apply orb_true_iff in Hc as [Hc|Hc]; [left; now apply String.eqb_eq|].
    apply orb_true_iff in Hc as [Hc|Hc]; [right; now apply String.eqb_eq|discriminate]. }
  unfold filter_body. unfold bindM at 1. unfold print at 1.
  unfold bindM at 1. unfold input at 1. unfold bindM at 1. unfold print at 1.
  cbn [stdin stdout set_stdout]. rewrite Hin.
  unfold bindM at 1. unfold lift at 1. rewrite Hn.
  assert (H123 : str_in choice ["1"; "positive"] = false
                 /\ str_in choice ["2"; "negative"] = false
                 /\ str_in choice ["3"; "sort"] = false)
    by (destruct Hchoice as [-> | ->]; repeat split; reflexivity).
  destruct H123 as (-> & -> & ->). rewrite Hc.
  unfold bindM at 1. unfold input at 1. unfold bindM at 1. unfold print at 1.
  cbn [stdin stdout set_stdout set_stdin].
  rewrite lots_of_filter.
  destruct (lots_of (PyStr.upper answer) stocks) as [|s l].
  - unfold bindM, print, ret. cbn. rewrite <- !app_assoc. reflexivity.
  - rewrite <- !app_assoc. reflexivity.
Qed.

Lemma found_branch s st :
  (e <~ lift (Investment.earnings s) ;;
   r <~ Investment.yearly_return s ;;
   print (OutLookup (Investment.symbol s) e r) ;;;
   ret false) st
  = match Investment.earnings s with
    | Ok e =>
        match Investment.yearly_return s st with
        | (Ok r, st1) => (Ok false, printed (OutLookup (Investment.symbol s) e r) st1)
        | (Raise e', st1) => (Raise e', st1)
        end
    | Raise e => (Raise e, st)
    end.
Proof.
  unfold bindM, lift, print, ret, printed.
  destruct (Investment.earnings s); [|reflexivity].
  destruct (Investment.yearly_return s st) as [[?|?] ?]; reflexivity.
Qed.

(** X13. A lookup round reads two lines and shows the first lot, in list
    order, whose stored symbol equals the upper-cased answer (the answer
    is not stripped); other lots of the symbol are not shown. With no
    such lot it prints "Not found." and the loop goes on. A stock whose
    stored symbol has a lower-case letter is therefore never found,
    whatever the user types. *)
Theorem lookup_shows_first_exact_match stocks st line answer rest choice :
  stdin st = line :: answer :: rest ->
  norm line = Ok choice ->
  str_in choice ["4"; "lookup"] = true ->
  stdin (snd (filter_body stocks st)) = rest
  /\ (forall s, has_lower (Investment.symbol s) = true ->
                ~ (s ∈ lots_of (PyStr.upper answer) stocks))
  /\ match lots_of (PyStr.upper answer) stocks with
     | [] =>
         fst (filter_body stocks st) = Ok false
         /\ stdout (snd (filter_body stocks st))
            = stdout st ++ [Menu; Prompt "Choice: "; Prompt "Enter symbol: "; OutNotFound]
     | s :: _ =>
         (exists e r,
            Investment.earnings s = Ok e
            /\ fst (filter_body stocks st) = Ok false
            /\ stdout (snd (filter_body stocks st))
               = stdout st ++ [Menu; Prompt "Choice: "; Prompt "Enter symbol: ";
                               OutLookup (Investment.symbol s) e r])
         \/ (exists e,
               fst (filter_body stocks st) = Raise e
               /\ stdout (snd (filter_body stocks st))
                  = stdout st ++ [Menu; Prompt "Choice: "; Prompt "Enter symbol: "])
     end.
Proof.
  intros Hin Hn Hc. rewrite (lookup_round _ _ _ _ _ _ Hin Hn Hc).
  split; [|split].
  - destruct (lots_of (PyStr.upper answer) stocks) as [|s l]; [reflexivity|].
    rewrite found_branch.
    destruct (Investment.earnings s) as [e|e]; [|reflexivity].
    match goal with |- context [Investment.yearly_return s ?s0] =>
      pose proof (yearly_return_ticks_only s s0) as Ht;
      destruct (Investment.yearly_return s s0) as [[r|e'] st1]
    end; cbn [snd] in Ht; rewrite Ht; reflexivity.
  - intros s Hl Hs. apply list_elem_of_filter in Hs as [Hs _].
    rewrite Hs, upper_has_no_lower in Hl. discriminate Hl.
  - destruct (lots_of (PyStr.upper answer) stocks) as [|s l]; [split; reflexivity|].
    rewrite found_branch.
    destruct (Investment.earnings s) as [e|e] eqn:Ee; [|right; exists e; split; reflexivity].
    match goal with |- context [Investment.yearly_return s ?s0] =>
      pose proof (yearly_return_ticks_only s s0) as Ht;
      destruct (Investment.yearly_return s s0) as [[r|e'] st1]
    end; cbn [snd] in Ht; rewrite Ht.
    + left. exists e, r. split; [reflexivity|]. split; [reflexivity|].
      cbn. now rewrite <- app_assoc.
    + right. exists e'. split; reflexivity.
Qed.

Lemma lookup_shows_first_exact_match_witness :
  fst (filter_body [lower_case_lot] (sample_state ["4"; "goog"])) = Ok false
  /\ stdout (snd (filter_body [lower_case_lot] (sample_state ["4"; "goog"])))
     = [Menu; Prompt "Choice: "; Prompt "Enter symbol: "; OutNotFound].
Proof.
  destruct (lookup_shows_first_exact_match
              [lower_case_lot] (sample_state ["4"; "goog"]) "4" "goog" [] "4"
              eq_refl eq_refl eq_refl) as (_ & _ & H).
  exact H.
Defined.

(** ** Years held is positive from the first day on *)

Section PositiveQuotient.

Let prec := PyFloat.prec.
Let emax := PyFloat.emax.

Lemma shr_1_lower mrs k :
  0 <= k -> 2 ^ (k + 1) <= shr_m mrs -> 2 ^ k <= shr_m (shr_1 mrs).
Proof.
  intros Hk. rewrite Z.pow_add_r, Z.pow_1_r by lia.
  pose proof (Z.pow_pos_nonneg 2 k ltac:(lia) Hk) as Hpos.
  destruct mrs as [m r s]. cbn [shr_m].
  destruct m as [|[p|p|]|p]; cbn; lia.
Qed.

Lemma iter_shr_1_lower p :
  forall mrs k, 0 <= k -> 2 ^ (k + Zpos p) <= shr_m mrs ->
                2 ^ k <= shr_m (SpecFloat.iter_pos shr_1 p mrs).
Proof.
  induction p as [p IH|p IH|]; intros mrs k Hk Hm; cbn [iter_pos].
  - apply IH; [exact Hk|]. apply IH; [lia|]. apply shr_1_lower; [lia|].
    replace (k + Zpos p + Zpos p + 1) with (k + Zpos p~1) by lia. exact Hm.
  - apply IH; [exact Hk|]. apply IH; [lia|].
    replace (k + Zpos p + Zpos p) with (k + Zpos p~0) by lia. exact Hm.
  - apply shr_1_lower; assumption.
Qed.

Lemma digits2_pos_upper p : Zpos p < 2 ^ Zpos (digits2_pos p).
Proof.
  induction p as [p IH|p IH|]; cbn [digits2_pos]; [| |cbn; lia];
    rewrite Pos2Z.inj_succ, Z.pow_succ_r by lia; lia.
Qed.

Lemma digits2_pos_large p : 2 ^ 52 <= Zpos p -> 53 <= Zpos (digits2_pos p).
Proof.
  intros Hp. destruct (Z.le_gt_cases 53 (Zpos (digits2_pos p))) as [H|H]; [exact H|].
  pose proof (digits2_pos_upper p) as Hu.
  assert (2 ^ Zpos (digits2_pos p) <= 2 ^ 52) by (apply Z.pow_le_mono_r; lia).
  lia.
Qed.

Lemma shr_fexp_lower m e l :
  2 ^ 52 <= m -> -1074 <= e ->
  2 ^ 52 <= shr_m (fst (shr_fexp prec emax m e l))
  /\ -1074 <= snd (shr_fexp prec emax m e l).
Proof.
  intros Hm He. destruct m as [|p|p]; [cbn in Hm; lia| |lia].
  pose proof (digits2_pos_large p Hm) as Hd. pose proof (digits2_pos_lower p) as Hl.
  unfold shr_fexp, shr. cbn [Zdigits2].
  assert (H0 : shr_m (shr_record_of_loc (Zpos p) l) = Zpos p) by (destruct l as [|[]]; reflexivity).
  replace (fexp prec emax (Zpos (digits2_pos p) + e) - e) with (Zpos (digits2_pos p) - 53)
    by (unfold fexp, SpecFloat.emin, prec, emax, PyFloat.prec, PyFloat.emax; lia).
  destruct (Zpos (digits2_pos p) - 53) as [|n|n] eqn:Hn; cbn [fst snd];
    try (rewrite H0; split; [exact Hm|exact He]).
  split; [|lia].
  apply iter_shr_1_lower; [lia|]. rewrite H0.
  replace (52 + Zpos n) with (Zpos (digits2_pos p) - 1) by lia. exact Hl.
Qed.

Lemma round_nearest_even_ge m l : m <= round_nearest_even m l.
Proof.
  destruct l as [|[]]; cbn [round_nearest_even]; try lia. destruct (Z.even m); lia.
Qed.

(** Rounding a mantissa of 53 bits or more, above the subnormal range,
    never gives a zero. *)
Lemma binary_round_aux_nonzero s m e l :
  2 ^ 52 <= m -> -1074 <= e ->
  (exists m' e', binary_round_aux prec emax s m e l = S754_finite s m' e')
  \/ binary_round_aux prec emax s m e l = S754_infinity s.
Proof.
  intros Hm He. unfold binary_round_aux.
  pose proof (shr_fexp_lower m e l Hm He) as [H1 E1].
  destruct (shr_fexp prec emax m e l) as [mrs1 e1]. cbn [fst snd] in H1, E1.
  pose proof (round_nearest_even_ge (shr_m mrs1) (loc_of_shr_record mrs1)) as Hr.
  pose proof (shr_fexp_lower _ e1 loc_Exact (Z.le_trans _ _ _ H1 Hr) E1) as [H2 E2].
  destruct (shr_fexp prec emax _ e1 loc_Exact) as [mrs2 e2]. cbn [fst snd] in H2, E2.
  destruct (shr_m mrs2) as [|q|q]; [cbn in H2; lia| |lia].
  destruct (e2 <=? emax - prec); [left; eauto|right; reflexivity].
Qed.

Lemma div_core_lower m1 e1 m2 e2 :
  Zpos (digits2_pos m1) = 53 -> Zpos (digits2_pos m2) = 53 ->
  -1021 <= e1 - e2 ->
  2 ^ 52 <= fst (fst (SFdiv_core_binary prec emax (Zpos m1) e1 (Zpos m2) e2))
  /\ -1074 <= snd (fst (SFdiv_core_binary prec emax (Zpos m1) e1 (Zpos m2) e2)).
Proof.
  intros D1 D2 He. unfold SFdiv_core_binary. cbn [Zdigits2]. rewrite D1, D2.
  replace (Z.min (fexp prec emax (53 + e1 - (53 + e2))) (e1 - e2)) with (e1 - e2 - 53)
    by (unfold fexp, SpecFloat.emin, prec, emax, PyFloat.prec, PyFloat.emax; lia).
  replace (e1 - e2 - (e1 - e2 - 53)) with 53 by lia.
  pose proof (digits2_pos_lower m1) as L1. rewrite D1 in L1.
  pose proof (digits2_pos_upper m2) as U2. rewrite D2 in U2.
  rewrite Z.shiftl_mul_pow2 by lia.
  pose proof (Z.div_le_lower_bound (Zpos m1 * 2 ^ 53) (Zpos m2) (2 ^ 52) ltac:(lia)) as Hq.
  unfold Z.div in Hq.
  destruct (Z.div_eucl (Zpos m1 * 2 ^ 53) (Zpos m2)) as [q r]. cbn [fst snd].
  split; [|lia]. apply Hq.
  change (2 ^ 53) with 9007199254740992 in *. change (2 ^ 52) with 4503599627370496 in *.
  change (53 - 1) with 52 in L1. change (2 ^ 52) with 4503599627370496 in L1. nia.
Qed.

(** The quotient of two positive normal numbers whose exponents are not
    far apart is positive. *)
Lemma quotient_positive m1 e1 m2 e2 :
  Zpos (digits2_pos m1) = 53 -> Zpos (digits2_pos m2) = 53 ->
  -1021 <= e1 - e2 ->
  PyFloat.leb (PyFloat.quotient (S754_finite false m1 e1) (S754_finite false m2 e2))
              PyFloat.zero = false.
Proof.
  intros D1 D2 He. unfold PyFloat.quotient, SFdiv. fold prec emax.
  pose proof (div_core_lower m1 e1 m2 e2 D1 D2 He) as [Hq Hez].
  destruct (SFdiv_core_binary prec emax (Zpos m1) e1 (Zpos m2) e2) as [[mz ez] lz].
  cbn [fst snd] in Hq, Hez.
  destruct (binary_round_aux_nonzero (xorb false false) mz ez lz Hq Hez)
    as [(m' & e' & ->)| ->]; reflexivity.
Qed.

(** A positive integer below 2^53 converts to a normal number. *)
Lemma round_Z_normal z :
  1 <= z < 2 ^ 53 ->
  exists m e, PyFloat.round_Z z = S754_finite false m e
              /\ Zpos (digits2_pos m) = 53 /\ -52 <= e <= 0.
Proof.
  intros Hz. destruct z as [|p|p]; try lia.
  unfold PyFloat.round_Z, PyFloat.of_scaled, binary_normalize. fold prec emax.
  pose proof (digits2_pos_small p ltac:(lia)) as Hd.
  assert (H1 : 1 <= Zpos (digits2_pos p)) by lia.
  unfold binary_round, shl_align.
  assert (Hf : fexp prec emax (Zpos (digits2_pos p) + 0) = Zpos (digits2_pos p) - 53).
  { unfold fexp, SpecFloat.emin, prec, emax, PyFloat.prec, PyFloat.emax. lia. }
  rewrite Hf.
  destruct (Zpos (digits2_pos p) - 53 - 0) as [|d|d] eqn:Hdiff; try lia.
  - exists p, 0. split; [apply binary_round_aux_exact; lia|]. split; lia.
  - exists (Pos.iter xO p d), (Zpos (digits2_pos p) - 53).
    assert (Hd' : Zpos (digits2_pos (Pos.iter xO p d)) = 53)
      by (rewrite digits2_pos_iter_xO; lia).
    split; [apply binary_round_aux_exact; [exact Hd'|lia]|]. split; [exact Hd'|lia].
Qed.

Lemma years_held_positive z :
  1 <= z < 2 ^ 53 ->
  PyFloat.leb (PyFloat.quotient (PyFloat.round_Z z) PyFloat.days_per_year) PyFloat.zero
  = false.
Proof.
  intros Hz. destruct (round_Z_normal z Hz) as (m & e & -> & Hd & He).
  rewrite days_per_year_value. apply quotient_positive; [exact Hd|reflexivity|lia].
Qed.

End PositiveQuotient.

Lemma yearly_return_run c p s pd st :
  Datetime.strptime_mdy s = Ok pd ->
  Datetime.valid_datetime (clock st (ticks st)) = true ->
  let day_count := Datetime.toordinal (Datetime.on (clock st (ticks st)))
                   - Datetime.toordinal (Datetime.on pd) in
  let years_held := PyFloat.quotient (PyFloat.round_Z day_count) PyFloat.days_per_year in
  -3652059 < day_count < 3652059
  /\ calculate_yearly_return c p s st
     = if PyFloat.leb years_held PyFloat.zero
       then (Ok PyFloat.zero, set_ticks (S (ticks st)) st)
       else match PyFloat.div (PyFloat.sub c p) p with
            | Ok total_return =>
                (Ok (PyFloat.mul (PyFloat.quotient total_return years_held)
                                 PyFloat.hundred), set_ticks (S (ticks st)) st)
            | Raise e => (Raise e, set_ticks (S (ticks st)) st)
            end.
Proof.
  intros Hs Hv day_count years_held.
  destruct (strptime_midnight _ _ Hs) as [Vp Hmid].
  pose proof (days_since_midnight (clock st (ticks st)) pd Hv Hmid) as Hdays.
  fold day_count in Hdays.
  assert (Hb : -3652059 < day_count < 3652059).
  { pose proof (toordinal_bounds _ Vp).
    pose proof (toordinal_bounds _ (proj1 (valid_datetime_bounds _ Hv))).
    unfold day_count. lia. }
  split; [exact Hb|].
  assert (Hb' : Z.abs day_count < 2 ^ 53)
    by (change (2 ^ 53) with 9007199254740992; lia).
  assert (Hyh : years_held_of (clock st (ticks st)) pd = Ok years_held).
  { unfold years_held_of, PyFloat.div_int_l. rewrite Hdays.
    rewrite (proj1 (of_int_small _ Hb')). reflexivity. }
  unfold calculate_yearly_return, bindM, lift, datetime_today. rewrite Hs, Hyh.
  destruct (PyFloat.leb years_held PyFloat.zero) eqn:Hle; [reflexivity|].
  destruct (PyFloat.div (PyFloat.sub c p) p) as [tr|e]; [|reflexivity].
  rewrite (div_nonzero _ _ (leb_false_nonzero _ Hle)). reflexivity.
Qed.

(** X14. The guard of [calculate_yearly_return] fires exactly up to the
    day of purchase: for a purchase date that parses and a valid clock
    reading, years held is [<= 0] if and only if the purchase date is
    the date of the reading or a later one. From the day after the
    purchase on, the function returns the annualised figure, and raises
    [ZeroDivisionError] for a zero purchase price; up to that day it
    returns 0.0 whatever the prices. *)
Theorem yearly_return_zero_until_day_after_purchase c p s pd st :
  Datetime.strptime_mdy s = Ok pd ->
  Datetime.valid_datetime (clock st (ticks st)) = true ->
  let st' := set_ticks (S (ticks st)) st in
  let day_count := Datetime.toordinal (Datetime.on (clock st (ticks st)))
                   - Datetime.toordinal (Datetime.on pd) in
  let years_held := PyFloat.quotient (PyFloat.round_Z day_count) PyFloat.days_per_year in
  (PyFloat.leb years_held PyFloat.zero = true <-> day_count <= 0)
  /\ (day_count <= 0 -> calculate_yearly_return c p s st = (Ok PyFloat.zero, st'))
  /\ (1 <= day_count -> PyFloat.eqb p PyFloat.zero = true ->
      calculate_yearly_return c p s st = (Raise ZeroDivisionError, st'))
  /\ (1 <= day_count -> PyFloat.eqb p PyFloat.zero = false ->
      calculate_yearly_return c p s st
      = (Ok (PyFloat.mul
               (PyFloat.quotient (PyFloat.quotient (PyFloat.sub c p) p) years_held)
               PyFloat.hundred), st')).
Proof.
  intros Hs Hv st' day_count years_held.
  destruct (yearly_return_run c p s pd st Hs Hv) as [Hb Hrun].
  fold day_count in Hb. fold day_count years_held st' in Hrun.
  assert (Hpos : 1 <= day_count -> PyFloat.leb years_held PyFloat.zero = false).
  { intros H. apply years_held_positive. change (2 ^ 53) with 9007199254740992. lia. }
  assert (Hneg : day_count <= 0 -> PyFloat.leb years_held PyFloat.zero = true).
  { intros H. apply years_held_not_positive; [|exact H].
    change (2 ^ 53) with 9007199254740992. lia. }
  split; [|split; [|split]].
  - split; [|exact Hneg].
    intros Hle. destruct (Z.le_gt_cases day_count 0) as [H|H]; [exact H|].
    rewrite Hpos in Hle by lia. discriminate Hle.
  - intros H. now rewrite Hrun, (Hneg H).
  - intros H Hp. now rewrite Hrun, (Hpos H), (div_zero _ _ Hp).
  - intros H Hp. now rewrite Hrun, (Hpos H), (div_nonzero _ _ Hp).
Qed.

Lemma yearly_return_zero_until_day_after_purchase_witness :
  calculate_yearly_return (float_literal "941.53") PyFloat.zero "6/8/2025" (sample_state [])
  = (Raise ZeroDivisionError, set_ticks 1 (sample_state []))
  /\ calculate_yearly_return (float_literal "941.53") PyFloat.zero "6/9/2025"
                             (sample_state [])
     = (Ok PyFloat.zero, set_ticks 1 (sample_state [])).
Proof.
  split.
  - pose proof (yearly_return_zero_until_day_after_purchase
                  (float_literal "941.53") PyFloat.zero "6/8/2025"
                  {| Datetime.on := {| Datetime.year := 2025; Datetime.month := 6;
                                       Datetime.day := 8 |};
                     Datetime.hour := 0; Datetime.minute := 0; Datetime.second := 0;
                     Datetime.microsecond := 0 |}
                  (sample_state []) eq_refl eq_refl) as H.
    cbv zeta in H. destruct H as (_ & _ & H & _).
    apply H; vm_compute; [discriminate|reflexivity].
  - pose proof (yearly_return_zero_until_day_after_purchase
                  (float_literal "941.53") PyFloat.zero "6/9/2025"
                  {| Datetime.on := {| Datetime.year := 2025; Datetime.month := 6;
                                       Datetime.day := 9 |};
                     Datetime.hour := 0; Datetime.minute := 0; Datetime.second := 0;
                     Datetime.microsecond := 0 |}
                  (sample_state []) eq_refl eq_refl) as H.
    cbv zeta in H. destruct H as (_ & H & _).
    apply H; vm_compute; discriminate.
Defined.

(** ** The lines of the chart *)

Lemma append_point_key_elem s p values k :
  k ∈ fst <$> append_point s p values -> k = s \/ k ∈ fst <$> values.
Proof.
  induction values as [|[k' recs] values IH]; cbn [append_point].
  - cbn. intros H. apply list_elem_of_singleton in H. now left.
  - destruct (String.eqb_spec k' s) as [->|Hne]; cbn; [now right|].
    intros H. apply elem_of_cons in H as [->|H]; [right; apply list_elem_of_here|].
    destruct (IH H) as [->|H']; [now left|right; now apply list_elem_of_further].
Qed.

Lemma append_point_NoDup s p values :
  NoDup (fst <$> values) -> NoDup (fst <$> append_point s p values).
Proof.
  induction values as [|[k' recs] values IH]; cbn [append_point].
  - intros _. cbn. apply NoDup_singleton.
  - destruct (String.eqb_spec k' s) as [->|Hne]; cbn; [auto|].
    intros H. apply NoDup_cons in H as [H1 H2]. apply NoDup_cons. split; [|auto].
    intros Hin. apply append_point_key_elem in Hin as [->|Hin]; [now apply Hne|auto].
Qed.

Lemma append_point_Forall (P : string -> point -> Prop) s p values :
  P s p ->
  Forall (fun kv => snd kv <> [] /\ Forall (P (fst kv)) (snd kv)) values ->
  Forall (fun kv => snd kv <> [] /\ Forall (P (fst kv)) (snd kv)) (append_point s p values).
Proof.
  intros Hp. induction values as [|[k' recs] values IH]; cbn [append_point]; intros H.
  - constructor; [|constructor]. cbn. split; [discriminate|]. now constructor.
  - apply Forall_cons in H as [[H1 H2] H3]. cbn [fst snd] in *.
    destruct (String.eqb_spec k' s) as [->|Hne]; constructor; cbn [fst snd]; auto.
    split; [now destruct recs|]. apply Forall_app. split; [exact H2|]. now constructor.
Qed.

Lemma held_some sym portfolio s q :
  held sym portfolio = Ok (Some (s, q)) -> sym = JStr s /\ portfolio !! s = Some q.
Proof.
  destruct sym as [| | | |s'| |]; cbn; try discriminate.
  destruct (portfolio !! s') as [q'|] eqn:E; [|discriminate].
  intros [= <- <-]. auto.
Qed.

Lemma member_default key members s :
  default JNull (member key members) = JStr s -> member key members = Some (JStr s).
Proof. destruct (member key members) as [v|]; cbn; [now intros ->|discriminate]. Qed.

Lemma collect_inv items portfolio :
  forall data values values',
    (forall e, e ∈ data -> e ∈ items) ->
    collect data portfolio values = Ok values' ->
    NoDup (fst <$> values) ->
    Forall (fun kv => snd kv <> [] /\ Forall (from_record items portfolio (fst kv)) (snd kv))
           values ->
    NoDup (fst <$> values')
    /\ Forall (fun kv => snd kv <> []
                         /\ Forall (from_record items portfolio (fst kv)) (snd kv))
              values'.
Proof.
  induction data as [|e data IH]; intros values values' Hsub; cbn [collect].
  - intros [= <-]. auto.
  - assert (Hsub' : forall e', e' ∈ data -> e' ∈ items)
      by (intros e' He'; apply Hsub; now apply list_elem_of_further).
    destruct e as [| | | | | |members]; try discriminate.
    destruct (held (default JNull (member "Symbol" members)) portfolio)
      as [[[s q]|]|err] eqn:Hh; cbn [bind]; [| |discriminate].
    + destruct (held_some _ _ _ _ Hh) as [Hs Hq]. apply member_default in Hs.
      destruct (point_of members q) as [p|err] eqn:Hp.
      * intros Hc Hn Hf. apply (IH _ _ Hsub' Hc).
        -- now apply append_point_NoDup.
        -- apply append_point_Forall; [|exact Hf].
           exists members, q. split; [apply Hsub, list_elem_of_here|auto].
      * intros Hc. now apply (IH _ _ Hsub' Hc).
    + intros Hc. now apply (IH _ _ Hsub' Hc).
Qed.

(** X15. When the first loop of [visualize_json] completes, [values]
    has each symbol once, every symbol is one the portfolio map holds,
    and every symbol has at least one point, so that the unpacking of
    the zipped points in the second loop cannot fail; each point is the date
    and the closing price of a record of that symbol, the price
    multiplied by the quantity the map holds for the symbol. *)
Theorem chart_lines_are_held_and_nonempty data portfolio values :
  values_of data portfolio = Ok values ->
  exists items,
    elements data = Ok items
    /\ NoDup (fst <$> values)
    /\ Forall (fun kv => snd kv <> []
                         /\ Forall (from_record items portfolio (fst kv)) (snd kv))
              values.
Proof.
  unfold values_of. destruct (elements data) as [items|e]; [|discriminate].
  cbn [bind]. intros Hc. exists items. split; [reflexivity|].
  apply (collect_inv items portfolio items [] values); auto.
  - constructor.
Qed.

Lemma chart_lines_are_held_and_nonempty_witness :
  exists values,
    values_of sample_history (portfolio_of two_lots) = Ok values
    /\ fst <$> values = ["GOOG"]
    /\ Forall (fun kv => snd kv <> []) values.
Proof.
  assert (E : values_of sample_history (portfolio_of two_lots)
              = Ok (default [] (to_option (values_of sample_history (portfolio_of two_lots)))))
    by (vm_compute; reflexivity).
  exists (default [] (to_option (values_of sample_history (portfolio_of two_lots)))).
  destruct (chart_lines_are_held_and_nonempty _ _ _ E) as (items & _ & _ & H).
  split; [exact E|]. split; [vm_compute; reflexivity|].
  eapply Forall_impl; [exact H|]. now intros kv [H1 _].
Defined.

Lemma collect_app d1 d2 portfolio :
  forall values,
    collect (d1 ++ d2) portfolio values
    = (v1 <- collect d1 portfolio values ;; collect d2 portfolio v1).
Proof.
  induction d1 as [|e d1 IH]; intros values; cbn [app collect]; [reflexivity|].
  destruct e as [| | | | | |members]; try reflexivity.
  destruct (held _ portfolio) as [[[s q]|]|err]; cbn [bind]; [|apply IH|reflexivity].
  destruct (point_of members q); apply IH.
Qed.

Lemma collect_passed_over e rest portfolio values :
  passed_over e portfolio = true ->
  collect (e :: rest) portfolio values = collect rest portfolio values.
Proof.
  destruct e as [| | | | | |members]; cbn [passed_over collect]; try discriminate.
  destruct (held _ portfolio) as [[[s q]|]|err]; cbn [bind]; try discriminate;
    [|reflexivity].
  destruct (point_of members q); cbn; [discriminate|reflexivity].
Qed.

Lemma collect_raises data portfolio :
  forall values e, collect data portfolio values = Raise e -> e = OtherError.
Proof.
  induction data as [|e' data IH]; intros values e; cbn [collect]; [discriminate|].
  destruct e' as [| | | | | |members]; try (now intros [= <-]).
  destruct (default JNull (member "Symbol" members)) as [| | | |s| |]; cbn [held bind];
    try (now intros [= <-]); try apply IH.
  destruct (portfolio !! s) as [q|]; [|apply IH].
  destruct (point_of members q); apply IH.
Qed.

Lemma collect_malformed data portfolio i e :
  data !! i = Some e -> malformed e = true ->
  forall values, collect data portfolio values = Raise OtherError.
Proof.
  revert i. induction data as [|e' data IH]; intros [|i] Hi Hm values; try discriminate.
  - injection Hi as ->. cbn [collect].
    destruct e as [| | | | | |members]; try reflexivity. cbn [malformed] in Hm.
    destruct (default JNull (member "Symbol" members)); cbn [held bind];
      try discriminate; reflexivity.
  - destruct (collect (e' :: data) portfolio values) as [v|err] eqn:E;
      [|now rewrite (collect_raises _ _ _ _ E)].
    exfalso. revert E. cbn [collect].
    destruct e' as [| | | | | |members]; try discriminate.
    destruct (held _ portfolio) as [[[s q]|]|err]; cbn [bind]; try discriminate.
    + destruct (point_of members q); now rewrite (IH i Hi Hm).
    + now rewrite (IH i Hi Hm).
Qed.

(** X16. The inner [try] makes a bad record cost only itself: a record
    whose symbol is not held, or whose date or closing price cannot be
    used, leaves [values] as if the record were not in the file. The
    outer [try] is all there is for an element that is no object, or
    whose symbol is an array or an object: wherever it stands in the
    file, no chart is saved and "Visualization failed" is printed. *)
Theorem chart_skips_records_not_elements portfolio :
  (forall before e after values,
     passed_over e portfolio = true ->
     collect (before ++ e :: after) portfolio values
     = collect (before ++ after) portfolio values)
  /\ (forall items i e plot json_file st,
        items !! i = Some e ->
        malformed e = true ->
        chart st = chart_of (Ok (JArr items)) plot ->
        visualize_json json_file portfolio st
        = (Ok tt, printed (VizFailed OtherError) st)).
Proof.
  split.
  - intros before e after values He. rewrite !collect_app.
    destruct (collect before portfolio values) as [v1|err]; [|reflexivity].
    cbn [bind]. now apply collect_passed_over.
  - intros items i e plot json_file st Hi Hm Hc.
    unfold visualize_json, try_except, bindM. rewrite Hc.
    unfold chart_of, values_of. cbn [bind elements].
    rewrite (collect_malformed items portfolio i e Hi Hm). reflexivity.
Qed.

Lemma chart_skips_records_not_elements_witness :
  collect [price "GOOG" "3-Jan-17" "786.14"; price "GOOG" "30-Feb-17" "800.00"]
          (portfolio_of two_lots) []
  = collect [price "GOOG" "3-Jan-17" "786.14"] (portfolio_of two_lots) []
  /\ stdout (snd (visualize_json "AllStocks.json" (portfolio_of two_lots)
                    (history_state (JArr [price "GOOG" "3-Jan-17" "786.14"; JInt 5]))))
     = [VizFailed OtherError].
Proof.
  pose proof (chart_skips_records_not_elements (portfolio_of two_lots)) as [H1 H2].
  split.
  - apply (H1 [price "GOOG" "3-Jan-17" "786.14"] (price "GOOG" "30-Feb-17" "800.00") [] []).
    vm_compute. reflexivity.
  - rewrite (H2 [price "GOOG" "3-Jan-17" "786.14"; JInt 5] 1%nat (JInt 5)
               (fun _ => Ok tt) "AllStocks.json"
               (history_state (JArr [price "GOOG" "3-Jan-17" "786.14"; JInt 5]))
               eq_refl eq_refl eq_refl).
    reflexivity.
Defined.

Lemma lex_ltb_irrefl a : Datetime.lex_ltb a a = false.
Proof.
  induction a as [|x a IH]; [reflexivity|]. cbn [Datetime.lex_ltb].
  rewrite Z.ltb_irrefl, Z.eqb_refl, IH. reflexivity.
Qed.

Lemma lex_ltb_asym a :
  forall b, Datetime.lex_ltb a b = true -> Datetime.lex_ltb b a = false.
Proof.
  induction a as [|x a IH]; intros [|y b]; cbn [Datetime.lex_ltb]; try congruence.
  intros H. apply orb_true_iff in H as [H|H].
  - apply Z.ltb_lt in H. apply orb_false_iff. split; [apply Z.ltb_ge; lia|].
    apply andb_false_iff. left. apply Z.eqb_neq. lia.
  - apply andb_true_iff in H as [H1 H2]. apply Z.eqb_eq in H1 as ->.
    rewrite Z.ltb_irrefl, Z.eqb_refl, (IH b H2). reflexivity.
Qed.

Lemma insert_by_date_perm x l : insert_by_date x l ≡ₚ x :: l.
Proof.
  induction l as [|y l IH]; cbn [insert_by_date]; [reflexivity|].
  destruct (Datetime.ltb (fst y) (fst x)); [|reflexivity].
  rewrite IH. apply Permutation_swap.
Qed.

Lemma sort_by_date_perm l : sort_by_date l ≡ₚ l.
Proof.
  induction l as [|x l IH]; [reflexivity|]. unfold sort_by_date in *. cbn [foldr].
  rewrite insert_by_date_perm. now constructor.
Qed.

Lemma insert_by_date_forward x l : forward l -> forward (insert_by_date x l).
Proof.
  induction l as [|y l IH]; cbn [insert_by_date]; intros Hs; [exact I|].
  destruct (Datetime.ltb (fst y) (fst x)) eqn:E.
  - destruct l as [|z l]; cbn [insert_by_date].
    + split; [|exact I]. unfold not_later. now apply lex_ltb_asym.
    + destruct Hs as [Hyz Hs]. specialize (IH Hs). cbn [insert_by_date] in IH.
      destruct (Datetime.ltb (fst z) (fst x)).
      * split; [exact Hyz|exact IH].
      * split; [|exact IH]. unfold not_later. now apply lex_ltb_asym.
  - split; [exact E|exact Hs].
Qed.

Lemma sort_by_date_forward l : forward (sort_by_date l).
Proof.
  induction l as [|x l IH]; [exact I|]. unfold sort_by_date in *. cbn [foldr].
  now apply insert_by_date_forward.
Qed.

Lemma insert_by_date_dated d x l : dated d (insert_by_date x l) = dated d (x :: l).
Proof.
  unfold dated. induction l as [|y l IH]; cbn [insert_by_date]; [reflexivity|].
  destruct (Datetime.ltb (fst y) (fst x)) eqn:E; [|reflexivity].
  rewrite filter_cons, IH, !filter_cons.
  destruct (decide (Datetime.fields (fst x) = Datetime.fields d)) as [Hx|Hx];
    [|reflexivity].
  destruct (decide (Datetime.fields (fst y) = Datetime.fields d)) as [Hy|Hy];
    [|reflexivity].
  exfalso. unfold Datetime.ltb in E. rewrite Hx, Hy, lex_ltb_irrefl in E. discriminate E.
Qed.

Lemma sort_by_date_dated d l : dated d (sort_by_date l) = dated d l.
Proof.
  induction l as [|x l IH]; [reflexivity|]. unfold sort_by_date in *. cbn [foldr].
  rewrite insert_by_date_dated. unfold dated in *. rewrite !filter_cons, IH. reflexivity.
Qed.

(** X17. The lines handed to the plotting library are those of
    [values], in the same order; each line has the points of its symbol,
    none lost and none added, no point followed by an earlier one, and
    the points of one date in the order of the file. *)
Theorem chart_lines_go_forward_in_time values :
  fst <$> plotted values = fst <$> values
  /\ Forall2 (fun kv kv' =>
                fst kv' = fst kv
                /\ snd kv' ≡ₚ snd kv
                /\ forward (snd kv')
                /\ forall d, dated d (snd kv') = dated d (snd kv))
             values (plotted values).
Proof.
  unfold plotted. split.
  - rewrite <- list_fmap_compose. reflexivity.
  - induction values as [|kv values IH]; constructor; [|exact IH].
    cbn [fst snd]. split; [reflexivity|]. split; [apply sort_by_date_perm|].
    split; [apply sort_by_date_forward|]. intros d. apply sort_by_date_dated.
Qed.

(** ** Sorting by yearly return *)

Lemma map_M_raises {A B} (f : A -> M B) (l : list A) i x :
  l !! i = Some x ->
  (forall st, exists e, fst (f x st) = Raise e) ->
  forall st, exists e, fst (map_M f l st) = Raise e.
Proof.
  revert i. induction l as [|y l IH]; intros [|i] Hi Hx st; try discriminate;
    cbn [map_M]; unfold bindM at 1.
  - injection Hi as ->. destruct (Hx st) as [e He].
    destruct (f x st) as [[b|e'] st1]; [discriminate He|]. now exists e'.
  - destruct (f y st) as [[b|e'] st1]; [|now exists e'].
    unfold bindM at 1. destruct (IH i Hi Hx st1) as [e He].
    destruct (map_M f l st1) as [[bs|e'] st2]; [discriminate He|]. now exists e'.
Qed.

Lemma bindM_raises {A B} (m : M A) (k : A -> M B) st e st1 :
  m st = (Raise e, st1) -> bindM m k st = (Raise e, st1).
Proof. intros H. unfold bindM. now rewrite H. Qed.

Lemma sort_round stocks st line rest choice :
  stdin st = line :: rest ->
  norm line = Ok choice ->
  str_in choice ["3"; "sort"] = true ->
  filter_body stocks st
  = (keyed <~ map_M (fun s => k <~ Investment.yearly_return s ;; ret (k, s)) stocks ;;
     for_each (sort_desc keyed) (fun ks =>
       r <~ Investment.yearly_return (snd ks) ;;
       print (OutYearly (Investment.symbol (snd ks)) r)) ;;;
     ret false)
      (set_stdin rest (set_stdout (stdout st ++ [Menu; Prompt "Choice: "]) st)).
Proof.
  intros Hin Hn Hc.
  assert (Hchoice : choice = "3" \/ choice = "sort").
  { cbn in Hc. apply orb_true_iff in Hc as [Hc|Hc]; [left; now apply String.eqb_eq|].
    apply orb_true_iff in Hc as [Hc|Hc]; [right; now apply String.eqb_eq|discriminate]. }
  unfold filter_body. unfold bindM at 1. unfold print at 1.
  unfold bindM at 1. unfold input at 1. unfold bindM at 1. unfold print at 1.
  cbn [stdin stdout set_stdout]. rewrite Hin.
  unfold bindM at 1. unfold lift at 1. rewrite Hn.
  assert (H12 : str_in choice ["1"; "positive"] = false
                /\ str_in choice ["2"; "negative"] = false)
    by (destruct Hchoice as [-> | ->]; split; reflexivity).
  destruct H12 as (-> & ->). rewrite Hc. rewrite <- !app_assoc. reflexivity.
Qed.

Lemma keys_ticks_only stocks :
  preserves ticks_only
    (map_M (fun s => k <~ Investment.yearly_return s ;; ret (k, s)) stocks).
Proof.
  unfold Investment.yearly_return, calculate_yearly_return. preserves_all.
Qed.

(** X18. Sorting computes the yearly return of every stock before it
    prints the first line: when the purchase date of any stock does not
    parse, option 3 prints no line at all, for no stock, and the
    exception leaves the loop. *)
Theorem sort_prints_nothing_when_a_date_is_bad stocks st line rest choice i s :
  stdin st = line :: rest ->
  norm line = Ok choice ->
  str_in choice ["3"; "sort"] = true ->
  stocks !! i = Some s ->
  Datetime.strptime_mdy (Investment.purchase_date s) = Raise ValueError ->
  (exists e, fst (filter_body stocks st) = Raise e
             /\ fst (interactive_portfolio_filter stocks st) = Raise e)
  /\ stdout (snd (filter_body stocks st)) = stdout st ++ [Menu; Prompt "Choice: "]
  /\ stdin (snd (filter_body stocks st)) = rest.
Proof.
  intros Hin Hn Hc Hi Hd.
  assert (Hbad : forall st0, exists e,
             fst ((fun s => k <~ Investment.yearly_return s ;; ret (k, s)) s st0) = Raise e).
  { intros st0. exists ValueError. unfold bindM.
    unfold Investment.yearly_return.
    rewrite (yearly_return_bad_date _ _ _ ValueError st0 Hd). reflexivity. }
  assert (Hbody : exists e,
             fst (filter_body stocks st) = Raise e
             /\ snd (filter_body stocks st)
                = set_ticks (ticks (snd (filter_body stocks st)))
                            (set_stdin rest
                               (set_stdout (stdout st ++ [Menu; Prompt "Choice: "]) st))).
  { rewrite (sort_round _ _ _ _ _ Hin Hn Hc).
    match goal with |- context [bindM (map_M ?f stocks) ?k ?s0] =>
      destruct (map_M_raises f stocks i s Hi Hbad s0) as [e He];
      pose proof (keys_ticks_only stocks s0) as Ht;
      destruct (map_M f stocks s0) as [[ks|e'] st1] eqn:E;
      [discriminate He|rewrite (bindM_raises _ k _ _ _ E)]
    end.
    exists e'. split; [reflexivity|exact Ht]. }
  destruct Hbody as (e & He & Hs). split; [|rewrite Hs; split; reflexivity].
  exists e. split; [exact He|].
  unfold interactive_portfolio_filter.
  destruct (length (stdin st)); cbn [while_true]; unfold bindM;
    destruct (filter_body stocks st) as [[b|e'] st1]; cbn in He |- *; congruence.
Qed.

Lemma sort_prints_nothing_when_a_date_is_bad_witness :
  stdout (snd (filter_body [s1_at "941.53"; iso_dated] (sample_state ["3"; "5"])))
  = [Menu; Prompt "Choice: "]
  /\ stdin (snd (filter_body [s1_at "941.53"; iso_dated] (sample_state ["3"; "5"]))) = ["5"].
Proof.
  destruct (sort_prints_nothing_when_a_date_is_bad
              [s1_at "941.53"; iso_dated] (sample_state ["3"; "5"]) "3" ["5"] "3"
              1%nat iso_dated eq_refl eq_refl eq_refl eq_refl eq_refl) as (_ & H1 & H2).
  split; [exact H1|exact H2].
Defined.

(** ** A run without input files *)

Lemma bindM_ok {A B} (m : M A) (k : A -> M B) st a st1 :
  m st = (Ok a, st1) -> bindM m k st = k a st1.
Proof. intros H. unfold bindM. now rewrite H. Qed.

Lemma snd_then (m k : M unit) st :
  fst (m st) = Ok tt -> snd ((m ;;; k) st) = snd (k (snd (m st))).
Proof. unfold bindM. destruct (m st) as [[[]|e] st1]; cbn; [reflexivity|discriminate]. Qed.

Lemma write_report_returns investor stocks bonds f st :
  fst (write_report investor stocks bonds f st) = Ok tt.
Proof.
  unfold write_report, try_except.
  match goal with |- fst (match ?b with _ => _ end) = _ => destruct b as [[[]|e] st1] end;
    reflexivity.
Qed.

Lemma export_csv_returns stocks f st : fst (export_csv stocks f st) = Ok tt.
Proof.
  unfold export_csv, try_except.
  match goal with |- fst (match ?b with _ => _ end) = _ => destruct b as [[[]|e] st1] end;
    reflexivity.
Qed.

Lemma setup_database_silent db_path stocks bonds :
  preserves silent (setup_database db_path stocks bonds).
Proof. unfold setup_database. preserves_all. Qed.

Lemma write_report_grows investor stocks bonds f :
  preserves grows (write_report investor stocks bonds f).
Proof.
  unfold write_report, Investment.yearly_return, calculate_yearly_return. preserves_all.
Qed.

Lemma after_export_grows stocks conn :
  preserves grows
    (interactive_portfolio_filter stocks ;;;
     visualize_json "AllStocks.json" (portfolio_of stocks) ;;;
     close conn).
Proof.
  apply preserves_bind; [exact _| |intros _].
  { intros st. unfold interactive_portfolio_filter. apply preserves_while; [exact _|].
    unfold filter_body, Investment.yearly_return, calculate_yearly_return. preserves_all. }
  unfold visualize_json. preserves_all.
Qed.

Lemma after_export_written stocks conn :
  preserves written_kept
    (interactive_portfolio_filter stocks ;;;
     visualize_json "AllStocks.json" (portfolio_of stocks) ;;;
     close conn).
Proof.
  apply preserves_bind; [exact _| |intros _].
  { intros st. unfold interactive_portfolio_filter. apply preserves_while; [exact _|].
    unfold filter_body, Investment.yearly_return, calculate_yearly_return. preserves_all. }
  unfold visualize_json. preserves_all.
Qed.

Lemma read_stocks_missing f st :
  files st !! f = None ->
  read_stocks f st = (Ok [], printed (ErrReadStock f FileNotFoundError) st).
Proof. intros H. unfold read_stocks, open_r. rewrite H. reflexivity. Qed.

Lemma read_bonds_missing f st :
  files st !! f = None ->
  read_bonds f st = (Ok [], printed (ErrReadBond f FileNotFoundError) st).
Proof. intros H. unfold read_bonds, open_r. rewrite H. reflexivity. Qed.

(** X19. Missing input files do not stop the run. When neither the
    stock file nor the bond file exists, the database can be opened and
    the two output files can be written, [main] prints the two read
    failures and goes on with no stock and the hardcoded bond alone: the
    stocks table keeps its rows, "B999" is upserted into the bonds
    table, the report holds its headings and the one bond line, and the
    CSV file holds its header only. This holds however the filter loop
    ends afterwards. *)
Theorem missing_inputs_do_not_stop_the_run st :
  files st !! "Lesson6_Data_Stocks.txt" = None ->
  files st !! "Week6_Data_Bonds.txt" = None ->
  db_disk st <> None ->
  db_pending st = None ->
  writable st "Investment_Report.txt" = true ->
  writable st "stock_summary.csv" = true ->
  stored Stocks (snd (main st)) = stored Stocks st
  /\ stored Bonds (snd (main st)) = upsert_all [b999_row] (stored Bonds st)
  /\ content "Investment_Report.txt" (snd (main st))
     = report_head the_investor ++ bonds_head ++ [b999_line]
  /\ content "stock_summary.csv" (snd (main st)) = [csv_header]
  /\ (stdout st ++ [ErrReadStock "Lesson6_Data_Stocks.txt" FileNotFoundError;
                    ErrReadBond "Week6_Data_Bonds.txt" FileNotFoundError])
       `prefix_of` stdout (snd (main st)).
Proof.
  intros Hf1 Hf2 Hd Hp Hw1 Hw2.
  pose proof (read_stocks_missing _ _ Hf1) as E1.
  set (st1 := printed (ErrReadStock "Lesson6_Data_Stocks.txt" FileNotFoundError) st) in *.
  pose proof (read_bonds_missing "Week6_Data_Bonds.txt" st1 Hf2) as E2.
  set (st2 := printed (ErrReadBond "Week6_Data_Bonds.txt" FileNotFoundError) st1) in *.
  destruct (db_disk st) as [s|] eqn:Hds; [clear Hd|congruence].
  assert (Hrow : map_result bond_row [b999] = Ok [b999_row]) by (vm_compute; reflexivity).
  destruct (setup_database_stores "portfolio.db" [] [b999] st2 s [] [b999_row]
              Hds Hp eq_refl Hrow) as (st3 & E3 & Hp3 & Hd3 & _).
  pose proof (setup_database_silent "portfolio.db" [] [b999] st2) as Hsil.
  rewrite E3 in Hsil. cbn [snd] in Hsil. destruct Hsil as (Hwr3 & Hwa3 & Ho3).
  assert (Hrun : main st
                 = (write_report the_investor [] [b999] "Investment_Report.txt" ;;;
                    export_csv [] "stock_summary.csv" ;;;
                    interactive_portfolio_filter [] ;;;
                    visualize_json "AllStocks.json" (portfolio_of []) ;;;
                    close (Connection (opened st2))) st3).
  { unfold main. cbv zeta.
    rewrite (bindM_ok _ _ _ _ _ E1), (bindM_ok _ _ _ _ _ E2).
    unfold bindM at 1. unfold lift at 1.
    change (Bond.init "B999" "GT2:GOV" (VInt 200) (VFloat (float_literal "100.02"))
              (VFloat (float_literal "100.05")) (VFloat (float_literal "1.38"))
              "1.35%" "8/1/2017") with hardcoded_bond.
    rewrite hardcoded_bond_value. cbn [app].
    rewrite (bindM_ok _ _ _ _ _ E3). reflexivity. }
  rewrite Hrun. clear Hrun.
  pose proof (after_setup_keeps_disk the_investor [] [b999] (Connection (opened st2)) st3)
    as Hdisk.
  rewrite (snd_then _ _ _ (write_report_returns _ _ _ _ _)) in *.
  set (st4 := snd (write_report the_investor [] [b999] "Investment_Report.txt" st3)) in *.
  rewrite (snd_then _ _ _ (export_csv_returns _ _ _)) in *.
  set (st5 := snd (export_csv [] "stock_summary.csv" st4)) in *.
  pose proof (after_export_grows [] (Connection (opened st2)) st5) as Hg6.
  pose proof (after_export_written [] (Connection (opened st2)) st5) as Hw6.
  set (st6 := snd ((interactive_portfolio_filter [] ;;;
                    visualize_json "AllStocks.json" (portfolio_of []) ;;;
                    close (Connection (opened st2))) st5)) in *.
  pose proof (write_report_grows the_investor [] [b999] "Investment_Report.txt" st3) as Hg4.
  fold st4 in Hg4.
  assert (Hw3 : writable st3 "Investment_Report.txt" = true) by (now rewrite Hwa3).
  destruct (write_report_inv the_investor [] [b999] "Investment_Report.txt" st3 Hw3)
    as (srows & brows & S1 & B1 & HR & Hother4).
  fold st4 in HR, Hother4.
  assert (Hw4 : writable st4 "stock_summary.csv" = true).
  { destruct Hg4 as [-> _]. now rewrite Hwa3. }
  destruct (export_csv_inv [] "stock_summary.csv" st4 Hw4) as (rows & C1 & _ & HC & Hother5).
  fold st5 in C1, HC, Hother5.
  destruct b999_earnings as [Hearn _].
  destruct HR as [(Hs0 & Hb1 & HR & Ho4)
                 |[(_ & Hlt & _ & _ & b & e & Hb & He)|(Hlt & _)]];
    [|exfalso|cbn in Hlt; lia].
  2:{ destruct brows; [|cbn in Hlt; lia]. cbn in Hb. injection Hb as <-. congruence. }
  destruct srows; [|discriminate Hs0].
  destruct brows as [|l [|]]; try discriminate Hb1.
  apply Forall2_cons_1 in B1 as [(e & He & ->) _].
  rewrite Hearn in He. injection He as <-.
  destruct HC as [(Hr0 & Ho5)|(Hlt & _)]; [|cbn in Hlt; lia].
  destruct rows; [|discriminate Hr0].
  destruct Hw6 as [Hw6 _]. destruct Hg6 as [_ Hg6].
  assert (Hst : forall tn, stored tn st6 = stored tn st3)
    by (intros tn; now apply stored_disk).
  split; [|split; [|split; [|split]]].
  - rewrite Hst. unfold stored. rewrite Hd3, Hds. reflexivity.
  - rewrite Hst. unfold stored. rewrite Hd3, Hds. reflexivity.
  - unfold content at 1. rewrite Hw6. fold (content "Investment_Report.txt" st5).
    rewrite Hother5 by discriminate. exact HR.
  - unfold content at 1. rewrite Hw6. exact C1.
  - etransitivity; [|exact Hg6]. rewrite Ho5, Ho4, Ho3. unfold st2, st1, printed. cbn.
    rewrite <- app_assoc. reflexivity.
Qed.

Lemma missing_inputs_do_not_stop_the_run_witness :
  content "Investment_Report.txt" (snd (main (no_input_state ["5"])))
  = report_head the_investor ++ bonds_head ++ [b999_line]
  /\ content "stock_summary.csv" (snd (main (no_input_state ["5"]))) = [csv_header]
  /\ stored Bonds (snd (main (no_input_state ["5"]))) = [b999_row].
Proof.
  destruct (missing_inputs_do_not_stop_the_run (no_input_state ["5"])
              eq_refl eq_refl ltac:(discriminate) eq_refl eq_refl eq_refl)
    as (_ & H2 & H3 & H4 & _).
  split; [exact H3|]. split; [exact H4|exact H2].
Defined.

(** ** Gains and losses *)

Lemma listing_loop (test : float -> bool) stocks :
  Forall (fun s => is_ok (Investment.earnings s) = true) stocks ->
  forall st,
    for_each stocks (fun s =>
      e <~ lift (Investment.earnings s) ;;
      if test e
      then e' <~ lift (Investment.earnings s) ;; print (OutEarnings (Investment.symbol s) e')
      else ret tt) st
    = (Ok tt, set_stdout (stdout st ++ listing test stocks) st).
Proof.
  induction 1 as [|s stocks Hs _ IH]; intros st; cbn [for_each].
  - unfold listing. cbn. rewrite app_nil_r. now destruct st.
  - destruct (Investment.earnings s) as [e|err] eqn:Ee; [|discriminate Hs].
    match goal with |- bindM ?m ?k st = _ =>
      assert (Hstep : m st
                      = (Ok tt, if test e
                                then printed (OutEarnings (Investment.symbol s) e) st
                                else st))
    end.
    { unfold bindM, lift, print, ret, printed. rewrite ?Ee. destruct (test e); reflexivity. }
    rewrite (bindM_ok _ _ _ _ _ Hstep), IH. unfold listing. cbn [flat_map]. rewrite Ee.
    destruct (test e); [|reflexivity].
    unfold printed. cbn. rewrite <- app_assoc. reflexivity.
Qed.

Lemma ltb_one_way x : PyFloat.ltb PyFloat.zero x = true -> PyFloat.ltb x PyFloat.zero = false.
Proof. destruct x as [[]|[]| |[] m e]; cbn; congruence. Qed.

(** X20. Options 1 and 2 of the filter list, in list order, the stocks
    whose earnings are above zero and those whose earnings are below
    zero, each with its symbol and earnings, and read one line. No stock
    is in both listings; a stock whose earnings are zero, or are not a
    number, is in neither. (Stated for quantities that convert to a
    float, so that all earnings can be computed.) *)
Theorem gains_and_losses_listings stocks st line rest choice :
  stdin st = line :: rest ->
  norm line = Ok choice ->
  Forall (fun s => is_ok (Investment.earnings s) = true) stocks ->
  (str_in choice ["1"; "positive"] = true ->
   filter_body stocks st
   = (Ok false,
      set_stdin rest
        (set_stdout (stdout st ++ [Menu; Prompt "Choice: "] ++ gains stocks) st)))
  /\ (str_in choice ["2"; "negative"] = true ->
      filter_body stocks st
      = (Ok false,
         set_stdin rest
           (set_stdout (stdout st ++ [Menu; Prompt "Choice: "] ++ losses stocks) st)))
  /\ (forall o, o ∈ gains stocks -> o ∈ losses stocks -> False).
Proof.
  intros Hin Hn Hok. split; [|split].
  - intros Hc. unfold filter_body. unfold bindM at 1. unfold print at 1.
    unfold bindM at 1. unfold input at 1. unfold bindM at 1. unfold print at 1.
    cbn [stdin stdout set_stdout]. rewrite Hin.
    unfold bindM at 1. unfold lift at 1. rewrite Hn, Hc.
    unfold bindM at 1. rewrite (listing_loop (PyFloat.ltb PyFloat.zero) stocks Hok).
    unfold ret, gains. cbn. rewrite <- !app_assoc. reflexivity.
  - intros Hc.
    assert (H1 : str_in choice ["1"; "positive"] = false).
    { cbn in Hc. apply orb_true_iff in Hc as [Hc|Hc];
        [apply String.eqb_eq in Hc as ->; reflexivity|].
      apply orb_true_iff in Hc as [Hc|Hc]; [|discriminate].
      apply String.eqb_eq in Hc as ->; reflexivity. }
    unfold filter_body. unfold bindM at 1. unfold print at 1.
    unfold bindM at 1. unfold input at 1. unfold bindM at 1. unfold print at 1.
    cbn [stdin stdout set_stdout]. rewrite Hin.
    unfold bindM at 1. unfold lift at 1. rewrite Hn, H1, Hc.
    unfold bindM at 1.
    rewrite (listing_loop (fun e => PyFloat.ltb e PyFloat.zero) stocks Hok).
    unfold ret, losses. cbn. rewrite <- !app_assoc. reflexivity.
  - intros o Hg Hl. unfold gains, losses, listing in Hg, Hl.
    apply list_elem_of_In, in_flat_map in Hg as (s & _ & Hg).
    apply list_elem_of_In, in_flat_map in Hl as (s' & _ & Hl).
    destruct (Investment.earnings s) as [e|]; [|destruct Hg].
    destruct (PyFloat.ltb PyFloat.zero e) eqn:Hpos; [|destruct Hg].
    destruct Hg as [<-|[]].
    destruct (Investment.earnings s') as [e'|]; [|destruct Hl].
    destruct (PyFloat.ltb e' PyFloat.zero) eqn:Hneg; [|destruct Hl].
    destruct Hl as [Hl|[]]. injection Hl as _ <-.
    rewrite (ltb_one_way _ Hpos) in Hneg. discriminate Hneg.
Qed.

Lemma gains_and_losses_listings_witness :
  stdout (snd (filter_body [s1_at "941.53"; losing_lot; unpriced_lot]
                           (sample_state ["positive"])))
  = [Menu; Prompt "Choice: ";
     OutEarnings "GOOG" (S754_finite false 5794769875763199 (-38))]
  /\ losses [s1_at "941.53"; losing_lot; unpriced_lot]
     = [OutEarnings "IBM" (S754_finite true 8796093022208000 (-44))].
Proof.
  destruct (gains_and_losses_listings
              [s1_at "941.53"; losing_lot; unpriced_lot] (sample_state ["positive"])
              "positive" [] "positive" eq_refl eq_refl) as (H1 & _ & _).
  - repeat constructor.
  - split; [rewrite (H1 eq_refl)|]; vm_compute; reflexivity.
Defined.
